(** * strato-sdk: retrieval strategies and the streaming research agent

    A shallow embedding of the Go sources

    - [adapters/search/strategy.go], [adapters/search/registry.go]
    - [adapters/web/strategy.go], [adapters/web/registry.go]
    - [core/agent] (the streaming research agent and its constants)

    Conventions of the embedding.

    - Go [int] is a 64-bit two's complement integer: values are in [Z] and the
      arithmetic that the sources perform on them is wrapped by [Go.wrap].
    - Go [string] is a byte string, here [string] (a list of 8-bit
      characters).  [strings.ToLower] and [strings.Fields] are modelled on
      ASCII text: bytes above 127 are neither letters nor white space.  The
      de-duplication of questions is also given with these two functions as
      parameters ([Agent.Library]), and what is proved of it in that form
      holds of the library's functions on all text.
    - Go [error] values are the inductive [Go.error], which keeps the shape
      that [fmt.Errorf] gives them.
    - A function that can dereference nil returns [Go.Panicked] there.
    - External collaborators (adapters, the chat model, the tools, the graph
      runner of the eino library) are parameters of the functions that call
      them.  They are taken to keep their contract: a factory returns an
      adapter or an error, a call returns, and the lists of a response hold
      no nil entry. *)

From Stdlib Require Import ZArith QArith Lia Ascii String.
From stdpp Require Import base gmap strings list pretty.

#[local] Set Warnings "-clear-no-such-hyp".

Local Open Scope string_scope.
Local Open Scope list_scope.
Local Open Scope Z_scope.

(* ===================================================================== *)
(** * Go runtime notions shared by all packages *)
(* ===================================================================== *)

Module Go.

(** ** Machine integers *)

Definition min_int : Z := - 2 ^ 63.
Definition max_int : Z := 2 ^ 63 - 1.

(** Two's complement wrap-around of a mathematical integer. *)
Definition wrap (x : Z) : Z := (x + 2 ^ 63) mod 2 ^ 64 - 2 ^ 63.

Definition is_int (x : Z) : Prop := min_int <= x <= max_int.

Definition sub (a b : Z) : Z := wrap (a - b).
Definition add (a b : Z) : Z := wrap (a + b).
(** Go's [/] truncates toward zero. *)
Definition div (a b : Z) : Z := wrap (Z.quot a b).

(** [len] of a slice or string. *)
Definition len {A} (l : list A) : Z := Z.of_nat (length l).

(** ** Errors *)

(** [errorString] is an error made outside the modelled code or by
    [fmt.Errorf] without an error argument; [wrapError msg cause] is
    [fmt.Errorf (msg ++ "%w") cause] ([cause] may be nil); [listError msg
    errs] is [fmt.Errorf (msg ++ "%v") errs] for a slice of errors. *)
#[local] Unset Elimination Schemes.
Inductive error : Type :=
| errorString (msg : string)
| wrapError (msg : string) (cause : option error)
| listError (msg : string) (errs : list error).
#[local] Set Elimination Schemes.

(** The text of an error (its [Error()] method). *)
Fixpoint Error (e : error) : string :=
  match e with
  | errorString msg => msg
  | wrapError msg cause =>
      msg +:+ match cause with
              | Some c => Error c
              | None => "%!w(<nil>)"
              end
  | listError msg errs =>
      msg +:+ "[" +:+ String.concat " " (List.map Error errs) +:+ "]"
  end.

(** The errors that an error made from a slice of errors lists. *)
Definition listed (e : error) : list error :=
  match e with
  | listError _ errs => errs
  | _ => []
  end.

(** ** Results of calls *)

(** A Go call returning [(T, error)] either returns a value, returns an
    error, or panics. *)
Inductive outcome (T : Type) : Type :=
| Return (v : T)
| Fail (e : error)
| Panicked (why : string).
Global Arguments Return {T} v.
Global Arguments Fail {T} e.
Global Arguments Panicked {T} why.

Definition nilDereference : string :=
  "invalid memory address or nil pointer dereference".

(** ** Slices whose nil-ness is observed *)

(** [None] is the nil slice. *)
Definition elems {A} (s : option (list A)) : list A := default [] s.

(** The slice obtained from [var s []T] by appending the elements of [l]
    one at a time: nil when nothing was appended. *)
Definition appended {A} (l : list A) : option (list A) :=
  match l with
  | [] => None
  | _ => Some l
  end.

(** [s[:n]] for [0 <= n <= len s]. *)
Definition slice_to {A} (n : Z) (l : list A) : list A := take (Z.to_nat n) l.

End Go.

Import Go.

(* ===================================================================== *)
(** * Ordered de-duplication by key: the specification side *)
(* ===================================================================== *)

(** The items of [l] that are the first of their key: an item is kept when
    its key is empty or differs from the key of every item before it
    ([before] holds the keys of the items that precede [l]). *)
Fixpoint firstOccurrences_from {A} (key : A -> string)
    (before : list string) (l : list A) : list A :=
  match l with
  | [] => []
  | x :: l' =>
      (if decide (key x = "" \/ key x ∉ before) then [x] else [])
        ++ firstOccurrences_from key (before ++ [key x]) l'
  end.

Definition firstOccurrences {A} (key : A -> string) (l : list A) : list A :=
  firstOccurrences_from key [] l.

(** No two items carry the same non-empty key. *)
Definition distinctKeys {A} (key : A -> string) (l : list A) : Prop :=
  NoDup (filter (λ u : string, u ≠ "") (key <$> l)).

(* ===================================================================== *)
(** * Package [types]: config/types/search.go and config/types/web.go *)
(* ===================================================================== *)

(** The configuration that [config.GetSearchConfig] and
    [config.GetWebConfig] hand out.  The engine-specific parameter maps
    ([Config], a [map[string]interface{}] that only the adapter creators read)
    are left out. *)
Module Types.

Module SearchStrategyConfig.
Record t : Type := mk {
  Breadth : Z;
  MixedEngines : list string;
  DefaultEngine : string;
  DefaultFallbackOrder : list string;
  EnableFallback : bool;
  FailFast : bool;
  MaxRetries : Z;
  TimeoutSeconds : Z
}.
End SearchStrategyConfig.

Module RateLimitConfig.
Record t : Type := mk {
  Enabled : bool;
  RequestsPerSecond : Z;
  BurstSize : Z
}.
End RateLimitConfig.

Module EngineConfig.
Record t : Type := mk {
  Enabled : bool;
  APIKey : string;
  SecretKey : string;
  BaseURL : string;
  RateLimit : RateLimitConfig.t
}.
End EngineConfig.

Module SearchConfig.
Record t : Type := mk {
  Strategy : SearchStrategyConfig.t;
  Engines : gmap string EngineConfig.t
}.
End SearchConfig.

Module WebStrategyConfig.
Record t : Type := mk {
  DefaultScraper : string;
  DefaultFallbackOrder : list string;
  EnableFallback : bool;
  FailFast : bool
}.
End WebStrategyConfig.

Module WebScraperConfig.
Record t : Type := mk {
  Enabled : bool;
  APIKey : string;
  BaseURL : string
}.
End WebScraperConfig.

Module WebConfig.
Record t : Type := mk {
  Strategy : WebStrategyConfig.t;
  Scrapers : gmap string WebScraperConfig.t
}.
End WebConfig.

End Types.

(* ===================================================================== *)
(** * Package [search]: adapters/search *)
(* ===================================================================== *)

Module Search.

(** [type SearchEngine string] *)
Abbreviation SearchEngine := string (only parsing).

(** The values that the strategy stores in [map[string]interface{}]. *)
Inductive MetaValue : Type :=
| MetaString (s : string)
| MetaInt (n : Z).

Module SearchRequest.
Record t : Type := mk {
  Query : string;
  Num : Z;
  Offset : Z;
  Lang : string;
  Region : string;
  SafeSearch : string;
  TimeRange : string;
  Site : string;
  FileType : string;
  EngineParams : gmap string MetaValue
}.
End SearchRequest.

(** A result item.  [Metadata] is a nil map when it is [∅]: the strategy
    allocates it before the first write, so nil and empty are not told
    apart.  The [Score] field (a float64 that the strategy never reads) is
    left out. *)
Module SearchResultItem.
Record t : Type := mk {
  Title : string;
  URL : string;
  Description : string;
  Link : string;
  Snippet : string;
  Rank : Z;
  PublishDate : string;
  FileType : string;
  Metadata : gmap string MetaValue
}.

Definition setMetadata (k : string) (v : MetaValue) (r : t) : t :=
  mk (Title r) (URL r) (Description r) (Link r) (Snippet r) (Rank r)
     (PublishDate r) (FileType r) (<[k := v]> (Metadata r)).
End SearchResultItem.

(** [Results] is [None] for the nil slice. *)
Module SearchResponse.
Record t : Type := mk {
  Query : string;
  Results : option (list SearchResultItem.t);
  TotalCount : Z;
  TimeTaken : Z
}.
End SearchResponse.

(** [SearchAdapter]: [Search] returns a response pointer and an error,
    either of which can be nil. *)
Record SearchAdapter : Type := {
  Search : SearchRequest.t -> option SearchResponse.t * option error
}.

(** ** registry.go *)

(** [AdapterFactory] is [func() (SearchAdapter, error)]; a factory is
    represented by what calling it returns. *)
Definition AdapterFactory : Type := SearchAdapter + error.

Record SearchRegistry : Type := {
  factories : gmap string AdapterFactory
}.

Definition NewSearchRegistry : SearchRegistry := {| factories := ∅ |}.

Definition Register (r : SearchRegistry) (engine : SearchEngine)
    (factory : AdapterFactory) : SearchRegistry :=
  {| factories := <[engine := factory]> (factories r) |}.

Definition Create (r : SearchRegistry) (engine : SearchEngine)
    : SearchAdapter + error :=
  match factories r !! engine with
  | None => inr (errorString ("unregistered search engine: " +:+ engine))
  | Some factory => factory
  end.

(** [CreateSearchAdapter] reads the process-wide registry, here the
    argument [globalRegistry]. *)
Definition CreateSearchAdapter (globalRegistry : SearchRegistry)
    (engine : SearchEngine) : SearchAdapter + error :=
  Create globalRegistry engine.

(** ** strategy.go *)

Record SearchStrategyConfig : Type := {
  Breadth : Z;
  MixedEngines : list SearchEngine;
  DefaultEngine : SearchEngine;
  DefaultFallbackOrder : list SearchEngine;
  EnableFallback : bool;
  FailFast : bool
}.

(** The mutex [mu] only serialises access to [adapters]. *)
Record DefaultSearchStrategy : Type := {
  config : SearchStrategyConfig;
  adapters : gmap string SearchAdapter
}.

(** [config] is [None] for a nil pointer. *)
Definition NewDefaultSearchStrategy (config : option SearchStrategyConfig)
    : DefaultSearchStrategy :=
  let config :=
    match config with
    | None => {| Breadth := 0; MixedEngines := []; DefaultEngine := "";
                 DefaultFallbackOrder := []; EnableFallback := false;
                 FailFast := false |}
    | Some c => c
    end in
  let defaultEngine :=
    if String.eqb (DefaultEngine config) "" then "searxng"
    else DefaultEngine config in
  let defaultFallbackOrder :=
    if len (DefaultFallbackOrder config) =? 0 then ["searxng"; "firecrawl"]
    else DefaultFallbackOrder config in
  let enableFallback :=
    if Bool.eqb (EnableFallback config) false then true
    else EnableFallback config in
  let breadth :=
    if Breadth config <=? 0 then 10 else Breadth config in
  {| config := {| Breadth := breadth;
                  MixedEngines := MixedEngines config;
                  DefaultEngine := defaultEngine;
                  DefaultFallbackOrder := defaultFallbackOrder;
                  EnableFallback := enableFallback;
                  FailFast := FailFast config |};
     adapters := ∅ |}.

Definition getEngineOrder (s : DefaultSearchStrategy) : list SearchEngine :=
  if len (DefaultFallbackOrder (config s)) >? 0
  then DefaultFallbackOrder (config s)
  else [DefaultEngine (config s)].

(** Returns the adapter or the error, and the strategy with its cache
    updated. *)
Definition getOrCreateAdapter (globalRegistry : SearchRegistry)
    (s : DefaultSearchStrategy) (engine : SearchEngine)
    : (SearchAdapter + error) * DefaultSearchStrategy :=
  match adapters s !! engine with
  | Some adapter => (inl adapter, s)
  | None =>
      match CreateSearchAdapter globalRegistry engine with
      | inr err => (inr err, s)
      | inl adapter =>
          (inl adapter,
           {| config := config s;
              adapters := <[engine := adapter]> (adapters s) |})
      end
  end.

(** The de-duplication loop shared by both modes: [mark] writes the
    provenance into the item's metadata, [seenURLs] is the
    [map[string]bool] used as a set, [uniqueResults] the slice being built. *)
Fixpoint uniqueLoop (mark : SearchResultItem.t -> SearchResultItem.t)
    (results : list SearchResultItem.t) (seenURLs : gset string)
    (uniqueResults : list SearchResultItem.t)
    : list SearchResultItem.t * gset string :=
  match results with
  | [] => (uniqueResults, seenURLs)
  | result :: rest =>
      if negb (String.eqb (SearchResultItem.URL result) "")
         && bool_decide (SearchResultItem.URL result ∈ seenURLs)
      then uniqueLoop mark rest seenURLs uniqueResults
      else
        let marked := mark result in
        let seenURLs :=
          if negb (String.eqb (SearchResultItem.URL result) "")
          then {[SearchResultItem.URL result]} ∪ seenURLs
          else seenURLs in
        uniqueLoop mark rest seenURLs (uniqueResults ++ [marked])
  end.

Definition markMixed (engine : SearchEngine) (r : SearchResultItem.t)
    : SearchResultItem.t :=
  SearchResultItem.setMetadata "strategy" (MetaString "mixed")
    (SearchResultItem.setMetadata "search_engine" (MetaString engine) r).

Definition markFallback (engine : SearchEngine) (attempt : Z)
    (r : SearchResultItem.t) : SearchResultItem.t :=
  SearchResultItem.setMetadata "attempt" (MetaInt attempt)
    (SearchResultItem.setMetadata "strategy" (MetaString "fallback")
       (SearchResultItem.setMetadata "search_engine" (MetaString engine) r)).

(** What a call hands back, with the engines whose [Search] was invoked (in
    call order) and the strategy afterwards. *)
Record run : Type := {
  result : outcome SearchResponse.t;
  searched : list SearchEngine;
  final : DefaultSearchStrategy
}.

(** *** Fallback mode *)

(** The success branch of [executeFallbackSearch]. *)
Definition fallbackSuccess (cfg : SearchStrategyConfig)
    (engine : SearchEngine) (i : Z) (seenURLs : gset string)
    (response : SearchResponse.t) : SearchResponse.t :=
  match SearchResponse.Results response with
  | None => response
  | Some results =>
      let uniqueResults :=
        (uniqueLoop (markFallback engine (i + 1)) results seenURLs []).1 in
      let uniqueResults :=
        if (Breadth cfg >? 0) && (len uniqueResults >? Breadth cfg)
        then slice_to (Breadth cfg) uniqueResults
        else uniqueResults in
      SearchResponse.mk (SearchResponse.Query response)
        (appended uniqueResults) (len uniqueResults)
        (SearchResponse.TimeTaken response)
  end.

(** The loop [for i, engine := range engines]: [n] is [len(engines)],
    [engines] the engines from index [i] on.  The index stays below [n], so
    [i + 1] and [n - 1] do not wrap. *)
Fixpoint fallbackLoop (globalRegistry : SearchRegistry)
    (request : SearchRequest.t) (n : Z) (i : Z) (engines : list SearchEngine)
    (seenURLs : gset string) (lastErr : option error)
    (calls : list SearchEngine) (s : DefaultSearchStrategy) : run :=
  match engines with
  | [] =>
      {| result := Fail (wrapError "all search engines failed, last error: "
                           lastErr);
         searched := calls; final := s |}
  | engine :: rest =>
      let '(created, s) := getOrCreateAdapter globalRegistry s engine in
      match created with
      | inr err =>
          let lastErr :=
            Some (wrapError ("failed to create adapter for engine "
                               +:+ engine +:+ ": ") (Some err)) in
          if FailFast (config s) || (i =? n - 1)
          then fallbackLoop globalRegistry request n (i + 1) rest seenURLs
                 lastErr calls s
          else
            (* control reaches [adapter.Search] with a nil adapter *)
            {| result := Panicked nilDereference;
               searched := calls; final := s |}
      | inl adapter =>
          let calls := calls ++ [engine] in
          match Search adapter request with
          | (response, None) =>
              match response with
              | None =>
                  {| result := Panicked nilDereference;
                     searched := calls; final := s |}
              | Some response =>
                  {| result := Return (fallbackSuccess (config s) engine i
                                         seenURLs response);
                     searched := calls; final := s |}
              end
          | (_, Some err) =>
              let lastErr :=
                Some (wrapError ("engine " +:+ engine +:+ " search failed: ")
                        (Some err)) in
              if negb (EnableFallback (config s)) || (i =? n - 1)
              then
                {| result := Fail (wrapError
                                     "all search engines failed, last error: "
                                     lastErr);
                   searched := calls; final := s |}
              else fallbackLoop globalRegistry request n (i + 1) rest seenURLs
                     lastErr calls s
          end
      end
  end.

Definition executeFallbackSearch (globalRegistry : SearchRegistry)
    (s : DefaultSearchStrategy) (request : SearchRequest.t) : run :=
  let engines := getEngineOrder s in
  fallbackLoop globalRegistry request (len engines) 0 engines ∅ None [] s.

(** *** Mixed mode *)

(** What one goroutine sends on [resultChan]. *)
Record engineResult : Type := {
  engine : SearchEngine;
  response : option SearchResponse.t;
  err : option error
}.

(** The body of the goroutine started for [eng]. *)
Definition mixedTask (globalRegistry : SearchRegistry)
    (request : SearchRequest.t) (s : DefaultSearchStrategy)
    (eng : SearchEngine)
    : engineResult * list SearchEngine * DefaultSearchStrategy :=
  let '(created, s) := getOrCreateAdapter globalRegistry s eng in
  match created with
  | inr err =>
      ({| engine := eng; response := None;
          err := Some (wrapError ("failed to create adapter for engine "
                                    +:+ eng +:+ ": ") (Some err)) |},
       [], s)
  | inl adapter =>
      let '(response, err) := Search adapter request in
      ({| engine := eng; response := response; err := err |}, [eng], s)
  end.

(** The goroutines in the order in which they complete. *)
Fixpoint mixedTasks (globalRegistry : SearchRegistry)
    (request : SearchRequest.t) (s : DefaultSearchStrategy)
    (completion : list SearchEngine)
    : list engineResult * list SearchEngine * DefaultSearchStrategy :=
  match completion with
  | [] => ([], [], s)
  | eng :: rest =>
      let '(r, c, s) := mixedTask globalRegistry request s eng in
      let '(rs, cs, s) := mixedTasks globalRegistry request s rest in
      (r :: rs, c ++ cs, s)
  end.

(** The variables of the collecting loop. *)
Record merged : Type := {
  allResults : list SearchResultItem.t;
  errors : list error;
  usedEngines : gmap string Z;
  seenURLs : gset string
}.

(** One iteration of [for result := range resultChan]. *)
Definition collect (cfg : SearchStrategyConfig) (acc : merged)
    (result : engineResult) : merged :=
  match err result with
  | Some e =>
      {| allResults := allResults acc;
         errors := errors acc
                     ++ [wrapError ("engine " +:+ engine result +:+ " failed: ")
                           (Some e)];
         usedEngines := usedEngines acc;
         seenURLs := seenURLs acc |}
  | None =>
      match response result with
      | Some resp =>
          let results := elems (SearchResponse.Results resp) in
          if len results >? 0 then
            let maxResults := Breadth cfg in
            let maxResults :=
              if maxResults <=? 0 then len results
              else if maxResults >? len results then len results
              else maxResults in
            let engineResults := slice_to maxResults results in
            let '(uniqueResults, seen) :=
              uniqueLoop (markMixed (engine result)) engineResults
                (seenURLs acc) [] in
            {| allResults := allResults acc ++ uniqueResults;
               errors := errors acc;
               usedEngines := <[engine result := len uniqueResults]>
                                (usedEngines acc);
               seenURLs := seen |}
          else acc
      | None => acc
      end
  end.

Definition collectAll (cfg : SearchStrategyConfig)
    (arrivals : list engineResult) : merged :=
  foldl (collect cfg)
    {| allResults := []; errors := []; usedEngines := ∅; seenURLs := ∅ |}
    arrivals.

(** The end of [executeMixedSearch], after the channel is drained. *)
Definition mixedResponse (request : SearchRequest.t) (m : merged)
    : outcome SearchResponse.t :=
  if len (allResults m) =? 0 then
    if len (errors m) >? 0
    then Fail (listError "all mixed search engines failed: " (errors m))
    else Fail (errorString "no results from any mixed search engine")
  else
    Return (SearchResponse.mk (SearchRequest.Query request)
              (Some (allResults m)) (len (allResults m)) 0).

(** [completion] is the order in which the goroutines deliver their
    results: a permutation of the configured engines that the scheduler
    chooses. *)
Definition executeMixedSearch (globalRegistry : SearchRegistry)
    (s : DefaultSearchStrategy) (request : SearchRequest.t)
    (completion : list SearchEngine) : run :=
  let engines := MixedEngines (config s) in
  if len engines =? 0 then
    {| result := Fail (errorString "no mixed search engines are configured");
       searched := []; final := s |}
  else
    let '(arrivals, calls, s') :=
      mixedTasks globalRegistry request s completion in
    {| result := mixedResponse request (collectAll (config s) arrivals);
       searched := calls; final := s' |}.

Definition Execute (globalRegistry : SearchRegistry)
    (s : DefaultSearchStrategy) (request : SearchRequest.t)
    (completion : list SearchEngine) : run :=
  if len (MixedEngines (config s)) >? 0
  then executeMixedSearch globalRegistry s request completion
  else executeFallbackSearch globalRegistry s request.

(** The adapter that a call will use for [engine]: the cached one, else
    the one the registry creates. *)
Definition adapterOf (globalRegistry : SearchRegistry)
    (s : DefaultSearchStrategy) (engine : SearchEngine)
    : option SearchAdapter :=
  match (getOrCreateAdapter globalRegistry s engine).1 with
  | inl a => Some a
  | inr _ => None
  end.

(** What the goroutine of [eng] delivers. *)
Definition arrival (globalRegistry : SearchRegistry)
    (request : SearchRequest.t) (s : DefaultSearchStrategy)
    (eng : SearchEngine) : engineResult :=
  (mixedTask globalRegistry request s eng).1.1.

(** A strategy that [NewDefaultSearchStrategy] made, at any later time:
    its adapter cache may have grown. *)
Definition constructed (s : DefaultSearchStrategy) : Prop :=
  exists cfg, config s = config (NewDefaultSearchStrategy cfg).

(** The results of the engines that answered, cut to the breadth, each item
    paired with its engine, in arrival order: what the global
    de-duplication of a mixed call runs over. *)
Definition capped (cfg : SearchStrategyConfig)
    (results : list SearchResultItem.t)
    : list SearchResultItem.t :=
  if Breadth cfg <=? 0 then results
  else take (Z.to_nat (Breadth cfg)) results.

(** What one arrival contributes to the pool. *)
Definition contribution (cfg : SearchStrategyConfig) (r : engineResult)
    : list (SearchEngine * SearchResultItem.t) :=
  match err r, response r with
  | None, Some resp =>
      (λ x, (engine r, x)) <$> capped cfg (elems (SearchResponse.Results resp))
  | _, _ => []
  end.

Definition pool (cfg : SearchStrategyConfig) (arrivals : list engineResult)
    : list (SearchEngine * SearchResultItem.t) :=
  arrivals ≫= contribution cfg.

(** The error that the merge records for an arrival that failed. *)
Definition reported (r : engineResult) : list error :=
  match err r with
  | Some e => [wrapError ("engine " +:+ engine r +:+ " failed: ") (Some e)]
  | None => []
  end.

(** The errors of the engines that failed, as the merge reports them. *)
Definition engineErrors (arrivals : list engineResult) : list error :=
  arrivals ≫= reported.

(** ** Specification-side notions for the de-duplication *)

(** The set that [seenURLs] holds after the items with keys [before]. *)
Definition seenOf (before : list string) : gset string :=
  list_to_set (filter (λ u : string, u ≠ "") before).

Definition pairURL (p : SearchEngine * SearchResultItem.t) : string :=
  SearchResultItem.URL p.2.

Definition markPair (p : SearchEngine * SearchResultItem.t)
    : SearchResultItem.t :=
  markMixed p.1 p.2.

(** An arrival that failed, and one that answered with [n] results. *)
Definition failed (r : engineResult) : Prop := err r ≠ None.

Definition answered (r : engineResult) (n : nat) : Prop :=
  err r = None
  /\ exists resp, response r = Some resp
                  /\ length (elems (SearchResponse.Results resp)) = n.

(** ** strategy.go: the constructor that reads the global configuration *)

Definition convertStringSliceToSearchEngines (engines : list string)
    : list SearchEngine :=
  foldl (λ result engine, result ++ [engine]) [] engines.

(** The two loops of [NewDefaultSearchStrategyFromConfig] that keep the
    names with an enabled entry in [searchConfig.Engines]. *)
Definition onlyEnabled (engines : gmap string Types.EngineConfig.t)
    (names : list string) : list SearchEngine :=
  foldl (λ kept engineName,
           match engines !! engineName with
           | Some engineConfig =>
               if Types.EngineConfig.Enabled engineConfig
               then kept ++ [engineName]
               else kept
           | None => kept
           end) [] names.

(** [searchConfig] is what [config.GetSearchConfig] returns ([None] for
    nil; the function itself returns the address of a field of the global
    configuration). *)
Definition NewDefaultSearchStrategyFromConfig
    (searchConfig : option Types.SearchConfig.t)
    : DefaultSearchStrategy + error :=
  match searchConfig with
  | None => inr (errorString "search engine configuration not found")
  | Some searchConfig =>
      let enabledEngines := Types.SearchConfig.Engines searchConfig in
      if Z.of_nat (size enabledEngines) =? 0
      then inr (errorString "no enabled search engines found")
      else
        let strategy := Types.SearchConfig.Strategy searchConfig in
        let mixedEngines :=
          convertStringSliceToSearchEngines
            (Types.SearchStrategyConfig.MixedEngines strategy) in
        let defaultFallbackOrder :=
          convertStringSliceToSearchEngines
            (Types.SearchStrategyConfig.DefaultFallbackOrder strategy) in
        let defaultFallbackOrder :=
          if (Z.of_nat (size (Types.SearchConfig.Engines searchConfig)) >? 0)
             && (len defaultFallbackOrder >? 0)
          then onlyEnabled (Types.SearchConfig.Engines searchConfig)
                 (Types.SearchStrategyConfig.DefaultFallbackOrder strategy)
          else defaultFallbackOrder in
        let mixedEngines :=
          if len mixedEngines >? 0
          then onlyEnabled (Types.SearchConfig.Engines searchConfig)
                 mixedEngines
          else mixedEngines in
        inl (NewDefaultSearchStrategy
               (Some {| Breadth := Types.SearchStrategyConfig.Breadth strategy;
                        MixedEngines := mixedEngines;
                        DefaultEngine :=
                          Types.SearchStrategyConfig.DefaultEngine strategy;
                        DefaultFallbackOrder := defaultFallbackOrder;
                        EnableFallback :=
                          Types.SearchStrategyConfig.EnableFallback strategy;
                        FailFast :=
                          Types.SearchStrategyConfig.FailFast strategy |}))
  end.

(** ** The registration of the adapters from the configuration *)

(** [AdapterCreatorFunc] is
    [func(engineConfig types.EngineConfig) (SearchAdapter, error)]. *)
Definition AdapterCreatorFunc : Type :=
  Types.EngineConfig.t -> SearchAdapter + error.

(** [adapterCreators] is the package variable, here the first argument. *)
Definition RegisterAdapterCreator
    (adapterCreators : gmap string AdapterCreatorFunc) (engineName : string)
    (creator : AdapterCreatorFunc) : gmap string AdapterCreatorFunc :=
  <[engineName := creator]> adapterCreators.

Definition createAdapterFromConfig
    (searchConfig : option Types.SearchConfig.t)
    (adapterCreators : gmap string AdapterCreatorFunc) (engineName : string)
    : SearchAdapter + error :=
  match searchConfig with
  | None => inr (errorString "search configuration not initialized")
  | Some searchConfig =>
      match Types.SearchConfig.Engines searchConfig !! engineName with
      | None =>
          inr (errorString ("engine configuration not found for "
                              +:+ engineName))
      | Some engineConfig =>
          if negb (Types.EngineConfig.Enabled engineConfig)
          then inr (errorString ("engine " +:+ engineName +:+ " is disabled"))
          else
            match adapterCreators !! engineName with
            | None =>
                inr (errorString ("adapter creator not registered for "
                                    +:+ engineName))
            | Some creator => creator engineConfig
            end
      end
  end.

(** The factory registered for [name] is the closure
    [func() { return createAdapterFromConfig(name) }], which reads the
    configuration and the creators when it is called: [factory name] is what
    that call returns.  [range searchConfig.Engines] visits the entries in an
    order that Go leaves open, here the order of [map_to_list].  Returns the
    error and the process-wide registry afterwards. *)
Definition RegisterAllSearchAdapters
    (searchConfig : option Types.SearchConfig.t)
    (factory : string -> AdapterFactory) (globalRegistry : SearchRegistry)
    : option error * SearchRegistry :=
  match searchConfig with
  | None =>
      (Some (errorString "search configuration not initialized"),
       globalRegistry)
  | Some searchConfig =>
      (None,
       foldl (λ registry entry,
                if Types.EngineConfig.Enabled entry.2
                then Register registry entry.1 (factory entry.1)
                else registry)
         globalRegistry
         (map_to_list (Types.SearchConfig.Engines searchConfig)))
  end.

(** ** Specification-side notions for the configuration and the failures *)

(** The name has an entry in the configuration and the entry is enabled. *)
Definition enabled (engines : gmap string Types.EngineConfig.t)
    (name : string) : Prop :=
  exists engineConfig,
    engines !! name = Some engineConfig
    /\ Types.EngineConfig.Enabled engineConfig = true.

#[global] Instance search_enabled_dec engines name :
  Decision (enabled engines name).
Proof.
  unfold enabled. destruct (engines !! name) as [c|].
  - destruct (Types.EngineConfig.Enabled c) eqn:He.
    + left. by exists c.
    + right. intros (c' & [= <-] & Hc). congruence.
  - right. by intros (c' & [=] & _).
Defined.

(** The error of the call of [engine]'s adapter, if the adapter exists and
    its call returns one. *)
Definition searchError (globalRegistry : SearchRegistry)
    (s : DefaultSearchStrategy) (request : SearchRequest.t)
    (engine : SearchEngine) : option error :=
  match adapterOf globalRegistry s engine with
  | Some adapter => (Search adapter request).2
  | None => None
  end.

(** [cause] is the error that the fallback loop records when [e] fails: its
    call returned an error, or its adapter could not be created. *)
Definition engineFailure (globalRegistry : SearchRegistry)
    (s : DefaultSearchStrategy) (request : SearchRequest.t)
    (e : SearchEngine) (cause : option error) : Prop :=
  exists c,
    (cause = Some (wrapError ("engine " +:+ e +:+ " search failed: ") (Some c))
     /\ searchError globalRegistry s request e = Some c)
    \/ (cause = Some (wrapError ("failed to create adapter for engine "
                                   +:+ e +:+ ": ") (Some c))
        /\ adapterOf globalRegistry s e = None).

End Search.


(* ===================================================================== *)
(** * Package [web]: adapters/web *)
(* ===================================================================== *)

Module Web.

(** [type WebScraper string] *)
Abbreviation WebScraper := string (only parsing).

Inductive Format : Type := FormatText | FormatHTML | FormatMarkdown.

Record ScrapeOptions : Type := {
  format : Format;
  Timeout : Z;
  Cookies : gmap string string;
  ImagesSummary : bool;
  LinksSummary : bool
}.

Module Link.
Record t : Type := mk { URL : string; Text : string }.
End Link.

Module Image.
Record t : Type := mk { URL : string; Title : string }.
End Image.

(** [Links] and [Images] are [None] for nil slices. *)
Module WebContent.
Record t : Type := mk {
  URL : string;
  Title : string;
  Content : string;
  Links : option (list Link.t);
  Images : option (list Image.t)
}.
End WebContent.

(** [WebAdapter]: [Scrape] returns a content pointer and an error, either
    of which can be nil. *)
Record WebAdapter : Type := {
  Scrape : string -> option ScrapeOptions
           -> option WebContent.t * option error;
  ScrapeMultiple : list string -> option ScrapeOptions
                   -> list WebContent.t * option error
}.

(** ** registry.go *)

Definition AdapterFactory : Type := WebAdapter + error.

Record WebRegistry : Type := {
  factories : gmap string AdapterFactory
}.

Definition NewWebRegistry : WebRegistry := {| factories := ∅ |}.

Definition Register (r : WebRegistry) (scraper : WebScraper)
    (factory : AdapterFactory) : WebRegistry :=
  {| factories := <[scraper := factory]> (factories r) |}.

Definition Create (r : WebRegistry) (scraper : WebScraper)
    : WebAdapter + error :=
  match factories r !! scraper with
  | None => inr (errorString ("unregistered web scraper: " +:+ scraper))
  | Some factory => factory
  end.

Definition CreateWebAdapter (globalRegistry : WebRegistry)
    (engine : WebScraper) : WebAdapter + error :=
  Create globalRegistry engine.

(** ** strategy.go *)

Record WebStrategyConfig : Type := {
  DefaultScraper : WebScraper;
  DefaultFallbackOrder : list WebScraper;
  EnableFallback : bool;
  FailFast : bool
}.

Record DefaultWebStrategy : Type := {
  config : WebStrategyConfig;
  adapters : gmap string WebAdapter
}.

Definition NewDefaultWebStrategy (config : option WebStrategyConfig)
    : DefaultWebStrategy :=
  let config :=
    match config with
    | None => {| DefaultScraper := ""; DefaultFallbackOrder := [];
                 EnableFallback := false; FailFast := false |}
    | Some c => c
    end in
  let defaultScraper :=
    if String.eqb (DefaultScraper config) "" then "jina"
    else DefaultScraper config in
  let defaultFallbackOrder :=
    if len (DefaultFallbackOrder config) =? 0 then ["jina"; "firecrawl"]
    else DefaultFallbackOrder config in
  let enableFallback :=
    if negb (EnableFallback config) then true else EnableFallback config in
  {| config := {| DefaultScraper := defaultScraper;
                  DefaultFallbackOrder := defaultFallbackOrder;
                  EnableFallback := enableFallback;
                  FailFast := FailFast config |};
     adapters := ∅ |}.

Definition getScraperOrder (s : DefaultWebStrategy) : list WebScraper :=
  if len (DefaultFallbackOrder (config s)) >? 0
  then DefaultFallbackOrder (config s)
  else [DefaultScraper (config s)].

Definition getOrCreateAdapter (globalRegistry : WebRegistry)
    (s : DefaultWebStrategy) (scraper : WebScraper)
    : (WebAdapter + error) * DefaultWebStrategy :=
  match adapters s !! scraper with
  | Some adapter => (inl adapter, s)
  | None =>
      match CreateWebAdapter globalRegistry scraper with
      | inr err => (inr err, s)
      | inl newAdapter =>
          (inl newAdapter,
           {| config := config s;
              adapters := <[scraper := newAdapter]> (adapters s) |})
      end
  end.

(** What a call hands back, with the scrapers whose capability was invoked
    (in call order) and the strategy afterwards. *)
Record run (T : Type) : Type := {
  result : outcome T;
  scraped : list WebScraper;
  final : DefaultWebStrategy
}.
Arguments result {T} _.
Arguments scraped {T} _.
Arguments final {T} _.

(** The loop of [Execute] and of [ExecuteMultiple]: they differ in the
    capability they call ([call]), in what they do to a successful result
    ([finish]) and in the text of the error ([failed]). *)
Fixpoint scrapeLoop {T R : Type} (globalRegistry : WebRegistry)
    (call : WebAdapter -> T * option error) (finish : T -> R)
    (failed : WebScraper -> string)
    (n : Z) (i : Z) (scrapers : list WebScraper)
    (lastErr : option error) (calls : list WebScraper)
    (s : DefaultWebStrategy) : run R :=
  match scrapers with
  | [] =>
      {| result := Fail (wrapError "all web scrapers failed, last error: "
                           lastErr);
         scraped := calls; final := s |}
  | scraper :: rest =>
      let '(created, s) := getOrCreateAdapter globalRegistry s scraper in
      match created with
      | inr err =>
          let lastErr :=
            Some (wrapError ("failed to create adapter for " +:+ scraper
                               +:+ ": ") (Some err)) in
          if FailFast (config s) || (i =? n - 1)
          then scrapeLoop globalRegistry call finish failed n (i + 1) rest
                 lastErr calls s
          else
            (* control reaches the capability call with a nil adapter *)
            {| result := Panicked nilDereference;
               scraped := calls; final := s |}
      | inl adapter =>
          let calls := calls ++ [scraper] in
          match call adapter with
          | (result, None) =>
              {| result := Return (finish result);
                 scraped := calls; final := s |}
          | (_, Some err) =>
              let lastErr := Some (wrapError (failed scraper) (Some err)) in
              if negb (EnableFallback (config s)) || (i =? n - 1)
              then
                {| result := Fail (wrapError
                                     "all web scrapers failed, last error: "
                                     lastErr);
                   scraped := calls; final := s |}
              else scrapeLoop globalRegistry call finish failed n (i + 1) rest
                     lastErr calls s
          end
      end
  end.

(** The success branch of [Execute]: nil [Images] and [Links] become empty
    slices. *)
Definition normalise (result : option WebContent.t) : option WebContent.t :=
  match result with
  | None => None
  | Some r =>
      let images :=
        match WebContent.Images r with None => Some [] | Some l => Some l end in
      let links :=
        match WebContent.Links r with None => Some [] | Some l => Some l end in
      Some (WebContent.mk (WebContent.URL r) (WebContent.Title r)
              (WebContent.Content r) links images)
  end.

Definition Execute (globalRegistry : WebRegistry) (s : DefaultWebStrategy)
    (url : string) (options : option ScrapeOptions)
    : run (option WebContent.t) :=
  let scrapers := getScraperOrder s in
  scrapeLoop globalRegistry (λ adapter, Scrape adapter url options) normalise
    (λ scraper, "scraper " +:+ scraper +:+ " failed: ")
    (len scrapers) 0 scrapers None [] s.

Definition ExecuteMultiple (globalRegistry : WebRegistry)
    (s : DefaultWebStrategy) (urls : list string)
    (options : option ScrapeOptions) : run (list WebContent.t) :=
  let scrapers := getScraperOrder s in
  scrapeLoop globalRegistry
    (λ adapter, ScrapeMultiple adapter urls options) id
    (λ scraper, "scraper " +:+ scraper +:+ " failed to scrape multiple URLs: ")
    (len scrapers) 0 scrapers None [] s.

(** ** types.go: [Format.IsValid], on the string that a [Format] is *)

Definition IsValid (f : string) : bool :=
  String.eqb f "text" || String.eqb f "html" || String.eqb f "markdown".

(** ** strategy.go: the constructor that reads the global configuration *)

Definition convertStringSliceToWebScrapers (scrapers : list string)
    : list WebScraper :=
  foldl (λ result scraper, result ++ [scraper]) [] scrapers.

(** The loop of [NewDefaultWebStrategyFromConfig] that keeps the names with
    an enabled entry in [webConfig.Scrapers]. *)
Definition onlyEnabled (scrapers : gmap string Types.WebScraperConfig.t)
    (names : list string) : list WebScraper :=
  foldl (λ kept scraperName,
           match scrapers !! scraperName with
           | Some scraperConfig =>
               if Types.WebScraperConfig.Enabled scraperConfig
               then kept ++ [scraperName]
               else kept
           | None => kept
           end) [] names.

(** [webConfig] is what [config.GetWebConfig] returns. *)
Definition NewDefaultWebStrategyFromConfig
    (webConfig : option Types.WebConfig.t) : DefaultWebStrategy + error :=
  match webConfig with
  | None => inr (errorString "web scraper configuration not found")
  | Some webConfig =>
      let enabledScrapers := Types.WebConfig.Scrapers webConfig in
      if Z.of_nat (size enabledScrapers) =? 0
      then inr (errorString "no enabled web scrapers found")
      else
        let strategy := Types.WebConfig.Strategy webConfig in
        let defaultFallbackOrder :=
          convertStringSliceToWebScrapers
            (Types.WebStrategyConfig.DefaultFallbackOrder strategy) in
        let defaultFallbackOrder :=
          if (Z.of_nat (size (Types.WebConfig.Scrapers webConfig)) >? 0)
             && (len defaultFallbackOrder >? 0)
          then onlyEnabled (Types.WebConfig.Scrapers webConfig)
                 (Types.WebStrategyConfig.DefaultFallbackOrder strategy)
          else defaultFallbackOrder in
        inl (NewDefaultWebStrategy
               (Some {| DefaultScraper :=
                          Types.WebStrategyConfig.DefaultScraper strategy;
                        DefaultFallbackOrder := defaultFallbackOrder;
                        EnableFallback :=
                          Types.WebStrategyConfig.EnableFallback strategy;
                        FailFast :=
                          Types.WebStrategyConfig.FailFast strategy |}))
  end.

(** ** Specification-side notions *)

(** The adapter that a call will use for [scraper]: the cached one, else
    the one the registry creates. *)
Definition adapterOf (globalRegistry : WebRegistry) (s : DefaultWebStrategy)
    (scraper : WebScraper) : option WebAdapter :=
  match (getOrCreateAdapter globalRegistry s scraper).1 with
  | inl a => Some a
  | inr _ => None
  end.

Definition enabled (scrapers : gmap string Types.WebScraperConfig.t)
    (name : string) : Prop :=
  exists scraperConfig,
    scrapers !! name = Some scraperConfig
    /\ Types.WebScraperConfig.Enabled scraperConfig = true.

#[global] Instance web_enabled_dec scrapers name :
  Decision (enabled scrapers name).
Proof.
  unfold enabled. destruct (scrapers !! name) as [c|].
  - destruct (Types.WebScraperConfig.Enabled c) eqn:He.
    + left. by exists c.
    + right. intros (c' & [= <-] & Hc). congruence.
  - right. by intros (c' & [=] & _).
Defined.

End Web.

(* ===================================================================== *)
(** * Package [strings] of the Go library, on ASCII text *)
(* ===================================================================== *)

Module Strings.

Definition isUpper (c : ascii) : bool :=
  (65 <=? nat_of_ascii c)%nat && (nat_of_ascii c <=? 90)%nat.

Definition toLower (c : ascii) : ascii :=
  if isUpper c then ascii_of_nat (nat_of_ascii c + 32) else c.

Fixpoint ToLower (s : string) : string :=
  match s with
  | EmptyString => EmptyString
  | String c s' => String (toLower c) (ToLower s')
  end.

(** White space: tab, line feed, vertical tab, form feed, carriage return
    and space. *)
Definition isSpace (c : ascii) : bool :=
  ((9 <=? nat_of_ascii c)%nat && (nat_of_ascii c <=? 13)%nat)
  || (nat_of_ascii c =? 32)%nat.

(** [field] is the field being read, [s] what is left of the input. *)
Fixpoint fieldsFrom (s : string) (field : string) : list string :=
  match s with
  | EmptyString => if String.eqb field "" then [] else [field]
  | String c s' =>
      if isSpace c
      then (if String.eqb field "" then [] else [field]) ++ fieldsFrom s' ""
      else fieldsFrom s' (field +:+ String c "")
  end.

(** [strings.Fields]: the maximal runs of characters that are not white
    space. *)
Definition Fields (s : string) : list string := fieldsFrom s "".

(** [strings.HasPrefix]. *)
Fixpoint HasPrefix (s prefix : string) {struct prefix} : bool :=
  match prefix with
  | EmptyString => true
  | String c prefix' =>
      match s with
      | EmptyString => false
      | String d s' => Ascii.eqb c d && HasPrefix s' prefix'
      end
  end.

(** [strings.Contains]: [substr] starts at some position of [s]. *)
Fixpoint Contains (s substr : string) : bool :=
  HasPrefix s substr
  || match s with
     | EmptyString => false
     | String _ s' => Contains s' substr
     end.

(** [strings.Join]. *)
Definition Join (elems : list string) (sep : string) : string :=
  String.concat sep elems.

(** [len] of a string: its number of bytes. *)
Definition len (s : string) : Z := Z.of_nat (String.length s).

Definition newline : string := String (ascii_of_nat 10) "".

End Strings.

(* ===================================================================== *)
(** * Package [agent]: core/agent *)
(* ===================================================================== *)

Module Agent.

(** ** constants.go *)

(** [type Action string] *)
Abbreviation Action := string (only parsing).

Definition StageThinking : string := "thinking".
Definition StageSearching : string := "searching".
Definition StageAnalyzing : string := "analyzing".
Definition StageSynthesizing : string := "synthesizing".

Definition ActionGenerateQuestions : Action := "generate_questions".
Definition ActionQuestionSelection : Action := "question_selection".
Definition ActionNetworkSearch : Action := "network_search".
Definition ActionSearchComplete : Action := "search_complete".
Definition ActionWebScraping : Action := "web_scraping".
Definition ActionSkipScraping : Action := "skip_scraping".
Definition ActionScrapingComplete : Action := "scraping_complete".
Definition ActionContentAnalysis : Action := "content_analysis".
Definition ActionRealtimeAnalysis : Action := "realtime_analysis".
Definition ActionAnalysisComplete : Action := "analysis_complete".
Definition ActionSynthesisAnalysis : Action := "synthesis_analysis".
Definition ActionRealtimeSynthesis : Action := "realtime_synthesis".
Definition ActionIterationIncrement : Action := "iteration_increment".
Definition ActionProgressCheck : Action := "progress_check".
Definition ActionIterationComplete : Action := "iteration_complete".
Definition ActionModelJudgeSufficient : Action := "model_judge_sufficient".
Definition ActionContinueResearch : Action := "continue_research".
Definition ActionGenerateNewQuestions : Action := "generate_new_questions".
Definition ActionPrepareSynthesis : Action := "prepare_synthesis".
Definition ActionStepAllocation : Action := "step_allocation".
Definition ActionQuestionLimitReached : Action := "question_limit_reached".
Definition ActionQuestionGenComplete : Action := "question_gen_complete".

Definition QuestionStatusPending : string := "pending".
Definition QuestionStatusResearching : string := "researching".
Definition QuestionStatusCompleted : string := "completed".

Definition NodeStartThinking : string := "start_thinking".
Definition NodeGenerateQuestions : string := "generate_questions".
Definition NodeSelectQuestion : string := "select_question".
Definition NodeSearchQuestion : string := "search_question".
Definition NodeScrapeWebContent : string := "scrape_web_content".
Definition NodeAnalyzeQuestion : string := "analyze_question".
Definition NodeSynthesizeFinalAnswer : string := "synthesize_final_answer".
Definition NodeIncrementIteration : string := "increment_iteration".

Definition GraphNameStreamingResearch : string := "StreamingResearchGraph".

Definition StepsPerQuestion : Z := 6.

Definition QuestionIDPrefix : string := "q_".

(** The untyped constant 0.5. *)
Definition SimilarityThreshold : Q := 1 # 2.
Definition MinWordLength : Z := 2.

(** ** config/types/agent.go *)

Module ResearchConfig.
Record t : Type := mk {
  MaxIterations : Z;
  MaxSteps : Z;
  MinQuestions : Z;
  MaxContentLength : Z;
  MaxSingleContent : Z;
  ChannelBuffer : Z
}.
End ResearchConfig.

(** ** Package [tools]: the answers of the search and scrape tools *)

Module Tools.

Module SearchRequest.
Record t : Type := mk {
  Query : string;
  Num : Z;
  Lang : string;
  Region : string;
  SafeSearch : string;
  TimeRange : string
}.
End SearchRequest.

Module SearchResponse.
Record t : Type := mk {
  Success : bool;
  Message : string;
  Query : string;
  Engine : string;
  Results : list Search.SearchResultItem.t;
  TotalCount : Z;
  TimeTaken : Z;
  Error : string
}.
End SearchResponse.

Module WebScrapeRequest.
Record t : Type := mk {
  URL : string;
  URLs : list string;
  Format : string;
  Timeout : Z
}.
End WebScrapeRequest.

Module WebScrapeResponse.
Record t : Type := mk {
  Success : bool;
  Message : string;
  Results : list Web.WebContent.t;
  Error : string
}.
End WebScrapeResponse.

End Tools.

(** ** The types of streaming_research_agent.go *)

(** A progress event.  The [Timestamp] field (the wall clock at the time
    of sending) is left out. *)
Module StreamingThought.
Record t : Type := mk {
  Stage : string;
  Content : string;
  Action : Action;
  IsComplete : bool;
  Sources : list string
}.
End StreamingThought.

(** The thought that a node sends: every [sendThought] call of the nodes
    and branches leaves [IsComplete] and [Sources] at their zero values. *)
Definition thought (stage content : string) (action : Action)
    : StreamingThought.t :=
  StreamingThought.mk stage content action false [].

Module ResearchQuestion.
Record t : Type := mk {
  ID : string;
  Question : string;
  Status : string;
  SearchResults : list Tools.SearchResponse.t;
  WebContents : list Tools.WebScrapeResponse.t;
  Analysis : string;
  Priority : Z
}.

Definition setStatus (v : string) (q : t) : t :=
  mk (ID q) (Question q) v (SearchResults q) (WebContents q) (Analysis q)
     (Priority q).
Definition setSearchResults (v : list Tools.SearchResponse.t) (q : t) : t :=
  mk (ID q) (Question q) (Status q) v (WebContents q) (Analysis q)
     (Priority q).
Definition setWebContents (v : list Tools.WebScrapeResponse.t) (q : t) : t :=
  mk (ID q) (Question q) (Status q) (SearchResults q) v (Analysis q)
     (Priority q).
Definition setAnalysis (v : string) (q : t) : t :=
  mk (ID q) (Question q) (Status q) (SearchResults q) (WebContents q) v
     (Priority q).
End ResearchQuestion.

(** The channel of thoughts, seen from the producer: what was delivered, how
    many non-blocking sends were tried, whether it is closed.  [room k] tells
    whether the [k]-th non-blocking send finds room in the buffer (or a
    waiting receiver); the consumer and the scheduler decide it. *)
Module Chan.
Record t : Type := mk {
  room : nat -> bool;
  sent : list StreamingThought.t;
  tried : nat;
  closed : bool
}.
End Chan.

(** The research state.  [CurrentResearchQ] points to one of the questions
    of [ResearchQuestions]: it is the index of that question, and writes
    through the pointer update the list.  [ThoughtChannel] is [None] for a
    nil channel. *)
Module StreamingResearchState.
Record t : Type := mk {
  OriginalQuery : string;
  CurrentIteration : Z;
  MaxIterations : Z;
  ResearchQuestions : list ResearchQuestion.t;
  ResearchedQuestions : gmap string bool;
  CurrentResearchQ : option nat;
  AccumulatedInfo : string;
  FinalAnswer : string;
  IsComplete : bool;
  CompletedQuestions : Z;
  ThoughtChannel : option Chan.t
}.

Definition setCurrentIteration (v : Z) (s : t) : t :=
  mk (OriginalQuery s) v (MaxIterations s) (ResearchQuestions s)
     (ResearchedQuestions s) (CurrentResearchQ s) (AccumulatedInfo s)
     (FinalAnswer s) (IsComplete s) (CompletedQuestions s) (ThoughtChannel s).
Definition setResearchQuestions (v : list ResearchQuestion.t) (s : t) : t :=
  mk (OriginalQuery s) (CurrentIteration s) (MaxIterations s) v
     (ResearchedQuestions s) (CurrentResearchQ s) (AccumulatedInfo s)
     (FinalAnswer s) (IsComplete s) (CompletedQuestions s) (ThoughtChannel s).
Definition setResearchedQuestions (v : gmap string bool) (s : t) : t :=
  mk (OriginalQuery s) (CurrentIteration s) (MaxIterations s)
     (ResearchQuestions s) v (CurrentResearchQ s) (AccumulatedInfo s)
     (FinalAnswer s) (IsComplete s) (CompletedQuestions s) (ThoughtChannel s).
Definition setCurrentResearchQ (v : option nat) (s : t) : t :=
  mk (OriginalQuery s) (CurrentIteration s) (MaxIterations s)
     (ResearchQuestions s) (ResearchedQuestions s) v (AccumulatedInfo s)
     (FinalAnswer s) (IsComplete s) (CompletedQuestions s) (ThoughtChannel s).
Definition setFinalAnswer (v : string) (s : t) : t :=
  mk (OriginalQuery s) (CurrentIteration s) (MaxIterations s)
     (ResearchQuestions s) (ResearchedQuestions s) (CurrentResearchQ s)
     (AccumulatedInfo s) v (IsComplete s) (CompletedQuestions s)
     (ThoughtChannel s).
Definition setIsComplete (v : bool) (s : t) : t :=
  mk (OriginalQuery s) (CurrentIteration s) (MaxIterations s)
     (ResearchQuestions s) (ResearchedQuestions s) (CurrentResearchQ s)
     (AccumulatedInfo s) (FinalAnswer s) v (CompletedQuestions s)
     (ThoughtChannel s).
Definition setCompletedQuestions (v : Z) (s : t) : t :=
  mk (OriginalQuery s) (CurrentIteration s) (MaxIterations s)
     (ResearchQuestions s) (ResearchedQuestions s) (CurrentResearchQ s)
     (AccumulatedInfo s) (FinalAnswer s) (IsComplete s) v (ThoughtChannel s).
Definition setThoughtChannel (v : option Chan.t) (s : t) : t :=
  mk (OriginalQuery s) (CurrentIteration s) (MaxIterations s)
     (ResearchQuestions s) (ResearchedQuestions s) (CurrentResearchQ s)
     (AccumulatedInfo s) (FinalAnswer s) (IsComplete s)
     (CompletedQuestions s) v.

(** The question behind [CurrentResearchQ]. *)
Definition current (s : t) : option ResearchQuestion.t :=
  match CurrentResearchQ s with
  | Some i => ResearchQuestions s !! i
  | None => None
  end.

(** A write through [CurrentResearchQ]. *)
Definition updateCurrent (f : ResearchQuestion.t -> ResearchQuestion.t)
    (s : t) : t :=
  match CurrentResearchQ s with
  | Some i => setResearchQuestions (alter f i (ResearchQuestions s)) s
  | None => s
  end.
End StreamingResearchState.

(** ** The collaborators of the agent *)

(** The message sent to the chat model: the prompt template and the
    arguments that [fmt.Sprintf] puts into it. *)
Inductive Prompt : Type :=
| GenerateQuestionsPrompt (originalQuery researchedText : string)
| AnalyzeQuestionPrompt (content : string)
| SynthesizeFinalAnswerPrompt (content : string)
| ShouldSynthesizeEarlyPrompt (originalQuery completedContent : string).

(** One element of the JSON array that the model is asked for. *)
Record questionData : Type := {
  question : string;
  priority : Z
}.

(** The chat model and the two tools.  [chatGenerate] is
    [chatModel.Generate] followed by [.Content]; [chatStream] gives the chunks
    that [Recv] returns before its first error (the end of the stream
    included); the tools take the request whose JSON text [InvokableRun]
    receives and return the JSON text of the answer. *)
Record StreamingResearchAgent : Type := {
  chatGenerate : Prompt -> string + error;
  chatStream : Prompt -> list string + error;
  searchTool : Tools.SearchRequest.t -> string + error;
  webTool : Tools.WebScrapeRequest.t -> string + error
}.

(** [json.Unmarshal] at the three types the agent decodes. *)
Record Json : Type := {
  unmarshalQuestions : string -> list questionData + error;
  unmarshalSearchResponse : string -> Tools.SearchResponse.t + error;
  unmarshalWebScrapeResponse : string -> Tools.WebScrapeResponse.t + error
}.

(** A call that the agent makes to a collaborator. *)
Inductive Call : Type :=
| CallGenerate (p : Prompt)
| CallStream (p : Prompt)
| CallSearchTool (r : Tools.SearchRequest.t)
| CallWebTool (r : Tools.WebScrapeRequest.t).

(** ** The monad of the nodes *)

(** A node works on the state behind its pointer and calls the
    collaborators; [calls] logs those calls in order. *)
Record World : Type := {
  state : StreamingResearchState.t;
  calls : list Call
}.

Definition M (A : Type) : Type := World -> outcome A * World.

Definition ret {A} (a : A) : M A := λ w, (Return a, w).

Definition bind {A B} (m : M A) (k : A -> M B) : M B :=
  λ w, match m w with
       | (Return a, w') => k a w'
       | (Fail e, w') => (Fail e, w')
       | (Panicked why, w') => (Panicked why, w')
       end.

Definition fail {A} (e : error) : M A := λ w, (Fail e, w).
Definition panic {A} (why : string) : M A := λ w, (Panicked why, w).
Definition get : M StreamingResearchState.t := λ w, (Return (state w), w).
Definition modify (f : StreamingResearchState.t -> StreamingResearchState.t)
    : M unit :=
  λ w, (Return tt, {| state := f (state w); calls := calls w |}).
Definition called (c : Call) : M unit :=
  λ w, (Return tt, {| state := state w; calls := calls w ++ [c] |}).

#[global] Instance M_ret : MRet M := @ret.
#[global] Instance M_bind : MBind M := λ A B k m, bind m k.

(** The non-blocking send of [sendThought] on an open channel. *)
Definition trySend (t : StreamingThought.t) (ch : Chan.t) : Chan.t :=
  Chan.mk (Chan.room ch)
    (if Chan.room ch (Chan.tried ch) then Chan.sent ch ++ [t] else Chan.sent ch)
    (S (Chan.tried ch)) (Chan.closed ch).



Definition sendThought (t : StreamingThought.t) : M unit :=
  state ← get;
  match StreamingResearchState.ThoughtChannel state with
  | None => ret tt
  | Some ch =>
      if Chan.closed ch then panic "send on closed channel"
      else modify (StreamingResearchState.setThoughtChannel
                     (Some (trySend t ch)))
  end.

Definition itoa (n : Z) : string := pretty n.

Definition quote : string := String (ascii_of_nat 34) "".

(** ** Question de-duplication and the step budget *)

(** The inner loop of [isSimilarQuestionResearched]: is [newWord] one of
    [researchedWords]? *)
Fixpoint occursIn (newWord : string) (researchedWords : list string) : bool :=
  match researchedWords with
  | [] => false
  | researchedWord :: rest =>
      if String.eqb newWord researchedWord then true
      else occursIn newWord rest
  end.

(** The loop over [newWords], with the counter [commonWords]. *)
Fixpoint countCommon (newWords researchedWords : list string)
    (commonWords : Z) : Z :=
  match newWords with
  | [] => commonWords
  | newWord :: rest =>
      if Strings.len newWord >? MinWordLength then
        if occursIn newWord researchedWords
        then countCommon rest researchedWords (commonWords + 1)
        else countCommon rest researchedWords commonWords
      else countCommon rest researchedWords commonWords
  end.

(** One iteration of the loop over the researched questions: is
    [newQuestionLower] similar to [researchedQuestion]?  The counts are far
    below 2^53, so their conversion to float64 is exact, and the rounded
    quotient compares with 0.5 as the exact quotient does: the comparison is
    done in [Q]. *)
Definition similarTo (newQuestionLower researchedQuestion : string) : bool :=
  let researchedLower := Strings.ToLower researchedQuestion in
  let newWords := Strings.Fields newQuestionLower in
  let researchedWords := Strings.Fields researchedLower in
  let commonWords := countCommon newWords researchedWords 0 in
  (len newWords >? 0)
  && negb (Qle_bool (inject_Z commonWords / inject_Z (len newWords))
             SimilarityThreshold).

(** [range researchedQuestions] visits the keys in an order that Go leaves
    open; [keys] is that order. *)
Fixpoint similarToAny (newQuestionLower : string) (keys : list string)
    : bool :=
  match keys with
  | [] => false
  | researchedQuestion :: rest =>
      if similarTo newQuestionLower researchedQuestion then true
      else similarToAny newQuestionLower rest
  end.

Definition isSimilarQuestionResearched (newQuestion : string)
    (researchedQuestions : gmap string bool) : bool :=
  let newQuestionLower := Strings.ToLower newQuestion in
  similarToAny newQuestionLower (map_to_list researchedQuestions).*1.

(** The same function with the two functions of package [strings] that it
    calls as parameters.  [isSimilarQuestionResearched] above is its instance
    at the functions of module [Strings], which are the library's on ASCII
    text; what holds of it for all [ToLower] and [Fields] holds of the source
    with the library's functions, on all text. *)
Module Library.
Section Functions.
Context (ToLower : string -> string) (Fields : string -> list string).

(** One iteration of the loop over the researched questions; the quotient
    of the two counts is compared in [Q], as above. *)
Definition similarTo (newQuestionLower researchedQuestion : string) : bool :=
  let researchedLower := ToLower researchedQuestion in
  let newWords := Fields newQuestionLower in
  let researchedWords := Fields researchedLower in
  let commonWords := countCommon newWords researchedWords 0 in
  (len newWords >? 0)
  && negb (Qle_bool (inject_Z commonWords / inject_Z (len newWords))
             SimilarityThreshold).

Fixpoint similarToAny (newQuestionLower : string) (keys : list string)
    : bool :=
  match keys with
  | [] => false
  | researchedQuestion :: rest =>
      if similarTo newQuestionLower researchedQuestion then true
      else similarToAny newQuestionLower rest
  end.

Definition isSimilarQuestionResearched (newQuestion : string)
    (researchedQuestions : gmap string bool) : bool :=
  let newQuestionLower := ToLower newQuestion in
  similarToAny newQuestionLower (map_to_list researchedQuestions).*1.

End Functions.
End Library.

Definition calculateMaxQuestions (maxSteps currentQuestionCount : Z)
    : Z * Z :=
  let reservedSteps := 5 in
  let availableSteps := Go.sub maxSteps reservedSteps in
  if availableSteps <? StepsPerQuestion then (0, 0)
  else
    let maxTotalQuestions := Go.div availableSteps StepsPerQuestion in
    let maxNewQuestions := Go.sub maxTotalQuestions currentQuestionCount in
    let maxNewQuestions :=
      if maxNewQuestions <? 0 then 0 else maxNewQuestions in
    (maxTotalQuestions, maxNewQuestions).

(** ** The nodes and branches of the research graph *)

Section Graph.
Context (agent : StreamingResearchAgent) (json : Json)
        (researchConfig : ResearchConfig.t).

Import StreamingResearchState.

(** The lines that [checkCompletionCondition] writes for the completed
    questions. *)
Fixpoint completedSummary (questions : list ResearchQuestion.t) : string :=
  match questions with
  | [] => ""
  | q :: rest =>
      (if String.eqb (ResearchQuestion.Status q) QuestionStatusCompleted
          && negb (String.eqb (ResearchQuestion.Analysis q) "")
       then "- " +:+ ResearchQuestion.Question q +:+ ": "
            +:+ ResearchQuestion.Analysis q +:+ Strings.newline
       else "")
      +:+ completedSummary rest
  end.

(** The loop that looks for a pending question. *)
Fixpoint hasPending (questions : list ResearchQuestion.t) : bool :=
  match questions with
  | [] => false
  | q :: rest =>
      if String.eqb (ResearchQuestion.Status q) QuestionStatusPending
      then true
      else hasPending rest
  end.

(** The sufficiency judgment: the chat model is asked, and a reply without
    error that contains [true] in any letter case means sufficient. *)
Definition judgeSufficient (state : StreamingResearchState.t) : M bool :=
  let completedContent := completedSummary (ResearchQuestions state) in
  let prompt :=
    ShouldSynthesizeEarlyPrompt (OriginalQuery state) completedContent in
  called (CallGenerate prompt);;
  match chatGenerate agent prompt with
  | inl content =>
      if Strings.Contains (Strings.ToLower content) "true" then
        sendThought
          (thought StageThinking
             ("Model judged information sufficient (completed "
                +:+ itoa (CompletedQuestions state)
                +:+ "), starting synthesis of final answer")
             ActionModelJudgeSufficient);;
        mret true
      else mret false
  | inr _ => mret false
  end.

Definition checkCompletionCondition : M string :=
  state ← get;
  sendThought
    (thought StageThinking
       ("Checking research progress - Iteration: "
          +:+ itoa (CurrentIteration state) +:+ "/"
          +:+ itoa (MaxIterations state) +:+ ", Completed questions: "
          +:+ itoa (CompletedQuestions state))
       ActionProgressCheck);;
  if CurrentIteration state >=? MaxIterations state then
    sendThought
      (thought StageThinking
         "Maximum iteration count reached, starting synthesis of final answer"
         ActionIterationComplete);;
    mret NodeSynthesizeFinalAnswer
  else
    sufficient ← (if CompletedQuestions state >? 0
                  then judgeSufficient state
                  else mret false);
    if sufficient : bool then mret NodeSynthesizeFinalAnswer
    else if hasPending (ResearchQuestions state) then
      sendThought
        (thought StageThinking "Found pending questions to continue research"
           ActionContinueResearch);;
      mret NodeSelectQuestion
    else if (CompletedQuestions state
               <? ResearchConfig.MinQuestions researchConfig)
            && (CurrentIteration state <? MaxIterations state) then
      sendThought
        (thought StageThinking
           ("Completed question count is low ("
              +:+ itoa (CompletedQuestions state)
              +:+ "), need to generate more research questions")
           ActionGenerateNewQuestions);;
      mret NodeGenerateQuestions
    else
      sendThought
        (thought StageThinking
           "No more pending questions, starting synthesis of final answer"
           ActionPrepareSynthesis);;
      mret NodeSynthesizeFinalAnswer.

Definition selectQuestionCondition : M string :=
  state ← get;
  match CurrentResearchQ state with
  | Some _ => mret NodeSearchQuestion
  | None => mret NodeSynthesizeFinalAnswer
  end.

Definition checkCompletionEndNodes : gset string :=
  {[ NodeSelectQuestion; NodeGenerateQuestions; NodeSynthesizeFinalAnswer ]}.

Definition selectEndNodes : gset string :=
  {[ NodeSearchQuestion; NodeSynthesizeFinalAnswer ]}.

(** *** createGenerateQuestionsNode *)

(** The loop over [questionData]: [i] is the index, [newQuestions] the
    slice being built. *)
Fixpoint acceptLoop (state : StreamingResearchState.t) (maxNewQuestions : Z)
    (i : Z) (data : list questionData)
    (newQuestions : list ResearchQuestion.t) : list ResearchQuestion.t :=
  match data with
  | [] => newQuestions
  | d :: rest =>
      if len newQuestions >=? maxNewQuestions then newQuestions
      else if isSimilarQuestionResearched (question d)
                (ResearchedQuestions state)
      then acceptLoop state maxNewQuestions (i + 1) rest newQuestions
      else
        let q :=
          ResearchQuestion.mk
            (QuestionIDPrefix +:+ itoa (CurrentIteration state) +:+ "_"
               +:+ itoa (i + 1))
            (question d) QuestionStatusPending [] [] "" (priority d) in
        acceptLoop state maxNewQuestions (i + 1) rest (newQuestions ++ [q])
  end.

Definition generateQuestionsNode : M unit :=
  state ← get;
  sendThought
    (thought StageThinking
       "Analyzing the original query to generate specific sub-questions..."
       ActionGenerateQuestions);;
  let researchedList := (map_to_list (ResearchedQuestions state)).*1 in
  let researchedText :=
    if len researchedList >? 0
    then Strings.newline +:+ Strings.newline
         +:+ "# Already researched questions (please avoid repeating)"
         +:+ Strings.newline +:+ Strings.Join researchedList Strings.newline
    else "" in
  let prompt := GenerateQuestionsPrompt (OriginalQuery state) researchedText in
  called (CallGenerate prompt);;
  match chatGenerate agent prompt with
  | inr err =>
      fail (wrapError "failed to generate research questions: " (Some err))
  | inl content =>
      match unmarshalQuestions json content with
      | inr err =>
          fail (wrapError "failed to parse research questions JSON: "
                  (Some err))
      | inl data =>
          let '(maxTotalQuestions, maxNewQuestions) :=
            calculateMaxQuestions (ResearchConfig.MaxSteps researchConfig)
              (len (ResearchQuestions state)) in
          sendThought
            (thought StageThinking
               ("Step allocation calculation: Max steps "
                  +:+ itoa (ResearchConfig.MaxSteps researchConfig)
                  +:+ ", Steps per question " +:+ itoa StepsPerQuestion
                  +:+ ", Can research " +:+ itoa maxTotalQuestions
                  +:+ " questions, Existing "
                  +:+ itoa (len (ResearchQuestions state))
                  +:+ ", Can add " +:+ itoa maxNewQuestions)
               ActionStepAllocation);;
          if maxNewQuestions <=? 0 then
            sendThought
              (thought StageThinking
                 ("Reached maximum sub-question count limit (based on max steps "
                    +:+ itoa (ResearchConfig.MaxSteps researchConfig)
                    +:+ " calculated up to " +:+ itoa maxTotalQuestions
                    +:+ " questions), Skip generating new questions")
                 ActionQuestionLimitReached)
          else
            let newQuestions := acceptLoop state maxNewQuestions 0 data [] in
            modify (λ s, setResearchQuestions
                           (ResearchQuestions s ++ newQuestions) s);;
            sendThought
              (thought StageThinking
                 ("Generated " +:+ itoa (len newQuestions)
                    +:+ " new research questions, ready to continue research")
                 ActionQuestionGenComplete)
      end
  end.

(** *** createSelectQuestionNode *)

(** The loop over the questions: [index] is the position of the head of
    [questions], [selectedQuestion] the pointer chosen so far. *)
Fixpoint pick (questions : list ResearchQuestion.t) (index : nat)
    (selectedQuestion : option nat) (maxPriority : Z) : option nat :=
  match questions with
  | [] => selectedQuestion
  | q :: rest =>
      if String.eqb (ResearchQuestion.Status q) QuestionStatusPending
         && (ResearchQuestion.Priority q >? maxPriority)
      then pick rest (S index) (Some index) (ResearchQuestion.Priority q)
      else pick rest (S index) selectedQuestion maxPriority
  end.

Definition selectQuestionNode : M unit :=
  state ← get;
  match pick (ResearchQuestions state) 0 None (-1) with
  | None => modify (setCurrentResearchQ None)
  | Some i =>
      modify (setCurrentResearchQ (Some i));;
      modify (updateCurrent
                (ResearchQuestion.setStatus QuestionStatusResearching));;
      sendThought
        (thought StageThinking
           ("Selected the highest priority research question: "
              +:+ default "" (ResearchQuestion.Question
                                <$> ResearchQuestions state !! i))
           ActionQuestionSelection)
  end.

(** *** createSearchQuestionNode *)

(** [json.Marshal] of the request cannot fail (a struct of strings and an
    int), so the tool is given the request itself. *)
Definition searchQuestionNode : M unit :=
  state ← get;
  match current state with
  | None => mret tt
  | Some q =>
      sendThought
        (thought StageSearching
           ("Searching the web for: " +:+ quote
              +:+ ResearchQuestion.Question q +:+ quote)
           ActionNetworkSearch);;
      let searchReq :=
        Tools.SearchRequest.mk (ResearchQuestion.Question q) 0 "" "" "" "" in
      called (CallSearchTool searchReq);;
      match searchTool agent searchReq with
      | inr err => fail (wrapError "search failed: " (Some err))
      | inl resultStr =>
          match unmarshalSearchResponse json resultStr with
          | inr err =>
              fail (wrapError "failed to deserialize search result: "
                      (Some err))
          | inl searchResp =>
              modify (updateCurrent
                        (λ q, ResearchQuestion.setSearchResults
                                (ResearchQuestion.SearchResults q
                                   ++ [searchResp]) q));;
              sendThought
                (thought StageSearching
                   ("Search complete, found "
                      +:+ itoa (len (Tools.SearchResponse.Results searchResp))
                      +:+ " relevant results")
                   ActionSearchComplete)
          end
      end
  end.

(** *** createScrapeWebContentNode *)

(** The URLs of the latest search, the empty ones left out. *)
Fixpoint collectURLs (items : list Search.SearchResultItem.t) : list string :=
  match items with
  | [] => []
  | item :: rest =>
      if negb (String.eqb (Search.SearchResultItem.URL item) "")
      then Search.SearchResultItem.URL item :: collectURLs rest
      else collectURLs rest
  end.

Definition scrapeWebContentNode : M unit :=
  state ← get;
  match current state with
  | None => mret tt
  | Some q =>
      match last (ResearchQuestion.SearchResults q) with
      | None => mret tt
      | Some latestSearch =>
          sendThought
            (thought StageAnalyzing
               "Scraping content from URLs to get detailed information..."
               ActionWebScraping);;
          let urls := collectURLs (Tools.SearchResponse.Results latestSearch) in
          if len urls =? 0 then
            sendThought
              (thought StageAnalyzing
                 "No URLs found to scrape, skipping web content scraping."
                 ActionSkipScraping)
          else
            let webReq := Tools.WebScrapeRequest.mk "" urls "text" 0 in
            called (CallWebTool webReq);;
            match webTool agent webReq with
            | inr err => fail (wrapError "web scraping failed: " (Some err))
            | inl resultStr =>
                match unmarshalWebScrapeResponse json resultStr with
                | inr err =>
                    fail (wrapError
                            "failed to deserialize web scrape result: "
                            (Some err))
                | inl webResp =>
                    modify (updateCurrent
                              (λ q, ResearchQuestion.setWebContents
                                      (ResearchQuestion.WebContents q
                                         ++ [webResp]) q));;
                    sendThought
                      (thought StageAnalyzing
                         ("Web scraping complete, successfully fetched content from "
                            +:+ itoa (len (Tools.WebScrapeResponse.Results
                                             webResp))
                            +:+ " pages")
                         ActionScrapingComplete)
                end
            end
      end
  end.

(** *** createAnalyzeQuestionNode *)

(** The variables of the loop that builds the context of the analysis. *)
Record context : Type := {
  contentBuilder : string;
  currentLength : Z;
  webPageIndex : Z
}.

(** The inner loop, over the pages of one batch.  [s[:n]] panics for a
    negative [n]. *)
Fixpoint addPages (pages : list Web.WebContent.t) (c : context)
    : outcome context :=
  match pages with
  | [] => Return c
  | content :: rest =>
      if currentLength c >=? ResearchConfig.MaxContentLength researchConfig then
        Return {| contentBuilder :=
                    contentBuilder c +:+ Strings.newline
                      +:+ "Note: Due to excessive content, only a portion of the web content is displayed."
                      +:+ Strings.newline;
                  currentLength := currentLength c;
                  webPageIndex := webPageIndex c |}
      else
        let truncatedContent := Web.WebContent.Content content in
        if (Strings.len truncatedContent
              >? ResearchConfig.MaxSingleContent researchConfig)
           && (ResearchConfig.MaxSingleContent researchConfig <? 0)
        then Panicked "slice bounds out of range"
        else
          let truncatedContent :=
            if Strings.len truncatedContent
                 >? ResearchConfig.MaxSingleContent researchConfig
            then String.substring 0
                   (Z.to_nat (ResearchConfig.MaxSingleContent researchConfig))
                   truncatedContent +:+ "...(content truncated)"
            else truncatedContent in
          let entryContent :=
            "## Source Web Page " +:+ itoa (webPageIndex c) +:+ Strings.newline
              +:+ "**Link**: " +:+ Web.WebContent.URL content
              +:+ Strings.newline
              +:+ "**Title**: " +:+ Web.WebContent.Title content
              +:+ Strings.newline
              +:+ "**Content**:" +:+ Strings.newline +:+ truncatedContent
              +:+ Strings.newline +:+ Strings.newline +:+ "---"
              +:+ Strings.newline +:+ Strings.newline in
          addPages rest
            {| contentBuilder := contentBuilder c +:+ entryContent;
               currentLength :=
                 Go.add (currentLength c) (Strings.len entryContent);
               webPageIndex := Go.add (webPageIndex c) 1 |}
  end.

(** The outer loop, over the batches. *)
Fixpoint addBatches (batches : list Tools.WebScrapeResponse.t) (c : context)
    : outcome context :=
  match batches with
  | [] => Return c
  | webBatch :: rest =>
      match addPages (Tools.WebScrapeResponse.Results webBatch) c with
      | Return c =>
          if currentLength c >=? ResearchConfig.MaxContentLength researchConfig
          then Return c
          else addBatches rest c
      | other => other
      end
  end.

(** The loop [for { chunk, err := stream.Recv() ... }] of the analysis and
    of the synthesis: every chunk is appended to [result] and sent on. *)
Fixpoint forward (stage : string) (action : Action) (chunks : list string)
    (result : string) : M string :=
  match chunks with
  | [] => mret result
  | chunk :: rest =>
      sendThought (thought stage chunk action);;
      forward stage action rest (result +:+ chunk)
  end.

Definition analyzeQuestionNode : M unit :=
  state ← get;
  match current state with
  | None => mret tt
  | Some q =>
      sendThought
        (thought StageAnalyzing
           ("Starting in-depth analysis of collected information for: "
              +:+ ResearchQuestion.Question q)
           ActionContentAnalysis);;
      match addBatches (ResearchQuestion.WebContents q)
              {| contentBuilder :=
                   "# Research Question" +:+ Strings.newline
                     +:+ ResearchQuestion.Question q +:+ Strings.newline
                     +:+ Strings.newline +:+ "# Collected Web Content"
                     +:+ Strings.newline;
                 currentLength := 0;
                 webPageIndex := 1 |} with
      | Panicked why => panic why
      | Fail e => fail e
      | Return c =>
          let analyzePrompt := AnalyzeQuestionPrompt (contentBuilder c) in
          called (CallStream analyzePrompt);;
          match chatStream agent analyzePrompt with
          | inr err => fail (wrapError "Analysis failed: " (Some err))
          | inl chunks =>
              analysisResult ←
                forward StageAnalyzing ActionRealtimeAnalysis chunks "";
              modify (updateCurrent
                        (λ q, ResearchQuestion.setStatus
                                QuestionStatusCompleted
                                (ResearchQuestion.setAnalysis analysisResult
                                   q)));;
              modify (λ s, setResearchedQuestions
                             (<[ResearchQuestion.Question q := true]>
                                (ResearchedQuestions s)) s);;
              modify (λ s, setCompletedQuestions
                             (Go.add (CompletedQuestions s) 1) s);;
              sendThought
                (thought StageAnalyzing
                   ("Analysis complete" +:+ Strings.newline
                      +:+ Strings.newline +:+ "**Research Question**: "
                      +:+ ResearchQuestion.Question q +:+ Strings.newline
                      +:+ Strings.newline +:+ "**Analysis Result**:"
                      +:+ Strings.newline +:+ analysisResult)
                   ActionAnalysisComplete);;
              modify (setCurrentResearchQ None)
          end
      end
  end.

(** *** createSynthesizeFinalAnswerNode *)

(** The sections that the synthesis prompt lists: [i] is the index of the
    head of [questions]. *)
Fixpoint findings (questions : list ResearchQuestion.t) (i : Z) : string :=
  match questions with
  | [] => ""
  | q :: rest =>
      (if String.eqb (ResearchQuestion.Status q) QuestionStatusCompleted
          && negb (String.eqb (ResearchQuestion.Analysis q) "")
       then "## Research Question " +:+ itoa (i + 1) +:+ ": "
            +:+ ResearchQuestion.Question q +:+ Strings.newline
            +:+ ResearchQuestion.Analysis q +:+ Strings.newline
            +:+ Strings.newline +:+ "---" +:+ Strings.newline
            +:+ Strings.newline
       else "")
      +:+ findings rest (i + 1)
  end.

Definition synthesizeFinalAnswerNode : M unit :=
  state ← get;
  sendThought
    (thought StageSynthesizing
       "Starting to synthesize all research findings into a final answer..."
       ActionSynthesisAnalysis);;
  let content :=
    "# Original Question" +:+ Strings.newline +:+ OriginalQuery state
      +:+ Strings.newline +:+ Strings.newline
      +:+ "# Research Questions and Analysis Results" +:+ Strings.newline
      +:+ findings (ResearchQuestions state) 0 in
  let synthesizePrompt := SynthesizeFinalAnswerPrompt content in
  called (CallStream synthesizePrompt);;
  match chatStream agent synthesizePrompt with
  | inr err =>
      fail (wrapError "Failed to synthesize final answer: " (Some err))
  | inl chunks =>
      finalAnswer ←
        forward StageSynthesizing ActionRealtimeSynthesis chunks "";
      modify (setFinalAnswer finalAnswer);;
      modify (setIsComplete true)
  end.

(** *** createIncrementIterationNode *)

Definition incrementIterationNode : M unit :=
  modify (λ s, setCurrentIteration (Go.add (CurrentIteration s) 1) s);;
  state ← get;
  sendThought
    (thought StageThinking
       ("Entering iteration " +:+ itoa (CurrentIteration state)
          +:+ ", continuing research.")
       ActionIterationIncrement).

(** *** extractSources *)

Definition extractSources (state : StreamingResearchState.t) : list string :=
  ResearchQuestions state ≫= λ q,
    if String.eqb (ResearchQuestion.Status q) QuestionStatusCompleted
    then ResearchQuestion.SearchResults q ≫= λ searchResult,
           collectURLs (Tools.SearchResponse.Results searchResult)
    else [].

(** ** The graph and its runner *)

(** The runner is the eino library, which is not part of the repository.
    [runFrom] follows what [buildStreamingResearchGraph] declares: the seven
    nodes, the edges between them and the two branches, whose answer has to
    be one of their end nodes.  Each node run takes one of the [steps] that
    [WithMaxRunSteps] allows, and a panic inside a node comes back as an
    error of the run. *)

Definition ErrExceedMaxSteps : error := errorString "exceeds max steps".

Definition task {A} (node : M A) : M A :=
  λ w, match node w with
       | (Panicked why, w') => (Fail (errorString ("panic: " +:+ why)), w')
       | other => other
       end.

Definition branch (condition : M string) (endNodes : gset string)
    : M string :=
  next ← task condition;
  if decide (next ∈ endNodes) then mret next
  else fail (errorString ("branch invocation returns unintended end node: "
                            +:+ next)).

Fixpoint runFrom (steps : nat) (node : string) : M unit :=
  match steps with
  | O => fail ErrExceedMaxSteps
  | S steps =>
      if String.eqb node NodeGenerateQuestions then
        task generateQuestionsNode;;
        runFrom steps NodeIncrementIteration
      else if String.eqb node NodeSelectQuestion then
        task selectQuestionNode;;
        next ← branch selectQuestionCondition selectEndNodes;
        runFrom steps next
      else if String.eqb node NodeSearchQuestion then
        task searchQuestionNode;;
        runFrom steps NodeScrapeWebContent
      else if String.eqb node NodeScrapeWebContent then
        task scrapeWebContentNode;;
        runFrom steps NodeAnalyzeQuestion
      else if String.eqb node NodeAnalyzeQuestion then
        task analyzeQuestionNode;;
        next ← branch checkCompletionCondition checkCompletionEndNodes;
        runFrom steps next
      else if String.eqb node NodeIncrementIteration then
        task incrementIterationNode;;
        next ← branch checkCompletionCondition checkCompletionEndNodes;
        runFrom steps next
      else if String.eqb node NodeSynthesizeFinalAnswer then
        task synthesizeFinalAnswerNode
      else fail (errorString ("node not found: " +:+ node))
  end.

(** [agent.graph.Invoke]: the run starts at the completion branch. *)
Definition Invoke (initialState : StreamingResearchState.t)
    : outcome unit * World :=
  (next ← branch checkCompletionCondition checkCompletionEndNodes;
   runFrom (Z.to_nat (ResearchConfig.MaxSteps researchConfig)) next)
    {| state := initialState; calls := [] |}.

(** ** ResearchWithStreaming *)

(** The state that a run starts from; [thoughtChan] is the channel just
    made. *)
Definition initialState (query : string) (thoughtChan : Chan.t)
    : StreamingResearchState.t :=
  StreamingResearchState.mk query 0
    (ResearchConfig.MaxIterations researchConfig) [] ∅ None "" "" false 0
    (Some thoughtChan).




End Graph.

(** ** Specification-side notions *)

(** *** Token overlap *)

(** A token counts when it is longer than [MinWordLength] bytes. *)
Definition qualifying (w : string) : Prop := MinWordLength < Strings.len w.

#[global] Instance qualifying_dec w : Decision (qualifying w).
Proof. unfold qualifying. apply _. Defined.

(** The overlap of two questions, for given [strings.ToLower] and
    [strings.Fields]. *)
Module Overlap.
Section Functions.
Context (ToLower : string -> string) (Fields : string -> list string).

(** The tokens of a question: lower-cased and split at white space. *)
Definition tokens (q : string) : list string := Fields (ToLower q).

(** The candidate's tokens that count and occur in the researched
    question. *)
Definition sharedTokens (candidate researched : string) : list string :=
  filter (λ w, qualifying w /\ w ∈ tokens researched) (tokens candidate).

(** Shared tokens over all tokens of the candidate. *)
Definition overlapRatio (candidate researched : string) : Q :=
  inject_Z (len (sharedTokens candidate researched))
  / inject_Z (len (tokens candidate)).

End Functions.
End Overlap.

(** The same on ASCII text, with the functions of module [Strings]. *)
Definition tokens (q : string) : list string :=
  Overlap.tokens Strings.ToLower Strings.Fields q.

Definition overlapRatio (candidate researched : string) : Q :=
  Overlap.overlapRatio Strings.ToLower Strings.Fields candidate researched.




(** *** The step budget *)

Definition reservedSteps : Z := 5.

(** [floor ((stepBudget - reservedSteps) / stepsPerQuestion)]; [Z]'s [/]
    rounds down. *)
Definition maxTotalQuestions (stepBudget : Z) : Z :=
  (stepBudget - reservedSteps) / StepsPerQuestion.

(** The candidates that the chat model proposes in [state]: none when the
    call or the decoding of its reply fails. *)
Definition candidates (agent : StreamingResearchAgent) (json : Json)
    (state : StreamingResearchState.t) : list questionData :=
  let researchedList :=
    (map_to_list (StreamingResearchState.ResearchedQuestions state)).*1 in
  let researchedText :=
    if len researchedList >? 0
    then Strings.newline +:+ Strings.newline
         +:+ "# Already researched questions (please avoid repeating)"
         +:+ Strings.newline +:+ Strings.Join researchedList Strings.newline
    else "" in
  match chatGenerate agent
          (GenerateQuestionsPrompt
             (StreamingResearchState.OriginalQuery state) researchedText) with
  | inl content =>
      match unmarshalQuestions json content with
      | inl data => data
      | inr _ => []
      end
  | inr _ => []
  end.

(** The candidates that are not similar to a researched question. *)
Definition fresh (state : StreamingResearchState.t)
    (data : list questionData) : list questionData :=
  filter (λ d, isSimilarQuestionResearched (question d)
                 (StreamingResearchState.ResearchedQuestions state) = false)
    data.

(** *** The channel *)

(** The channel of the state has not been closed (or is nil). *)
Definition channelOpen (s : StreamingResearchState.t) : Prop :=
  match StreamingResearchState.ThoughtChannel s with
  | Some ch => Chan.closed ch = false
  | None => True
  end.

(** The world after a non-blocking send on an open (or nil) channel. *)
Definition afterSend (t : StreamingThought.t) (w : World) : World :=
  {| state :=
       StreamingResearchState.setThoughtChannel
         (trySend t <$> StreamingResearchState.ThoughtChannel (state w))
                (state w);
     calls := calls w |}.

(** *** The decision of CheckCompletion *)

(** [reply] contains [word], whatever the case of its letters. *)
Definition containsIgnoringCase (reply word : string) : Prop :=
  exists before found after,
    reply = before +:+ found +:+ after /\ Strings.ToLower found = word.

(** The question put to the chat model by the sufficiency judgment. *)
Definition sufficiencyPrompt (state : StreamingResearchState.t) : Prompt :=
  ShouldSynthesizeEarlyPrompt (StreamingResearchState.OriginalQuery state)
    (completedSummary (StreamingResearchState.ResearchQuestions state)).

Definition judgedSufficient (agent : StreamingResearchAgent)
    (state : StreamingResearchState.t) : Prop :=
  exists reply,
    chatGenerate agent (sufficiencyPrompt state) = inl reply
    /\ containsIgnoringCase reply "true".

Definition anyPending (state : StreamingResearchState.t) : Prop :=
  exists q, q ∈ StreamingResearchState.ResearchQuestions state
            /\ ResearchQuestion.Status q = QuestionStatusPending.

(** The five rules, each with the failure of the rules before it. *)
Inductive routes (agent : StreamingResearchAgent)
    (researchConfig : ResearchConfig.t) (state : StreamingResearchState.t)
    : string -> Prop :=
| routeBudget :
    StreamingResearchState.MaxIterations state
      <= StreamingResearchState.CurrentIteration state ->
    routes agent researchConfig state NodeSynthesizeFinalAnswer
| routeSufficient :
    StreamingResearchState.CurrentIteration state
      < StreamingResearchState.MaxIterations state ->
    0 < StreamingResearchState.CompletedQuestions state ->
    judgedSufficient agent state ->
    routes agent researchConfig state NodeSynthesizeFinalAnswer
| routePending :
    StreamingResearchState.CurrentIteration state
      < StreamingResearchState.MaxIterations state ->
    ~ (0 < StreamingResearchState.CompletedQuestions state
       /\ judgedSufficient agent state) ->
    anyPending state ->
    routes agent researchConfig state NodeSelectQuestion
| routeGenerate :
    StreamingResearchState.CurrentIteration state
      < StreamingResearchState.MaxIterations state ->
    ~ (0 < StreamingResearchState.CompletedQuestions state
       /\ judgedSufficient agent state) ->
    ~ anyPending state ->
    StreamingResearchState.CompletedQuestions state
      < ResearchConfig.MinQuestions researchConfig
    /\ StreamingResearchState.CurrentIteration state
       < StreamingResearchState.MaxIterations state ->
    routes agent researchConfig state NodeGenerateQuestions
| routeOtherwise :
    StreamingResearchState.CurrentIteration state
      < StreamingResearchState.MaxIterations state ->
    ~ (0 < StreamingResearchState.CompletedQuestions state
       /\ judgedSufficient agent state) ->
    ~ anyPending state ->
    ~ (StreamingResearchState.CompletedQuestions state
         < ResearchConfig.MinQuestions researchConfig
       /\ StreamingResearchState.CurrentIteration state
          < StreamingResearchState.MaxIterations state) ->
    routes agent researchConfig state NodeSynthesizeFinalAnswer.

(** *** The stream *)

(** The events delivered so far are progress events, and the channel is
    open. *)
Definition quiet (s : StreamingResearchState.t) : Prop :=
  exists ch, StreamingResearchState.ThoughtChannel s = Some ch
             /\ Chan.closed ch = false
             /\ Forall (λ t, StreamingThought.IsComplete t = false)
                  (Chan.sent ch).

Definition preserves {A} (m : M A) : Prop :=
  forall w r w', m w = (r, w') -> quiet (state w) -> quiet (state w').




(** The run of the graph that [ResearchWithStreaming] starts. *)
Definition final (agent : StreamingResearchAgent) (json : Json)
    (cfg : ResearchConfig.t) (query : string) (room : nat -> bool)
    : outcome unit * World :=
  Invoke agent json cfg (initialState cfg query (Chan.mk room [] 0 false)).

(** *** The nodes, seen from outside *)

(** A question that selection can pick: pending, with a priority that is
    not negative. *)
Definition eligible (q : ResearchQuestion.t) : Prop :=
  ResearchQuestion.Status q = QuestionStatusPending
  /\ 0 <= ResearchQuestion.Priority q.

(** The URLs that the scrape node asks for: the non-empty URLs of the latest
    search of the current question. *)
Definition wanted (s : StreamingResearchState.t) : list string :=
  match StreamingResearchState.current s with
  | Some q =>
      match last (ResearchQuestion.SearchResults q) with
      | Some latestSearch =>
          filter (λ u : string, u ≠ "")
            (Search.SearchResultItem.URL
               <$> Tools.SearchResponse.Results latestSearch)
      | None => []
      end
  | None => []
  end.

(** The state [s'] is [s] up to the channel. *)
Definition sameButChannel (s s' : StreamingResearchState.t) : Prop :=
  s' = StreamingResearchState.setThoughtChannel
         (StreamingResearchState.ThoughtChannel s') s.

(** The state after a successful analysis of the current question [q] with
    the result [analysis]. *)
Definition analysed (q : ResearchQuestion.t) (analysis : string)
    (s : StreamingResearchState.t) : StreamingResearchState.t :=
  StreamingResearchState.setCurrentResearchQ None
    (StreamingResearchState.setCompletedQuestions
       (Go.add (StreamingResearchState.CompletedQuestions s) 1)
       (StreamingResearchState.setResearchedQuestions
          (<[ResearchQuestion.Question q := true]>
             (StreamingResearchState.ResearchedQuestions s))
          (StreamingResearchState.updateCurrent
             (λ q, ResearchQuestion.setStatus QuestionStatusCompleted
                     (ResearchQuestion.setAnalysis analysis q)) s))).

(** *** The bookkeeping of a run *)

Definition completed (q : ResearchQuestion.t) : Prop :=
  ResearchQuestion.Status q = QuestionStatusCompleted.

#[global] Instance completed_dec q : Decision (completed q).
Proof. unfold completed. apply _. Defined.

(** The texts of the completed questions, in order. *)
Definition completedTexts (questions : list ResearchQuestion.t)
    : list string :=
  ResearchQuestion.Question <$> filter completed questions.

(** The number of questions that the step budget allows. *)
Definition questionBound (cfg : ResearchConfig.t) : Z :=
  Z.max 0 (maxTotalQuestions (ResearchConfig.MaxSteps cfg)).

(** The books are kept: the questions are within [bound], the counter of
    completed questions counts them, the current question is one that is
    being researched, and the researched set holds the texts of the
    completed questions. *)
Definition consistent (bound : Z) (s : StreamingResearchState.t) : Prop :=
  len (StreamingResearchState.ResearchQuestions s) <= bound
  /\ StreamingResearchState.CompletedQuestions s
     = len (completedTexts (StreamingResearchState.ResearchQuestions s))
  /\ (forall i, StreamingResearchState.CurrentResearchQ s = Some i ->
        exists q, StreamingResearchState.ResearchQuestions s !! i = Some q
                  /\ ResearchQuestion.Status q = QuestionStatusResearching)
  /\ (forall text,
        is_Some (StreamingResearchState.ResearchedQuestions s !! text)
        <-> text ∈ completedTexts
                     (StreamingResearchState.ResearchQuestions s)).

(** The invariant of a run: the channel is open and the books are kept. *)
Definition kept (bound : Z) (s : StreamingResearchState.t) : Prop :=
  channelOpen s /\ consistent bound s.

(** [m] keeps [I], whatever way it ends. *)
Definition invariant (I : StreamingResearchState.t -> Prop) {A} (m : M A)
    : Prop :=
  forall w, I (state w) -> I (state (m w).2).

End Agent.

(* ===================================================================== *)
(** * Package [tools]: the search tool and the web scraping tool *)
(* ===================================================================== *)

Module SearchTool.
Import Agent.

(** The package variables [searchStrategy], [searchInitOnce] (whether its
    function has run) and [searchInitError]. *)
Record globals : Type := {
  searchStrategy : option Search.DefaultSearchStrategy;
  searchInitOnce : bool;
  searchInitError : option error
}.

(** [searchConfig] is what [config.GetSearchConfig] returns, [factory] what
    the factories of [RegisterAllSearchAdapters] return when they are called,
    [globalRegistry] the registry of package [search]. *)
Definition initSearchAdapters (searchConfig : option Types.SearchConfig.t)
    (factory : string -> Search.AdapterFactory)
    (globalRegistry : Search.SearchRegistry) (g : globals)
    : Search.SearchRegistry * globals :=
  if searchInitOnce g then (globalRegistry, g)
  else
    match Search.RegisterAllSearchAdapters searchConfig factory
            globalRegistry with
    | (Some err, globalRegistry) =>
        (globalRegistry,
         {| searchStrategy := searchStrategy g;
            searchInitOnce := true;
            searchInitError :=
              Some (wrapError "failed to initialize search adapters: "
                      (Some err)) |})
    | (None, globalRegistry) =>
        match Search.NewDefaultSearchStrategyFromConfig searchConfig with
        | inr err =>
            (globalRegistry,
             {| searchStrategy := searchStrategy g;
                searchInitOnce := true;
                searchInitError :=
                  Some (wrapError "failed to create search strategy: "
                          (Some err)) |})
        | inl strategy =>
            (globalRegistry,
             {| searchStrategy := Some strategy;
                searchInitOnce := true;
                searchInitError := searchInitError g |})
        end
    end.

(** Returns the error and the request, whose [Num] the function may have
    overwritten. *)
Definition validateSearchRequest (request : Tools.SearchRequest.t)
    : option error * Tools.SearchRequest.t :=
  if String.eqb (Tools.SearchRequest.Query request) ""
  then (Some (errorString "search query cannot be empty"), request)
  else
    let request :=
      if (Tools.SearchRequest.Num request <=? 0)
         || (Tools.SearchRequest.Num request >? 50)
      then Tools.SearchRequest.mk (Tools.SearchRequest.Query request) 10
             (Tools.SearchRequest.Lang request)
             (Tools.SearchRequest.Region request)
             (Tools.SearchRequest.SafeSearch request)
             (Tools.SearchRequest.TimeRange request)
      else request in
    (None, request).

(** The fields that the literal does not set are zero. *)
Definition buildSearchRequest (request : Tools.SearchRequest.t)
    : Search.SearchRequest.t :=
  Search.SearchRequest.mk (Tools.SearchRequest.Query request)
    (Tools.SearchRequest.Num request) 0 (Tools.SearchRequest.Lang request)
    (Tools.SearchRequest.Region request)
    (Tools.SearchRequest.SafeSearch request)
    (Tools.SearchRequest.TimeRange request) "" "" ∅.

(** [elapsed] is [time.Since(startTime).Milliseconds()].  The type
    assertions [.(string)] and [.(int)] succeed on [MetaString] and [MetaInt];
    a nil [Metadata] has no entries. *)
Definition buildSearchResponse (result : Search.SearchResponse.t)
    (query : string) (elapsed : Z) : Tools.SearchResponse.t :=
  let results := elems (Search.SearchResponse.Results result) in
  let engine :=
    match results with
    | first :: _ =>
        match Search.SearchResultItem.Metadata first !! "search_engine" with
        | Some (Search.MetaString engineName) => engineName
        | _ => ""
        end
    | [] => ""
    end in
  let message :=
    match results with
    | first :: _ =>
        match Search.SearchResultItem.Metadata first !! "strategy" with
        | Some (Search.MetaString strategy) =>
            if String.eqb strategy "fallback" then
              match Search.SearchResultItem.Metadata first !! "attempt" with
              | Some (Search.MetaInt attempt) =>
                  if attempt >? 1
                  then "Fallback strategy was used, succeeded on attempt "
                       +:+ itoa attempt
                  else ""
              | _ => ""
              end
            else ""
        | _ => ""
        end
    | [] => ""
    end in
  Tools.SearchResponse.mk true message query engine results
    (Search.SearchResponse.TotalCount result) elapsed "".

(** The response of a call that did not succeed. *)
Definition failure (query : string) (elapsed : Z) (text : string)
    : Tools.SearchResponse.t :=
  Tools.SearchResponse.mk false "" query "" [] 0 elapsed text.

(** [completion] is the order in which the goroutines of a mixed search
    deliver (see [Search.executeMixedSearch]).  Returns the response, the
    registry and the package variables afterwards, and the engines whose
    [Search] was invoked; the function never returns an error of its own. *)
Definition searchFunc (searchConfig : option Types.SearchConfig.t)
    (factory : string -> Search.AdapterFactory)
    (globalRegistry : Search.SearchRegistry) (g : globals)
    (request : Tools.SearchRequest.t) (completion : list string)
    (elapsed : Z)
    : outcome Tools.SearchResponse.t
      * (Search.SearchRegistry * globals * list string) :=
  match validateSearchRequest request with
  | (Some err, request) =>
      (Return (failure (Tools.SearchRequest.Query request) elapsed
                 ("parameter validation failed: " +:+ Error err)),
       (globalRegistry, g, []))
  | (None, request) =>
      let '(globalRegistry, g) :=
        initSearchAdapters searchConfig factory globalRegistry g in
      match searchInitError g with
      | Some initError =>
          (Return (failure (Tools.SearchRequest.Query request) elapsed
                     (Error initError)),
           (globalRegistry, g, []))
      | None =>
          let searchRequest := buildSearchRequest request in
          match searchStrategy g with
          | None => (Panicked nilDereference, (globalRegistry, g, []))
          | Some strategy =>
              let r :=
                Search.Execute globalRegistry strategy searchRequest
                  completion in
              let g :=
                {| searchStrategy := Some (Search.final r);
                   searchInitOnce := searchInitOnce g;
                   searchInitError := searchInitError g |} in
              match Search.result r with
              | Panicked why =>
                  (Panicked why, (globalRegistry, g, Search.searched r))
              | Fail err =>
                  (Return (failure (Tools.SearchRequest.Query request) elapsed
                             ("search execution failed: " +:+ Error err)),
                   (globalRegistry, g, Search.searched r))
              | Return result =>
                  (Return (buildSearchResponse result
                             (Tools.SearchRequest.Query request) elapsed),
                   (globalRegistry, g, Search.searched r))
              end
          end
      end
  end.

(** The package variables before the first use of the tool. *)
Definition unused : globals :=
  {| searchStrategy := None; searchInitOnce := false;
     searchInitError := None |}.

End SearchTool.

Module WebTool.
Import Agent.

Definition validateWebScrapeRequest (request : Tools.WebScrapeRequest.t)
    : option error :=
  if String.eqb (Tools.WebScrapeRequest.URL request) ""
     && (len (Tools.WebScrapeRequest.URLs request) =? 0)
  then Some (errorString
               "either 'url' or 'urls' parameter must be provided")
  else if negb (String.eqb (Tools.WebScrapeRequest.URL request) "")
          && (len (Tools.WebScrapeRequest.URLs request) >? 0)
  then Some (errorString
               "'url' and 'urls' parameters cannot be provided simultaneously")
  else if negb (String.eqb (Tools.WebScrapeRequest.Format request) "")
          && negb (Web.IsValid (Tools.WebScrapeRequest.Format request))
  then Some (errorString
               ("unsupported format: " +:+ Tools.WebScrapeRequest.Format request
                  +:+ ", supported formats are: text, markdown, html"))
  else if Tools.WebScrapeRequest.Timeout request <? 0
  then Some (errorString "timeout cannot be a negative number")
  else None.

End WebTool.

(* ===================================================================== *)
(** * Retrieval: sample adapters and registries *)
(* ===================================================================== *)

Module Samples.
Import Search.

Definition item (url : string) : SearchResultItem.t :=
  SearchResultItem.mk url url "" "" "" 0 "" "" ∅.

Definition request (q : string) : SearchRequest.t :=
  SearchRequest.mk q 10 0 "" "" "" "" "" "" ∅.

(** An engine that answers every query with the given URLs. *)
Definition answering (urls : list string) : SearchAdapter :=
  {| Search := λ req,
       (Some (SearchResponse.mk (SearchRequest.Query req)
                (Some (item <$> urls)) (len urls) 0), None) |}.

(** An engine whose call fails. *)
Definition failing (msg : string) : SearchAdapter :=
  {| Search := λ _, (None, Some (errorString msg)) |}.

(** Engines [a] and [b] fail, [c] and [d] answer with overlapping URLs;
    no other engine is registered. *)
Definition registry : SearchRegistry :=
  Register
    (Register
       (Register
          (Register NewSearchRegistry "a" (inl (failing "timeout")))
          "b" (inl (failing "status 503")))
       "c" (inl (answering ["u1"; "u2"; "u1"; ""; "u3"; "u4"])))
    "d" (inl (answering ["u2"; "u5"; "u6"; "u7"; "u8"])).

Definition fallbackConfig (order : list SearchEngine) (failFast : bool)
    (breadth : Z) : SearchStrategyConfig :=
  {| Breadth := breadth; MixedEngines := []; DefaultEngine := "";
     DefaultFallbackOrder := order; EnableFallback := false;
     FailFast := failFast |}.

Definition mixedConfig (engines : list SearchEngine) (breadth : Z)
    : SearchStrategyConfig :=
  {| Breadth := breadth; MixedEngines := engines; DefaultEngine := "";
     DefaultFallbackOrder := []; EnableFallback := false;
     FailFast := false |}.

(** A scraper that returns the page, and one whose call fails. *)
Definition scraping : Web.WebAdapter :=
  {| Web.Scrape := λ url _,
       (Some (Web.WebContent.mk url "title" "content" None None), None);
     Web.ScrapeMultiple := λ urls _,
       ((λ url, Web.WebContent.mk url "title" "content" None None) <$> urls,
        None) |}.

Definition webRegistry : Web.WebRegistry :=
  Web.Register Web.NewWebRegistry "jina" (inl scraping).

Definition webConfig (order : list string) (failFast : bool)
    : Web.WebStrategyConfig :=
  {| Web.DefaultScraper := ""; Web.DefaultFallbackOrder := order;
     Web.EnableFallback := false; Web.FailFast := failFast |}.

(** The registry with engines [c] and [d] returning five results each. *)
Definition five : SearchRegistry :=
  Register
    (Register registry "c" (inl (answering ["u1"; "u2"; "u1"; ""; "u3"])))
    "d" (inl (answering ["u2"; "u5"; "u6"; "u7"; "u8"])).

(** A chat model that proposes three questions, judges every state
    sufficient and streams two chunks; tools that answer. *)
Definition chat : Agent.StreamingResearchAgent :=
  {| Agent.chatGenerate := λ p,
       match p with
       | Agent.ShouldSynthesizeEarlyPrompt _ _ => inl "True."
       | _ => inl "[three questions]"
       end;
     Agent.chatStream := λ _, inl ["The answer "; "is 42."];
     Agent.searchTool := λ _, inl "{search}";
     Agent.webTool := λ _, inl "{pages}" |}.

Definition decoder : Agent.Json :=
  {| Agent.unmarshalQuestions := λ _,
       inl [ {| Agent.question := "What is a monad"; Agent.priority := 3 |};
             {| Agent.question := "Who uses monads"; Agent.priority := 5 |};
             {| Agent.question := "Why are monads hard";
                Agent.priority := 4 |} ];
     Agent.unmarshalSearchResponse := λ _,
       inl (Agent.Tools.SearchResponse.mk true "" "q" "c"
              [item "u1"; item ""; item "u2"] 3 0 "");
     Agent.unmarshalWebScrapeResponse := λ _,
       inl (Agent.Tools.WebScrapeResponse.mk true ""
              [Web.WebContent.mk "u1" "title" "content" None None] "") |}.

Definition researchConfig (maxIterations maxSteps : Z)
    : Agent.ResearchConfig.t :=
  Agent.ResearchConfig.mk maxIterations maxSteps 2 35000 4000 100.

Definition asked (text status : string) (priority : Z)
    : Agent.ResearchQuestion.t :=
  Agent.ResearchQuestion.mk "q_0_1" text status [] [] "analysis" priority.

(** A state in iteration 0 of 3 with the given questions, [completed] of
    them completed, on a channel that always has room. *)
Definition world (questions : list Agent.ResearchQuestion.t) (completed : Z)
    : Agent.World :=
  {| Agent.state :=
       Agent.StreamingResearchState.mk "monads" 0 3 questions ∅ None "" ""
         false completed (Some (Agent.Chan.mk (λ _, true) [] 0 false));
     Agent.calls := [] |}.

(** A configuration without engines, and one with engine [c] enabled,
    engine [a] disabled and the fallback order [a, c, x]. *)
Definition strategySection (order : list string)
    : Types.SearchStrategyConfig.t :=
  Types.SearchStrategyConfig.mk 5 [] "" order false false 0 0.

Definition engineSection (on : bool) : Types.EngineConfig.t :=
  Types.EngineConfig.mk on "" "" "" (Types.RateLimitConfig.mk false 0 0).

Definition noEngines : Types.SearchConfig.t :=
  Types.SearchConfig.mk (strategySection []) ∅.

(** The package variables of the search tool once a fallback strategy over
    the given order has been made. *)
Definition ready (order : list SearchEngine) : SearchTool.globals :=
  {| SearchTool.searchStrategy :=
       Some (NewDefaultSearchStrategy (Some (fallbackConfig order false 10)));
     SearchTool.searchInitOnce := true;
     SearchTool.searchInitError := None |}.

Definition toolRequest (query : string) : Agent.Tools.SearchRequest.t :=
  Agent.Tools.SearchRequest.mk query 0 "" "" "" "".

(** A question that is being researched, with one search behind it. *)
Definition researching (text : string) : Agent.ResearchQuestion.t :=
  Agent.ResearchQuestion.mk "q_0_1" text "researching"
    [Agent.Tools.SearchResponse.mk true "" text "c"
       [item "u1"; item ""; item "u2"] 3 0 ""]
    [] "" 5.

(** The world of [world] with the question at index [i] current. *)
Definition worldAt (questions : list Agent.ResearchQuestion.t) (i : nat)
    : Agent.World :=
  {| Agent.state :=
       Agent.StreamingResearchState.mk "monads" 0 3 questions ∅ (Some i) ""
         "" false 0 (Some (Agent.Chan.mk (λ _, true) [] 0 false));
     Agent.calls := [] |}.

End Samples.

(* ===================================================================== *)
(** * Facts about package [search] *)
(* ===================================================================== *)

Module SearchFacts.
Import Search.

Lemma elems_appended {A} (l : list A) : elems (appended l) = l.
Proof. by destruct l. Qed.

(** ** Facts about [firstOccurrences] *)

Section FirstOccurrences.
Context {A : Type} (key : A -> string).

Lemma firstOccurrences_from_app before l1 l2 :
  firstOccurrences_from key before (l1 ++ l2) =
  firstOccurrences_from key before l1
    ++ firstOccurrences_from key (before ++ (key <$> l1)) l2.
Proof.
  revert before. induction l1 as [|x l1 IH]; intros before; simpl.
  - by rewrite app_nil_r.
  - rewrite IH, <- !app_assoc. simpl. done.
Qed.

Lemma firstOccurrences_from_fresh before l u :
  u ∈ key <$> firstOccurrences_from key before l -> u ≠ "" -> u ∉ before.
Proof.
  revert before. induction l as [|x l IH]; intros before; simpl.
  - intros Hin. by apply elem_of_nil in Hin.
  - rewrite fmap_app, elem_of_app. intros [Hin|Hin] Hne.
    + destruct (decide _) as [[He|Hn]|]; simpl in Hin.
      * apply list_elem_of_singleton in Hin. congruence.
      * apply list_elem_of_singleton in Hin. by subst.
      * by apply elem_of_nil in Hin.
    + specialize (IH _ Hin Hne). rewrite elem_of_app in IH. tauto.
Qed.

Lemma firstOccurrences_from_distinct before l :
  distinctKeys key (firstOccurrences_from key before l).
Proof.
  unfold distinctKeys. revert before.
  induction l as [|x l IH]; intros before; simpl; [constructor|].
  rewrite fmap_app, filter_app.
  destruct (decide (key x = "" \/ key x ∉ before)) as [[He|Hn]|]; simpl.
  - rewrite filter_cons_False by (intros ?; congruence). simpl. apply IH.
  - destruct (decide (key x = "")) as [He|Hne].
    + rewrite filter_cons_False by (intros ?; congruence). simpl. apply IH.
    + rewrite filter_cons_True by done. simpl. constructor; [|apply IH].
      rewrite list_elem_of_filter. intros [_ Hin].
      apply firstOccurrences_from_fresh in Hin; [|done].
      apply Hin. rewrite elem_of_app, list_elem_of_singleton. by right.
  - apply IH.
Qed.

Lemma firstOccurrences_distinct l : distinctKeys key (firstOccurrences key l).
Proof. apply firstOccurrences_from_distinct. Qed.

Lemma firstOccurrences_from_sublist before l :
  sublist (firstOccurrences_from key before l) l.
Proof.
  revert before. induction l as [|x l IH]; intros before; simpl; [constructor|].
  destruct (decide _); simpl.
  - by apply sublist_skip.
  - by apply sublist_cons.
Qed.

End FirstOccurrences.

Lemma firstOccurrences_from_fmap {A B} (key : B -> string)
    (key' : A -> string) (f : A -> B) before (l : list A) :
  (forall x, key (f x) = key' x) ->
  firstOccurrences_from key before (f <$> l) =
  f <$> firstOccurrences_from key' before l.
Proof.
  intros Hk. revert before.
  induction l as [|x l IH]; intros before; simpl; [done|].
  rewrite fmap_app, Hk, IH. by destruct (decide _).
Qed.

Lemma distinctKeys_fmap {A B} (key : B -> string) (key' : A -> string)
    (f : A -> B) (l : list A) :
  (forall x, key (f x) = key' x) ->
  distinctKeys key' l -> distinctKeys key (f <$> l).
Proof.
  unfold distinctKeys. intros Hk. rewrite <- list_fmap_compose.
  by rewrite (list_fmap_ext (key ∘ f) key' l) by (intros; simpl; auto).
Qed.

Lemma filter_sublist_mono {A} (P : A -> Prop) `{!forall x, Decision (P x)}
    (l1 l2 : list A) :
  sublist l1 l2 -> sublist (filter P l1) (filter P l2).
Proof.
  induction 1 as [|x l1 l2 _ IH|x l1 l2 _ IH]; [constructor| |].
  - rewrite !filter_cons. destruct (decide (P x)); [by apply sublist_skip|done].
  - rewrite filter_cons. destruct (decide (P x)); [by apply sublist_cons|done].
Qed.

Lemma distinctKeys_sublist {A} (key : A -> string) (l1 l2 : list A) :
  sublist l1 l2 -> distinctKeys key l2 -> distinctKeys key l1.
Proof.
  unfold distinctKeys. intros Hs Hnd.
  eapply sublist_NoDup; [exact Hnd|].
  apply filter_sublist_mono. by apply fmap_sublist.
Qed.

Lemma distinctKeys_take {A} (key : A -> string) n (l : list A) :
  distinctKeys key l -> distinctKeys key (take n l).
Proof. apply distinctKeys_sublist, sublist_take. Qed.

(** ** The de-duplication loop computes [firstOccurrences] *)

Lemma elem_of_seenOf u before :
  u ∈ seenOf before <-> u ≠ "" /\ u ∈ before.
Proof. unfold seenOf. by rewrite elem_of_list_to_set, list_elem_of_filter. Qed.

Lemma seenOf_snoc_empty before : seenOf (before ++ [""]) = seenOf before.
Proof.
  apply set_eq. intros u. rewrite !elem_of_seenOf, elem_of_app.
  rewrite list_elem_of_singleton. naive_solver.
Qed.

Lemma seenOf_snoc before u :
  u ≠ "" -> seenOf (before ++ [u]) = {[u]} ∪ seenOf before.
Proof.
  intros Hne. apply set_eq. intros v.
  rewrite elem_of_union, elem_of_singleton, !elem_of_seenOf, elem_of_app.
  rewrite list_elem_of_singleton. naive_solver.
Qed.

Lemma seenOf_snoc_seen before u :
  u ∈ seenOf before -> seenOf (before ++ [u]) = seenOf before.
Proof.
  intros Hin. apply set_eq. intros v. revert Hin.
  rewrite !elem_of_seenOf, elem_of_app, list_elem_of_singleton. naive_solver.
Qed.

Lemma uniqueLoop_spec mark results before acc :
  uniqueLoop mark results (seenOf before) acc =
  (acc ++ (mark <$> firstOccurrences_from SearchResultItem.URL before results),
   seenOf (before ++ (SearchResultItem.URL <$> results))).
Proof.
  revert before acc.
  induction results as [|x rest IH]; intros before acc; simpl.
  - by rewrite !app_nil_r.
  - destruct (String.eqb_spec (SearchResultItem.URL x) "") as [He|Hne]; simpl.
    + rewrite decide_True by (by left). simpl.
      rewrite <- (seenOf_snoc_empty before), <- He, IH.
      by rewrite <- !app_assoc.
    + case_bool_decide as Hin.
      * rewrite decide_False; simpl.
        2:{ apply elem_of_seenOf in Hin. tauto. }
        rewrite <- (seenOf_snoc_seen before _ Hin), IH.
        by rewrite <- !app_assoc.
      * rewrite decide_True; simpl.
        2:{ right. intros Hb. apply Hin, elem_of_seenOf. done. }
        rewrite <- (seenOf_snoc before _ Hne), IH.
        by rewrite <- !app_assoc.
Qed.

Lemma URL_markMixed e x :
  SearchResultItem.URL (markMixed e x) = SearchResultItem.URL x.
Proof. done. Qed.

Lemma URL_markFallback e i x :
  SearchResultItem.URL (markFallback e i x) = SearchResultItem.URL x.
Proof. done. Qed.

(** ** The cap *)

Lemma capped_sublist cfg l : sublist (capped cfg l) l.
Proof. unfold capped. destruct (_ <=? _); [done|apply sublist_take]. Qed.

Lemma capped_length cfg (l : list SearchResultItem.t) :
  0 < Breadth cfg -> len (capped cfg l) <= Breadth cfg.
Proof.
  intros Hb. unfold capped, len.
  destruct (Z.leb_spec (Breadth cfg) 0); [lia|].
  rewrite length_take. lia.
Qed.

(** The slice that the mixed loop cuts out is [capped]. *)
Lemma mixed_cut_capped cfg (results : list SearchResultItem.t) :
  slice_to (if Breadth cfg <=? 0 then len results
            else if Breadth cfg >? len results then len results
            else Breadth cfg) results
  = capped cfg results.
Proof.
  unfold capped, slice_to, len.
  destruct (Z.leb_spec (Breadth cfg) 0).
  - rewrite Nat2Z.id. apply firstn_all.
  - destruct (Z.gtb_spec (Breadth cfg) (Z.of_nat (length results))); [|done].
    rewrite Nat2Z.id, firstn_all. symmetry. apply take_ge. lia.
Qed.

(** The cut of the fallback branch is [capped] as well. *)
Lemma fallback_cut_capped cfg (l : list SearchResultItem.t) :
  (if (Breadth cfg >? 0) && (len l >? Breadth cfg)
   then slice_to (Breadth cfg) l else l) = capped cfg l.
Proof.
  unfold capped, slice_to, len.
  destruct (Z.gtb_spec (Breadth cfg) 0), (Z.leb_spec (Breadth cfg) 0);
    simpl; try lia; [|done].
  destruct (Z.gtb_spec (Z.of_nat (length l)) (Breadth cfg)); [done|].
  symmetry. apply take_ge. lia.
Qed.

(** ** The collecting loop of mixed mode *)

Lemma collect_step cfg acc r pre :
  allResults acc = markPair <$> firstOccurrences pairURL pre ->
  seenURLs acc = seenOf (pairURL <$> pre) ->
  allResults (collect cfg acc r)
    = markPair <$> firstOccurrences pairURL (pre ++ contribution cfg r)
  /\ seenURLs (collect cfg acc r)
    = seenOf (pairURL <$> (pre ++ contribution cfg r))
  /\ errors (collect cfg acc r) = errors acc ++ reported r.
Proof.
  intros Hres Hseen. unfold collect, contribution, reported.
  destruct (err r) as [e|]; simpl.
  { by rewrite !app_nil_r. }
  destruct (response r) as [resp|]; simpl.
  2:{ by rewrite !app_nil_r. }
  destruct (Z.gtb_spec (len (elems (SearchResponse.Results resp))) 0)
    as [Hpos|Hzero].
  - rewrite mixed_cut_capped, Hseen, uniqueLoop_spec. simpl.
    rewrite app_nil_r.
    split_and!; [|by rewrite fmap_app, <- list_fmap_compose|done].
    rewrite Hres. unfold firstOccurrences.
    rewrite firstOccurrences_from_app, fmap_app. f_equal.
    rewrite (firstOccurrences_from_fmap pairURL SearchResultItem.URL) by done.
    by rewrite <- !list_fmap_compose.
  - assert (elems (SearchResponse.Results resp) = []) as ->.
    { destruct (elems _); [done|]. unfold len in Hzero. simpl in Hzero. lia. }
    assert (capped cfg [] = []) as ->.
    { unfold capped. destruct (_ <=? _); [done|apply take_nil]. }
    simpl. by rewrite !app_nil_r.
Qed.

Lemma collect_fold cfg arrivals : forall acc pre,
  allResults acc = markPair <$> firstOccurrences pairURL pre ->
  seenURLs acc = seenOf (pairURL <$> pre) ->
  allResults (foldl (collect cfg) acc arrivals)
    = markPair <$> firstOccurrences pairURL (pre ++ pool cfg arrivals)
  /\ errors (foldl (collect cfg) acc arrivals)
    = errors acc ++ engineErrors arrivals.
Proof.
  induction arrivals as [|r arrivals IH]; intros acc pre Hres Hseen.
  - unfold pool, engineErrors. simpl. by rewrite !app_nil_r.
  - destruct (collect_step cfg acc r pre Hres Hseen) as (H1 & H2 & H3).
    destruct (IH _ _ H1 H2) as [IH1 IH2].
    unfold pool, engineErrors in *. simpl.
    rewrite IH1, IH2, H3, <- !app_assoc. done.
Qed.

Lemma collectAll_spec cfg arrivals :
  allResults (collectAll cfg arrivals)
    = markPair <$> firstOccurrences pairURL (pool cfg arrivals)
  /\ errors (collectAll cfg arrivals) = engineErrors arrivals.
Proof.
  unfold collectAll.
  by destruct (collect_fold cfg arrivals
    {| allResults := []; errors := []; usedEngines := ∅; seenURLs := ∅ |} []
    eq_refl eq_refl) as [H1 H2].
Qed.

Lemma collectAll_distinct cfg arrivals :
  distinctKeys SearchResultItem.URL (allResults (collectAll cfg arrivals)).
Proof.
  rewrite (proj1 (collectAll_spec cfg arrivals)).
  apply (distinctKeys_fmap _ pairURL); [done|].
  apply firstOccurrences_distinct.
Qed.

(** ** The adapter cache *)

Lemma getOrCreateAdapter_config reg s e :
  config (getOrCreateAdapter reg s e).2 = config s.
Proof.
  unfold getOrCreateAdapter. destruct (adapters s !! e); [done|].
  by destruct (CreateSearchAdapter reg e).
Qed.

(** Filling the cache does not change which adapter an engine gets. *)
Lemma getOrCreateAdapter_stable reg s e e' :
  (getOrCreateAdapter reg (getOrCreateAdapter reg s e).2 e').1
  = (getOrCreateAdapter reg s e').1.
Proof.
  unfold getOrCreateAdapter at 2.
  destruct (adapters s !! e) eqn:Hc; [done|].
  destruct (CreateSearchAdapter reg e) as [a|err] eqn:Hr; [|done].
  unfold getOrCreateAdapter. simpl.
  destruct (decide (e = e')) as [<-|Hne].
  - by rewrite lookup_insert_eq, Hc, Hr.
  - rewrite lookup_insert_ne by done.
    destruct (adapters s !! e'); [done|].
    by destruct (CreateSearchAdapter reg e').
Qed.

Lemma adapterOf_stable reg s e e' :
  adapterOf reg (getOrCreateAdapter reg s e).2 e' = adapterOf reg s e'.
Proof. unfold adapterOf. by rewrite getOrCreateAdapter_stable. Qed.

Lemma adapterOf_Some reg s e a :
  adapterOf reg s e = Some a -> (getOrCreateAdapter reg s e).1 = inl a.
Proof.
  unfold adapterOf. destruct (getOrCreateAdapter reg s e).1; congruence.
Qed.

Lemma adapterOf_None reg s e :
  adapterOf reg s e = None ->
  exists err, (getOrCreateAdapter reg s e).1 = inr err.
Proof.
  unfold adapterOf. destruct (getOrCreateAdapter reg s e).1; [done|eauto].
Qed.

Lemma mixedTask_strategy reg request s e :
  (mixedTask reg request s e).2 = (getOrCreateAdapter reg s e).2.
Proof.
  unfold mixedTask. destruct (getOrCreateAdapter reg s e) as [[a|err] s'];
    [|done].
  by destruct (Search a request).
Qed.

Lemma arrival_stable reg request s e e' :
  arrival reg request (mixedTask reg request s e).2 e'
  = arrival reg request s e'.
Proof.
  rewrite mixedTask_strategy. unfold arrival, mixedTask.
  pose proof (getOrCreateAdapter_stable reg s e e') as Hst.
  destruct (getOrCreateAdapter reg (getOrCreateAdapter reg s e).2 e')
    as [c1 s1], (getOrCreateAdapter reg s e') as [c2 s2].
  simpl in Hst. subst c2. destruct c1 as [a|err]; [|done].
  by destruct (Search a request).
Qed.

Lemma mixedTasks_arrivals reg request completion : forall s,
  (mixedTasks reg request s completion).1.1
  = arrival reg request s <$> completion.
Proof.
  induction completion as [|e rest IH]; intros s; simpl; [done|].
  pose proof (arrival_stable reg request s e) as Hst.
  unfold arrival at 1.
  destruct (mixedTask reg request s e) as [[r c] s1]. simpl in Hst.
  specialize (IH s1).
  destruct (mixedTasks reg request s1 rest) as [[rs cs] s2]. simpl in *.
  rewrite IH. f_equal.
  apply list_fmap_ext. intros _ e' _. apply Hst.
Qed.

(** ** The fallback loop, one engine at a time *)

Lemma fallbackLoop_search_fails reg request n i e rest seen lastErr calls s
    a answer err :
  adapterOf reg s e = Some a ->
  Search a request = (answer, Some err) ->
  EnableFallback (config s) = true ->
  i ≠ n - 1 ->
  fallbackLoop reg request n i (e :: rest) seen lastErr calls s
  = fallbackLoop reg request n (i + 1) rest seen
      (Some (wrapError ("engine " +:+ e +:+ " search failed: ") (Some err)))
      (calls ++ [e]) (getOrCreateAdapter reg s e).2.
Proof.
  intros Ha Hs Hen Hi. apply adapterOf_Some in Ha. simpl.
  pose proof (getOrCreateAdapter_config reg s e) as Hc.
  destruct (getOrCreateAdapter reg s e) as [c s1]. simpl in *. subst c.
  rewrite Hs, Hc, Hen. simpl.
  by destruct (Z.eqb_spec i (n - 1)).
Qed.

Lemma fallbackLoop_search_succeeds reg request n i e rest seen lastErr calls s
    a answer :
  adapterOf reg s e = Some a ->
  Search a request = (Some answer, None) ->
  fallbackLoop reg request n i (e :: rest) seen lastErr calls s
  = {| result := Return (fallbackSuccess (config s) e i seen answer);
       searched := calls ++ [e];
       final := (getOrCreateAdapter reg s e).2 |}.
Proof.
  intros Ha Hs. apply adapterOf_Some in Ha. simpl.
  pose proof (getOrCreateAdapter_config reg s e) as Hc.
  destruct (getOrCreateAdapter reg s e) as [c s1]. simpl in *. subst c.
  by rewrite Hs, Hc.
Qed.

(** The nil adapter: creation failed, fail-fast is off and the engine is
    not the last one. *)
Lemma fallbackLoop_nil_adapter reg request n i e rest seen lastErr calls s :
  adapterOf reg s e = None ->
  FailFast (config s) = false ->
  i ≠ n - 1 ->
  result (fallbackLoop reg request n i (e :: rest) seen lastErr calls s)
  = Panicked nilDereference
  /\ searched (fallbackLoop reg request n i (e :: rest) seen lastErr calls s)
  = calls.
Proof.
  intros Ha Hff Hi. apply adapterOf_None in Ha as [err Ha]. simpl.
  pose proof (getOrCreateAdapter_config reg s e) as Hc.
  destruct (getOrCreateAdapter reg s e) as [c s1]. simpl in *. subst c.
  rewrite Hc, Hff. simpl.
  by destruct (Z.eqb_spec i (n - 1)).
Qed.

(** A fallback call that returns a response returns what the success branch
    makes of the answer of one of the engines. *)
Lemma fallbackLoop_returns reg request n engines :
  forall i seen lastErr calls s resp,
  result (fallbackLoop reg request n i engines seen lastErr calls s)
    = Return resp ->
  exists e j a answer,
    e ∈ engines /\ adapterOf reg s e = Some a
    /\ Search a request = (Some answer, None)
    /\ resp = fallbackSuccess (config s) e j seen answer.
Proof.
  induction engines as [|e rest IH]; intros i seen lastErr calls s resp;
    simpl; [done|].
  pose proof (getOrCreateAdapter_config reg s e) as Hc.
  pose proof (adapterOf_stable reg s e) as Hst.
  assert (forall a, (getOrCreateAdapter reg s e).1 = inl a ->
                    adapterOf reg s e = Some a) as Hhere.
  { intros a Ha. unfold adapterOf. by rewrite Ha. }
  destruct (getOrCreateAdapter reg s e) as [[a|err] s1]; simpl in *.
  - specialize (Hhere a eq_refl).
    destruct (Search a request) as [[answer|] [err|]] eqn:Hs; simpl.
    + destruct (_ || _); simpl; [done|].
      intros (e' & j & a' & answer' & Hin & Ha & Hs' & ->)%IH.
      exists e', j, a', answer'. rewrite Hst, Hc in *.
      split_and!; [by right|done..].
    + intros [= <-]. exists e, i, a, answer. rewrite Hc.
      split_and!; [by left|done..].
    + destruct (_ || _); simpl; [done|].
      intros (e' & j & a' & answer' & Hin & Ha & Hs' & ->)%IH.
      exists e', j, a', answer'. rewrite Hst, Hc in *.
      split_and!; [by right|done..].
    + done.
  - destruct (_ || _); simpl; [|done].
    intros (e' & j & a' & answer' & Hin & Ha & Hs' & ->)%IH.
    exists e', j, a', answer'. rewrite Hst, Hc in *.
    split_and!; [by right|done..].
Qed.

Lemma fallbackSuccess_results cfg e i answer :
  elems (SearchResponse.Results (fallbackSuccess cfg e i ∅ answer))
  = capped cfg (markFallback e (i + 1)
                  <$> firstOccurrences SearchResultItem.URL
                        (elems (SearchResponse.Results answer))).
Proof.
  unfold fallbackSuccess.
  destruct (SearchResponse.Results answer) as [results|] eqn:Hr; simpl.
  - rewrite elems_appended, fallback_cut_capped.
    change (∅ : gset string) with (seenOf []).
    by rewrite uniqueLoop_spec.
  - rewrite Hr. unfold capped. simpl.
    destruct (_ <=? _); [done|by rewrite take_nil].
Qed.

End SearchFacts.

(* ===================================================================== *)
(** * The retrieval strategies: properties *)
(* ===================================================================== *)

Module Retrieval.
Import Search SearchFacts Samples.

(** C2.  Whatever a retrieval call returns, in mixed and in fallback mode,
    no two of its items share a non-empty URL.  In mixed mode the result is
    the first occurrences, by URL, in the pool made of each engine's results
    cut to the breadth, in arrival order: the cap comes before the global
    de-duplication.  In fallback mode it is the first occurrences in the
    answer of the engine that succeeded, cut to the breadth. *)
Theorem C2_merged_results_have_distinct_urls
    reg s request completion resp :
  result (Execute reg s request completion) = Return resp ->
  let results := elems (SearchResponse.Results resp) in
  distinctKeys SearchResultItem.URL results
  /\ if decide (MixedEngines (config s) = [])
     then exists e attempt a answer,
            e ∈ getEngineOrder s
            /\ adapterOf reg s e = Some a
            /\ Search a request = (Some answer, None)
            /\ results
                = capped (config s)
                    (markFallback e attempt
                       <$> firstOccurrences SearchResultItem.URL
                             (elems (SearchResponse.Results answer)))
     else results
          = markPair
              <$> firstOccurrences pairURL
                    (pool (config s) (arrival reg request s <$> completion)).
Proof.
  unfold Execute. intros Hret. cbv zeta.
  destruct (decide (MixedEngines (config s) = [])) as [Hnil|Hmixed].
  - rewrite Hnil in Hret. simpl in Hret. unfold executeFallbackSearch in Hret.
    apply fallbackLoop_returns in Hret
      as (e & j & a & answer & Hin & Ha & Hs & ->).
    rewrite fallbackSuccess_results. split.
    + eapply distinctKeys_sublist; [apply capped_sublist|].
      apply (distinctKeys_fmap _ SearchResultItem.URL); [done|].
      apply firstOccurrences_distinct.
    + by exists e, (j + 1), a, answer.
  - assert (0 < len (MixedEngines (config s))) as Hlen.
    { destruct (MixedEngines (config s)); [done|]. unfold len. simpl. lia. }
    destruct (Z.gtb_spec (len (MixedEngines (config s))) 0); [|lia].
    unfold executeMixedSearch in Hret.
    destruct (Z.eqb_spec (len (MixedEngines (config s))) 0); [lia|].
    pose proof (mixedTasks_arrivals reg request completion s) as Harr.
    destruct (mixedTasks reg request s completion) as [[arrivals calls] s'].
    simpl in Harr, Hret. subst arrivals.
    unfold mixedResponse in Hret.
    destruct (len (allResults _) =? 0); [by destruct (_ >? _)|].
    injection Hret as <-. simpl.
    split; [apply collectAll_distinct|apply collectAll_spec].
Qed.

Lemma C2_witness :
  exists resp,
    result (Execute registry
              (NewDefaultSearchStrategy (Some (mixedConfig ["c"; "d"] 3)))
              (request "q") ["d"; "c"]) = Return resp
    /\ distinctKeys SearchResultItem.URL (elems (SearchResponse.Results resp))
    /\ SearchResultItem.URL <$> elems (SearchResponse.Results resp)
       = ["u2"; "u5"; "u6"; "u1"].
Proof.
  eexists. split; [vm_compute; reflexivity|]. split.
  - refine (proj1 (C2_merged_results_have_distinct_urls registry
      (NewDefaultSearchStrategy (Some (mixedConfig ["c"; "d"] 3)))
      (request "q") ["d"; "c"] _ _)).
    vm_compute. reflexivity.
  - vm_compute. reflexivity.
Defined.

(** C3, evaluated where it fails.  Fail-fast is set, engine [a] is created
    and its call fails, and yet engine [c] is attempted next and answers:
    the loop consults [FailFast] only when an adapter cannot be created. *)
Theorem C3_fail_fast_does_not_halt :
  let s :=
    NewDefaultSearchStrategy (Some (fallbackConfig ["a"; "c"] true 10)) in
  let r := executeFallbackSearch registry s (request "q") in
  FailFast (config s) = true
  /\ searched r = ["a"; "c"]
  /\ exists resp,
       result r = Return resp
       /\ SearchResultItem.URL <$> elems (SearchResponse.Results resp)
          = ["u1"; "u2"; ""; "u3"; "u4"].
Proof.
  cbv zeta. split; [done|]. split; [vm_compute; reflexivity|].
  eexists. split; vm_compute; reflexivity.
Qed.

Lemma constructed_EnableFallback s :
  constructed s -> EnableFallback (config s) = true.
Proof.
  intros [cfg ->]. unfold NewDefaultSearchStrategy. simpl.
  destruct cfg as [c|]; simpl; [|done]. by destruct (EnableFallback c).
Qed.

Lemma constructed_Breadth s : constructed s -> 0 < Breadth (config s).
Proof.
  intros [cfg ->]. unfold NewDefaultSearchStrategy. simpl.
  destruct cfg as [c|]; simpl; [|lia].
  destruct (Z.leb_spec (Breadth c) 0); lia.
Qed.

Lemma markFallback_metadata e i x :
  SearchResultItem.Metadata (markFallback e i x) !! "search_engine"
    = Some (MetaString e)
  /\ SearchResultItem.Metadata (markFallback e i x) !! "strategy"
    = Some (MetaString "fallback")
  /\ SearchResultItem.Metadata (markFallback e i x) !! "attempt"
    = Some (MetaInt i).
Proof.
  unfold markFallback, SearchResultItem.setMetadata. simpl.
  split_and!.
  - by rewrite !lookup_insert_ne, lookup_insert_eq by done.
  - by rewrite lookup_insert_ne, lookup_insert_eq by done.
  - by rewrite lookup_insert_eq.
Qed.

(** C6.  Fallback order [A, B, C], fail-fast off, the calls of [A] and [B]
    fail and [C] answers: [Search] is invoked on [A], [B], [C] in that order,
    and the response holds the first occurrences, by URL, of the items of
    [C]'s answer, cut to the breadth, each marked with engine [C], strategy
    [fallback] and attempt 3. *)
Theorem C6_fallback_reaches_third_engine
    reg s request A B C a b c ansA errA ansB errB answer :
  constructed s ->
  DefaultFallbackOrder (config s) = [A; B; C] ->
  FailFast (config s) = false ->
  adapterOf reg s A = Some a -> Search a request = (ansA, Some errA) ->
  adapterOf reg s B = Some b -> Search b request = (ansB, Some errB) ->
  adapterOf reg s C = Some c -> Search c request = (Some answer, None) ->
  let r := executeFallbackSearch reg s request in
  searched r = [A; B; C]
  /\ exists resp,
       result r = Return resp
       /\ elems (SearchResponse.Results resp)
          = take (Z.to_nat (Breadth (config s)))
              (markFallback C 3
                 <$> firstOccurrences SearchResultItem.URL
                       (elems (SearchResponse.Results answer)))
       /\ Forall (λ x,
             SearchResultItem.Metadata x !! "search_engine"
               = Some (MetaString C)
             /\ SearchResultItem.Metadata x !! "strategy"
               = Some (MetaString "fallback")
             /\ SearchResultItem.Metadata x !! "attempt" = Some (MetaInt 3))
            (elems (SearchResponse.Results resp)).
Proof.
  intros Hcons Horder _ HA HsA HB HsB HC HsC. cbv zeta.
  pose proof (constructed_EnableFallback s Hcons) as Hen.
  pose proof (constructed_Breadth s Hcons) as Hbr.
  unfold executeFallbackSearch, getEngineOrder. rewrite Horder.
  change (if len [A; B; C] >? 0 then [A; B; C] else [DefaultEngine (config s)])
    with [A; B; C].
  change (len [A; B; C]) with 3.
  set (s1 := (getOrCreateAdapter reg s A).2).
  set (s2 := (getOrCreateAdapter reg s1 B).2).
  assert (config s1 = config s) as Hc1 by apply getOrCreateAdapter_config.
  assert (config s2 = config s) as Hc2.
  { unfold s2. by rewrite getOrCreateAdapter_config. }
  rewrite (fallbackLoop_search_fails _ _ _ _ _ _ _ _ _ _ a ansA errA)
    by done.
  fold s1.
  rewrite (fallbackLoop_search_fails _ _ _ _ _ _ _ _ _ _ b ansB errB);
    [|by unfold s1; rewrite adapterOf_stable|done|by rewrite Hc1|done].
  fold s2.
  rewrite (fallbackLoop_search_succeeds _ _ _ _ _ _ _ _ _ _ c answer);
    [|by unfold s2, s1; rewrite !adapterOf_stable|done].
  simpl. split; [done|].
  eexists. split; [done|].
  rewrite fallbackSuccess_results, Hc2. unfold capped.
  destruct (Z.leb_spec (Breadth (config s)) 0); [lia|].
  split; [done|].
  apply Forall_take, Forall_fmap, Forall_true. intros x.
  apply markFallback_metadata.
Qed.

Lemma C6_witness :
  let s := NewDefaultSearchStrategy
             (Some (fallbackConfig ["a"; "b"; "c"] false 2)) in
  let r := executeFallbackSearch registry s (request "q") in
  searched r = ["a"; "b"; "c"]
  /\ exists resp,
       result r = Return resp
       /\ SearchResultItem.URL <$> elems (SearchResponse.Results resp)
          = ["u1"; "u2"].
Proof.
  cbv zeta.
  destruct (C6_fallback_reaches_third_engine registry
    (NewDefaultSearchStrategy (Some (fallbackConfig ["a"; "b"; "c"] false 2)))
    (request "q") "a" "b" "c"
    (failing "timeout") (failing "status 503")
    (answering ["u1"; "u2"; "u1"; ""; "u3"; "u4"])
    None (errorString "timeout") None (errorString "status 503")
    (SearchResponse.mk "q"
       (Some (item <$> ["u1"; "u2"; "u1"; ""; "u3"; "u4"])) 6 0))
    as (Hs & resp & Hr & Hres & _).
  - by eexists.
  - reflexivity.
  - reflexivity.
  - reflexivity.
  - reflexivity.
  - reflexivity.
  - reflexivity.
  - reflexivity.
  - reflexivity.
  - split; [exact Hs|]. exists resp. split; [exact Hr|].
    rewrite Hres. vm_compute. reflexivity.
Defined.

Lemma firstOccurrences_nonempty {A} (key : A -> string) (l : list A) :
  l ≠ [] -> firstOccurrences key l ≠ [].
Proof.
  destruct l as [|x l]; [done|]. intros _. unfold firstOccurrences. simpl.
  rewrite decide_True; [done|]. right. apply not_elem_of_nil.
Qed.

Lemma firstOccurrences_length {A} (key : A -> string) (l : list A) :
  (length (firstOccurrences key l) <= length l)%nat.
Proof. apply sublist_length, firstOccurrences_from_sublist. Qed.

(** What a mixed call returns, in terms of the arrivals. *)
Lemma executeMixedSearch_result reg s request completion :
  MixedEngines (config s) ≠ [] ->
  result (executeMixedSearch reg s request completion)
  = mixedResponse request
      (collectAll (config s) (arrival reg request s <$> completion)).
Proof.
  intros Hne. unfold executeMixedSearch.
  destruct (Z.eqb_spec (len (MixedEngines (config s))) 0) as [Hz|_].
  { destruct (MixedEngines (config s)); [done|]. unfold len in Hz.
    simpl in Hz. lia. }
  pose proof (mixedTasks_arrivals reg request completion s) as Harr.
  destruct (mixedTasks reg request s completion) as [[arrivals calls] s'].
  simpl in *. by subst.
Qed.

Lemma contribution_failed cfg r : failed r -> contribution cfg r = [].
Proof. unfold failed, contribution. by destruct (err r). Qed.

Lemma contribution_answered cfg r n :
  answered r n -> 0 < Breadth cfg ->
  length (contribution cfg r) = Nat.min (Z.to_nat (Breadth cfg)) n.
Proof.
  intros (He & resp & Hr & Hn) Hb. unfold contribution, capped.
  rewrite He, Hr, length_fmap.
  destruct (Z.leb_spec (Breadth cfg) 0); [lia|].
  by rewrite length_take, Hn.
Qed.

(** C7.  A mixed call fails only when nothing was merged, and the error it
    then returns carries every error that the engines reported; three
    engines of which two return 5 results and one fails, with breadth 3, give
    a successful call with between 1 and 6 items and no repeated URL,
    whatever the order in which the engines complete. *)
Theorem C7_mixed_tolerates_partial_failure :
  (forall reg s request completion,
     completion ≡ₚ MixedEngines (config s) ->
     let arrivals := arrival reg request s <$> completion in
     let mergedSet :=
       markPair <$> firstOccurrences pairURL (pool (config s) arrivals) in
     match result (executeMixedSearch reg s request completion) with
     | Return resp =>
         mergedSet ≠ [] /\ SearchResponse.Results resp = Some mergedSet
     | Fail e => mergedSet = [] /\ listed e = engineErrors arrivals
     | Panicked _ => False
     end)
  /\ (forall reg s request completion e1 e2 e3,
       MixedEngines (config s) = [e1; e2; e3] ->
       Breadth (config s) = 3 ->
       completion ≡ₚ [e1; e2; e3] ->
       answered (arrival reg request s e1) 5 ->
       failed (arrival reg request s e2) ->
       answered (arrival reg request s e3) 5 ->
       exists resp,
         result (Execute reg s request completion) = Return resp
         /\ (1 <= length (elems (SearchResponse.Results resp)) <= 6)%nat
         /\ distinctKeys SearchResultItem.URL
              (elems (SearchResponse.Results resp))).
Proof.
  split.
  - intros reg s request completion Hperm. cbv zeta.
    destruct (decide (MixedEngines (config s) = [])) as [Hnil|Hne].
    { unfold executeMixedSearch. rewrite Hnil in *. simpl.
      apply Permutation_nil_r in Hperm as ->. done. }
    rewrite executeMixedSearch_result by done.
    destruct (collectAll_spec (config s) (arrival reg request s <$> completion))
      as [Hall Herrs].
    unfold mixedResponse. rewrite Hall, Herrs.
    destruct (Z.eqb_spec (len (markPair <$> firstOccurrences pairURL
                (pool (config s) (arrival reg request s <$> completion)))) 0)
      as [Hz|Hnz].
    + assert (markPair <$> firstOccurrences pairURL
                (pool (config s) (arrival reg request s <$> completion)) = [])
        as Hempty.
      { destruct (markPair <$> _); [done|]. unfold len in Hz. simpl in Hz.
        lia. }
      rewrite Hempty.
      destruct (Z.gtb_spec (len (engineErrors (arrival reg request s
                                                  <$> completion))) 0)
        as [Hpos|Hnone]; (split; [done|]); [done|].
      simpl. destruct (engineErrors _); [done|].
      unfold len in Hnone. simpl in Hnone. lia.
    + split; [|done]. intros Hempty. by rewrite Hempty in Hnz.
  - intros reg s request completion e1 e2 e3 Heng Hbr Hperm H1 H2 H3.
    unfold Execute. rewrite Heng.
    change (len [e1; e2; e3] >? 0) with true. cbv iota.
    rewrite executeMixedSearch_result by (by rewrite Heng).
    destruct (collectAll_spec (config s) (arrival reg request s <$> completion))
      as [Hall _].
    pose proof (collectAll_distinct (config s)
                  (arrival reg request s <$> completion)) as Hdist.
    assert (length (pool (config s) (arrival reg request s <$> completion))
            = 6%nat) as Hpool.
    { unfold pool. rewrite Hperm. simpl.
      rewrite !length_app, (contribution_failed _ _ H2).
      rewrite (contribution_answered _ _ 5 H1),
              (contribution_answered _ _ 5 H3) by lia.
      rewrite Hbr. simpl. lia. }
    assert (1 <= length (allResults (collectAll (config s)
                           (arrival reg request s <$> completion))) <= 6)%nat
      as Hlen.
    { rewrite Hall, length_fmap. split.
      - assert (firstOccurrences pairURL
                  (pool (config s) (arrival reg request s <$> completion)) ≠ [])
          as Hne.
        { apply firstOccurrences_nonempty. intros Hnil.
          by rewrite Hnil in Hpool. }
        destruct (firstOccurrences _ _); [done|simpl; lia].
      - rewrite <- Hpool. apply firstOccurrences_length. }
    unfold mixedResponse.
    destruct (Z.eqb_spec (len (allResults (collectAll (config s)
                (arrival reg request s <$> completion)))) 0) as [Hz|_].
    { unfold len in Hz. lia. }
    eexists. split; [done|]. simpl. done.
Qed.

Lemma C7_witness :
  (exists resp,
     result (Execute five
               (NewDefaultSearchStrategy (Some (mixedConfig ["c"; "a"; "d"] 3)))
               (request "q") ["d"; "a"; "c"]) = Return resp
     /\ (1 <= length (elems (SearchResponse.Results resp)) <= 6)%nat)
  /\ (exists e,
       result (executeMixedSearch five
                 (NewDefaultSearchStrategy (Some (mixedConfig ["a"; "b"] 3)))
                 (request "q") ["b"; "a"]) = Fail e
       /\ length (listed e) = 2%nat).
Proof.
  destruct C7_mixed_tolerates_partial_failure as [Hgeneral Hthree]. split.
  - destruct (Hthree five
      (NewDefaultSearchStrategy (Some (mixedConfig ["c"; "a"; "d"] 3)))
      (request "q") ["d"; "a"; "c"] "c" "a" "d")
      as (resp & Hr & Hlen & _).
    + reflexivity.
    + reflexivity.
    + etransitivity; [apply perm_swap|].
      etransitivity; [apply perm_skip, perm_swap|]. apply perm_swap.
    + split; [reflexivity|]. eexists. split; reflexivity.
    + unfold failed. vm_compute. discriminate.
    + split; [reflexivity|]. eexists. split; reflexivity.
    + by exists resp.
  - pose proof (Hgeneral five
      (NewDefaultSearchStrategy (Some (mixedConfig ["a"; "b"] 3)))
      (request "q") ["b"; "a"]) as Hg.
    assert (["b"; "a"] ≡ₚ ["a"; "b"]) as Hp by apply perm_swap.
    specialize (Hg Hp). cbv zeta in Hg.
    destruct (result _) as [resp|e|why] eqn:Hres.
    + exfalso. vm_compute in Hres. discriminate.
    + exists e. split; [done|]. destruct Hg as [_ ->]. reflexivity.
    + done.
Defined.

(** C9, evaluated where it fails.  The first engine of the order cannot be
    created (it is not registered), fail-fast is off: the search strategy and
    both entry points of the web strategy go on to call the capability on the
    nil adapter, and panic. *)
Theorem C9_nil_adapter_is_called :
  result (executeFallbackSearch registry
            (NewDefaultSearchStrategy
               (Some (fallbackConfig ["missing"; "c"] false 10)))
            (request "q"))
    = Panicked nilDereference
  /\ Web.result (Web.Execute webRegistry
                   (Web.NewDefaultWebStrategy
                      (Some (webConfig ["missing"; "jina"] false)))
                   "https://example.org" None)
    = Panicked nilDereference
  /\ Web.result (Web.ExecuteMultiple webRegistry
                   (Web.NewDefaultWebStrategy
                      (Some (webConfig ["missing"; "jina"] false)))
                   ["https://example.org"] None)
    = Panicked nilDereference.
Proof. split_and!; vm_compute; reflexivity. Qed.

(** C10.  Whatever configuration they are given, also none, and whatever
    its enable-fallback flag says, both constructors return a strategy whose
    [EnableFallback] is true. *)
Theorem C10_constructors_always_enable_fallback :
  forall (cfg : option SearchStrategyConfig)
         (wcfg : option Web.WebStrategyConfig),
    EnableFallback (config (NewDefaultSearchStrategy cfg)) = true
    /\ Web.EnableFallback (Web.config (Web.NewDefaultWebStrategy wcfg))
       = true.
Proof.
  intros cfg wcfg. split.
  - apply constructed_EnableFallback. by exists cfg.
  - unfold Web.NewDefaultWebStrategy. simpl.
    destruct wcfg as [c|]; simpl; [|done]. by destruct (Web.EnableFallback c).
Qed.

End Retrieval.

(* ===================================================================== *)
(** * The research agent: properties *)
(* ===================================================================== *)

Module Research.
Import Agent.

(** ** Token overlap *)

Lemma occursIn_elem_of w ws : occursIn w ws = true <-> w ∈ ws.
Proof.
  induction ws as [|x ws IH]; simpl.
  - split; [done|]. by intros ?%elem_of_nil.
  - rewrite elem_of_cons. destruct (String.eqb_spec w x) as [->|Hne].
    + tauto.
    + rewrite IH. tauto.
Qed.

Lemma countCommon_spec newWords researchedWords c :
  countCommon newWords researchedWords c
  = c + len (filter (λ w, qualifying w /\ w ∈ researchedWords) newWords).
Proof.
  revert c. induction newWords as [|w ws IH]; intros c; simpl.
  - unfold len. simpl. lia.
  - rewrite filter_cons.
    destruct (Z.gtb_spec (Strings.len w) MinWordLength) as [Hq|Hq].
    + destruct (occursIn w researchedWords) eqn:Hocc.
      * apply occursIn_elem_of in Hocc.
        rewrite decide_True by (split; [unfold qualifying; lia|done]).
        rewrite IH. unfold len. simpl. lia.
      * rewrite decide_False.
        2:{ intros [_ Hin]. apply occursIn_elem_of in Hin. congruence. }
        apply IH.
    + rewrite decide_False by (unfold qualifying; intros [? _]; lia).
      apply IH.
Qed.

Section Functions.
Context (ToLower : string -> string) (Fields : string -> list string).

Lemma similarTo_spec candidate researched :
  Library.similarTo ToLower Fields (ToLower candidate) researched = true
  <-> (SimilarityThreshold
         < Overlap.overlapRatio ToLower Fields candidate researched)%Q.
Proof.
  unfold Library.similarTo, Overlap.overlapRatio, Overlap.sharedTokens,
    Overlap.tokens.
  rewrite countCommon_spec, Z.add_0_l.
  set (shared := len (filter _ _)).
  set (total := len (Fields (ToLower candidate))).
  rewrite andb_true_iff, negb_true_iff.
  split.
  - intros [_ Hle]. apply Qnot_le_lt. intros Hq.
    apply Qle_bool_iff in Hq. congruence.
  - intros Hlt. split.
    + destruct (Z.gtb_spec total 0) as [|Hz]; [done|]. exfalso.
      assert (total = 0) as Ht by (unfold total, len in *; lia).
      rewrite Ht in Hlt. unfold Qlt, Qdiv, Qmult, Qinv in Hlt. simpl in Hlt.
      lia.
    + destruct (Qle_bool _ _) eqn:Hb; [|done].
      apply Qle_bool_iff in Hb. exfalso. by apply (Qlt_not_le _ _ Hlt).
Qed.

Lemma similarToAny_spec candidate keys :
  Library.similarToAny ToLower Fields (ToLower candidate) keys = true
  <-> exists r, r ∈ keys
                /\ (SimilarityThreshold
                      < Overlap.overlapRatio ToLower Fields candidate r)%Q.
Proof.
  induction keys as [|k keys IH]; simpl.
  - split; [done|]. intros (r & Hin & _). by apply elem_of_nil in Hin.
  - destruct (Library.similarTo _ _ _ k) eqn:Hs.
    + split; [|done]. intros _. exists k. split; [by left|].
      by apply similarTo_spec.
    + rewrite IH. split.
      * intros (r & Hin & Hr). exists r. split; [by right|done].
      * intros (r & Hin & Hr). apply elem_of_cons in Hin as [->|Hin].
        -- apply similarTo_spec in Hr. congruence.
        -- by exists r.
Qed.

End Functions.

(** The function of the agent is the instance at the functions of module
    [Strings]. *)
Lemma isSimilarQuestionResearched_instance newQuestion researchedQuestions :
  isSimilarQuestionResearched newQuestion researchedQuestions
  = Library.isSimilarQuestionResearched Strings.ToLower Strings.Fields
      newQuestion researchedQuestions.
Proof.
  unfold isSimilarQuestionResearched, Library.isSimilarQuestionResearched.
  induction ((map_to_list researchedQuestions).*1) as [|k keys IH]; [done|].
  simpl. by rewrite IH.
Qed.



Import StreamingResearchState.


(** ** Strings *)

Lemma append_nil_l b : "" +:+ b = b.
Proof. reflexivity. Qed.

Lemma append_cons c a b : String c a +:+ b = String c (a +:+ b).
Proof. reflexivity. Qed.

Lemma ToLower_app a b :
  Strings.ToLower (a +:+ b) = Strings.ToLower a +:+ Strings.ToLower b.
Proof.
  induction a as [|c a IH]; [done|].
  rewrite append_cons. simpl. by rewrite IH, append_cons.
Qed.

Lemma ToLower_split s : forall a b,
  Strings.ToLower s = a +:+ b ->
  exists a' b', s = a' +:+ b'
                /\ Strings.ToLower a' = a /\ Strings.ToLower b' = b.
Proof.
  induction s as [|c s IH]; intros a b; simpl.
  - destruct a; [|done]. rewrite append_nil_l. intros <-.
    exists "", "". split_and!; reflexivity.
  - destruct a as [|d a].
    + rewrite append_nil_l. intros <-.
      exists "", (String c s). split_and!; reflexivity.
    + rewrite append_cons. intros [= <- H].
      apply IH in H as (a' & b' & -> & <- & <-).
      exists (String c a'), b'. split_and!; reflexivity.
Qed.

Lemma prefix_spec sub s :
  Strings.HasPrefix s sub = true <-> exists post, s = sub +:+ post.
Proof.
  revert s. induction sub as [|c sub IH]; intros s; simpl.
  - split; [|done]. intros _. exists s. reflexivity.
  - destruct s as [|d s].
    + split; [done|]. intros [post H]. rewrite append_cons in H. done.
    + rewrite andb_true_iff, IH. split.
      * intros [->%Ascii.eqb_eq [post ->]]. exists post.
        by rewrite append_cons.
      * intros [post H]. rewrite append_cons in H. injection H as -> ->.
        split; [apply Ascii.eqb_refl|by exists post].
Qed.

Lemma Contains_spec s sub :
  Strings.Contains s sub = true
  <-> exists pre post, s = pre +:+ sub +:+ post.
Proof.
  induction s as [|c s IH]; simpl.
  - rewrite orb_false_r, prefix_spec. split.
    + intros [post H]. exists "", post. by rewrite append_nil_l.
    + intros (pre & post & H). destruct pre as [|d pre].
      * exists post. by rewrite append_nil_l in H.
      * rewrite append_cons in H. done.
  - rewrite orb_true_iff, prefix_spec, IH. split.
    + intros [[post H]|(pre & post & ->)].
      * exists "", post. by rewrite append_nil_l.
      * exists (String c pre), post. by rewrite append_cons.
    + intros (pre & post & H). destruct pre as [|d pre].
      * left. exists post. by rewrite append_nil_l in H.
      * right. rewrite append_cons in H. injection H as -> ->.
        by exists pre, post.
Qed.

Lemma Contains_ToLower reply word :
  Strings.Contains (Strings.ToLower reply) word = true
  <-> containsIgnoringCase reply word.
Proof.
  rewrite Contains_spec. unfold containsIgnoringCase. split.
  - intros (pre & post & H).
    apply ToLower_split in H as (a' & rest & -> & _ & H).
    apply ToLower_split in H as (found & b' & -> & Hf & _).
    by exists a', found, b'.
  - intros (before & found & after & -> & <-).
    exists (Strings.ToLower before), (Strings.ToLower after).
    by rewrite !ToLower_app.
Qed.

Lemma hasPending_spec questions :
  hasPending questions = true
  <-> exists q, q ∈ questions
                /\ ResearchQuestion.Status q = QuestionStatusPending.
Proof.
  induction questions as [|q qs IH]; simpl.
  - split; [done|]. intros (q & Hin & _). by apply elem_of_nil in Hin.
  - destruct (String.eqb_spec (ResearchQuestion.Status q)
                QuestionStatusPending) as [He|Hne].
    + split; [|done]. intros _. exists q. split; [by left|done].
    + rewrite IH. split.
      * intros (q' & Hin & Hq). exists q'. split; [by right|done].
      * intros (q' & Hin & Hq). apply elem_of_cons in Hin as [->|Hin];
          [done|by exists q'].
Qed.

(** ** The monad *)

Lemma setThoughtChannel_same s : setThoughtChannel (ThoughtChannel s) s = s.
Proof. by destruct s. Qed.

Lemma sendThought_open t w :
  channelOpen (state w) -> sendThought t w = (Return tt, afterSend t w).
Proof.
  unfold channelOpen, sendThought, afterSend.
  unfold mbind, M_bind, bind, get, modify, panic, mret, M_ret, ret.
  destruct w as [s cs]. simpl.
  destruct (ThoughtChannel s) as [ch|] eqn:Hch; simpl.
  - by intros ->.
  - intros _. by rewrite <- Hch, setThoughtChannel_same.
Qed.

Lemma afterSend_open t w :
  channelOpen (state w) -> channelOpen (state (afterSend t w)).
Proof.
  unfold channelOpen, afterSend. simpl.
  by destruct (ThoughtChannel (state w)).
Qed.

(** The channel stays open under sends and under writes to the other
    fields. *)
Ltac solve_open w :=
  unfold channelOpen, afterSend in *; simpl in *;
  by destruct (ThoughtChannel (state w)).

Lemma judgeSufficient_open agent st w :
  channelOpen (state w) ->
  exists b w',
    judgeSufficient agent st w = (Return b, w')
    /\ (b = true <-> judgedSufficient agent st)
    /\ channelOpen (state w')
    /\ calls w' = calls w ++ [CallGenerate (sufficiencyPrompt st)]
    /\ state w' = setThoughtChannel (ThoughtChannel (state w')) (state w).
Proof.
  intros Hopen. unfold judgeSufficient, judgedSufficient.
  fold (sufficiencyPrompt st).
  unfold mbind, M_bind, bind, called, mret, M_ret, ret. simpl.
  destruct (chatGenerate agent (sufficiencyPrompt st)) as [reply|err] eqn:Hg.
  - destruct (Strings.Contains (Strings.ToLower reply) "true") eqn:Hc.
    + rewrite sendThought_open by done. simpl.
      eexists _, _. split; [reflexivity|]. split_and!.
      * split; [|done]. intros _. exists reply. split; [done|].
        by apply Contains_ToLower.
      * by apply afterSend_open.
      * reflexivity.
      * reflexivity.
    + eexists _, _. split; [reflexivity|]. split_and!.
      * split; [done|]. intros (reply' & [= <-] & Hr).
        apply Contains_ToLower in Hr. congruence.
      * done.
      * reflexivity.
      * simpl. by rewrite setThoughtChannel_same.
  - eexists _, _. split; [reflexivity|]. split_and!.
    + split; [done|]. by intros (reply' & [=] & _).
    + done.
    + reflexivity.
    + simpl. by rewrite setThoughtChannel_same.
Qed.


(** ** Admission of new questions *)

Lemma wrap_id x : Go.is_int x -> Go.wrap x = x.
Proof.
  unfold Go.is_int, Go.wrap, Go.min_int, Go.max_int. intros H.
  rewrite Z.mod_small by lia. lia.
Qed.

Lemma calculateMaxQuestions_spec maxSteps n :
  Go.is_int (maxSteps - reservedSteps) -> 0 <= n <= Go.max_int ->
  calculateMaxQuestions maxSteps n
  = (Z.max 0 (maxTotalQuestions maxSteps),
     Z.max 0 (maxTotalQuestions maxSteps - n)).
Proof.
  intros Hint Hn. unfold calculateMaxQuestions, maxTotalQuestions, Go.sub.
  unfold reservedSteps, StepsPerQuestion in *.
  rewrite (wrap_id _ Hint).
  unfold Go.is_int, Go.min_int, Go.max_int in *.
  destruct (Z.ltb_spec (maxSteps - 5) 6) as [Hlt|Hge].
  - assert ((maxSteps - 5) / 6 <= 0).
    { apply Z.lt_succ_r. apply Z.div_lt_upper_bound; lia. }
    f_equal; lia.
  - unfold Go.div. rewrite Z.quot_div_nonneg by lia.
    assert (1 <= (maxSteps - 5) / 6) by (apply Z.div_le_lower_bound; lia).
    assert ((maxSteps - 5) / 6 <= maxSteps - 5).
    { apply Z.div_le_upper_bound; lia. }
    rewrite (wrap_id ((maxSteps - 5) / 6))
      by (unfold Go.is_int, Go.min_int, Go.max_int; lia).
    rewrite (wrap_id ((maxSteps - 5) / 6 - n))
      by (unfold Go.is_int, Go.min_int, Go.max_int; lia).
    destruct (Z.ltb_spec ((maxSteps - 5) / 6 - n) 0); f_equal; lia.
Qed.

Lemma to_nat_sub_nonpos a b : a <= b -> Z.to_nat (a - b) = 0%nat.
Proof. lia. Qed.

Lemma to_nat_sub_succ a b :
  b < a -> Z.to_nat (a - b) = S (Z.to_nat (a - (b + 1))).
Proof. lia. Qed.

Lemma len_snoc {A} (l : list A) x : len (l ++ [x]) = len l + 1.
Proof. unfold len. rewrite length_app. simpl. lia. Qed.

Lemma acceptLoop_spec state maxNew data : forall i acc,
  ResearchQuestion.Question <$> acceptLoop state maxNew i data acc
  = (ResearchQuestion.Question <$> acc)
      ++ take (Z.to_nat (maxNew - len acc)) (question <$> fresh state data).
Proof.
  induction data as [|d data IH]; intros i acc; simpl.
  - by rewrite take_nil, app_nil_r.
  - destruct (Z.geb_spec (len acc) maxNew) as [Hfull|Hroom].
    + by rewrite (to_nat_sub_nonpos _ _ Hfull), app_nil_r.
    + unfold fresh. rewrite filter_cons.
      destruct (isSimilarQuestionResearched (question d) _) eqn:Hsim.
      * rewrite decide_False by done. apply IH.
      * rewrite decide_True by done. rewrite IH, fmap_app. simpl.
        rewrite <- app_assoc. simpl. f_equal.
        by rewrite (to_nat_sub_succ _ _ Hroom), len_snoc.
Qed.


(** What [generateQuestionsNode] does to the list of questions. *)
Lemma generateQuestionsNode_questions agent json cfg w :
  channelOpen (state w) ->
  exists added,
    ResearchQuestions (state (generateQuestionsNode agent json cfg w).2)
      = ResearchQuestions (state w) ++ added
    /\ ResearchQuestion.Question <$> added
       = take (Z.to_nat (calculateMaxQuestions (ResearchConfig.MaxSteps cfg)
                           (len (ResearchQuestions (state w)))).2)
           (question <$> fresh (state w) (candidates agent json (state w))).
Proof.
  intros Hopen. unfold generateQuestionsNode, candidates.
  unfold mbind, M_bind, bind, get, called, fail. simpl.
  rewrite sendThought_open by done. simpl.
  set (prompt := GenerateQuestionsPrompt _ _).
  destruct (chatGenerate agent prompt) as [content|err]; simpl.
  2:{ exists []. by rewrite app_nil_r, take_nil. }
  destruct (unmarshalQuestions json content) as [data|err]; simpl.
  2:{ exists []. by rewrite app_nil_r, take_nil. }
  destruct (calculateMaxQuestions _ _) as [maxTotal maxNew] eqn:Hcalc. simpl.
  rewrite sendThought_open by solve_open w. simpl.
  destruct (Z.leb_spec maxNew 0) as [Hnone|Hsome].
  - rewrite sendThought_open by solve_open w. simpl.
    exists []. rewrite app_nil_r. split; [done|].
    by replace (Z.to_nat maxNew) with 0%nat by lia.
  - unfold modify. simpl.
    rewrite sendThought_open by solve_open w.
    simpl. eexists. split; [reflexivity|].
    rewrite acceptLoop_spec. simpl. by rewrite Z.sub_0_r.
Qed.

(** Determinism of the rules. *)
Lemma routes_functional agent cfg st n1 n2 :
  routes agent cfg st n1 -> routes agent cfg st n2 -> n1 = n2.
Proof.
  destruct 1; destruct 1; try done; try lia; tauto.
Qed.

(** C1.  From every state whose channel is open, CheckCompletion returns the
    node that the five rules give, taken in order: at or beyond the iteration
    budget, synthesis; else, with a completed question and a reply of the
    chat model that contains [true] in any letter case, synthesis; else, with
    a pending question, selection; else, with fewer completed questions than
    the minimum and iterations left, generation; otherwise synthesis.  The
    chat model is asked exactly when the budget is not used up and a question
    is completed, and only the channel of the state changes. *)
Theorem C1_check_completion_order agent cfg w :
  channelOpen (state w) ->
  exists next w',
    checkCompletionCondition agent cfg w = (Return next, w')
    /\ routes agent cfg (state w) next
    /\ (forall n, routes agent cfg (state w) n -> n = next)
    /\ calls w'
       = calls w
           ++ (if (CurrentIteration (state w) <? MaxIterations (state w))
                  && (0 <? CompletedQuestions (state w))
               then [CallGenerate (sufficiencyPrompt (state w))] else [])
    /\ state w' = setThoughtChannel (ThoughtChannel (state w')) (state w).
Proof.
  intros Hopen.
  cut (exists next w',
    checkCompletionCondition agent cfg w = (Return next, w')
    /\ routes agent cfg (state w) next
    /\ calls w'
       = calls w
           ++ (if (CurrentIteration (state w) <? MaxIterations (state w))
                  && (0 <? CompletedQuestions (state w))
               then [CallGenerate (sufficiencyPrompt (state w))] else [])
    /\ state w' = setThoughtChannel (ThoughtChannel (state w')) (state w)).
  { intros (next & w' & Hrun & Hroute & Hcalls & Hstate).
    exists next, w'. split_and!; try done.
    intros n Hn. by apply (routes_functional agent cfg (state w)). }
  unfold checkCompletionCondition.
  unfold mbind, M_bind, bind, get, mret, M_ret, ret. simpl.
  rewrite sendThought_open by done. simpl.
  set (w1 := afterSend _ w).
  assert (channelOpen (state w1)) as Hopen1 by by apply afterSend_open.
  destruct (Z.geb_spec (CurrentIteration (state w)) (MaxIterations (state w)))
    as [Hbudget|Hiter].
  { rewrite sendThought_open by done. simpl.
    eexists _, _. split; [reflexivity|]. split_and!.
    - by apply routeBudget.
    - destruct (Z.ltb_spec (CurrentIteration (state w))
                  (MaxIterations (state w))); [lia|].
      simpl. by rewrite app_nil_r.
    - reflexivity. }
  destruct (Z.ltb_spec (CurrentIteration (state w)) (MaxIterations (state w)))
    as [_|?]; [|lia].
  rewrite andb_true_l.
  assert (exists b w2,
    (if CompletedQuestions (state w) >? 0
     then judgeSufficient agent (state w) else (λ w, (Return false, w))) w1
      = (Return b, w2)
    /\ (b = true <-> 0 < CompletedQuestions (state w)
                     /\ judgedSufficient agent (state w))
    /\ channelOpen (state w2)
    /\ calls w2 = calls w
                  ++ (if 0 <? CompletedQuestions (state w)
                      then [CallGenerate (sufficiencyPrompt (state w))]
                      else [])
    /\ state w2 = setThoughtChannel (ThoughtChannel (state w2)) (state w))
    as (b & w2 & -> & Hb & Hopen2 & Hcalls2 & Hstate2).
  { destruct (Z.gtb_spec (CompletedQuestions (state w)) 0) as [Hpos|Hnone].
    - destruct (judgeSufficient_open agent (state w) w1 Hopen1)
        as (b & w2 & -> & Hb & Ho & Hc & Hs).
      exists b, w2. split; [done|].
      destruct (Z.ltb_spec 0 (CompletedQuestions (state w))); [|lia].
      split_and!; [tauto|done|done|].
      rewrite Hs. simpl. done.
    - exists false, w1. split; [done|].
      destruct (Z.ltb_spec 0 (CompletedQuestions (state w))); [lia|].
      split_and!; [|done|by rewrite app_nil_r|done].
      split; [done|]. lia. }
  destruct b.
  { eexists _, _. split; [reflexivity|]. split_and!; [|done|done].
    apply routeSufficient; [lia|tauto|tauto]. }
  assert (~ (0 < CompletedQuestions (state w)
             /\ judgedSufficient agent (state w))) as Hnot.
  { intros H. apply Hb in H. done. }
  destruct (hasPending (ResearchQuestions (state w))) eqn:Hpend.
  { rewrite sendThought_open by done. simpl.
    eexists _, _. split; [reflexivity|]. split_and!; [|done|].
    - apply routePending; [lia|done|]. by apply hasPending_spec.
    - simpl. rewrite Hstate2. simpl. done. }
  assert (~ anyPending (state w)) as Hnone.
  { intros H. apply hasPending_spec in H. congruence. }
  destruct (Z.ltb_spec (CompletedQuestions (state w))
              (ResearchConfig.MinQuestions cfg)) as [Hfew|Henough]; simpl.
  - rewrite sendThought_open by done. simpl.
    eexists _, _. split; [reflexivity|]. split_and!; [|done|].
    + apply routeGenerate; [lia|done|done|lia].
    + simpl. rewrite Hstate2. simpl. done.
  - rewrite sendThought_open by done. simpl.
    eexists _, _. split; [reflexivity|]. split_and!; [|done|].
    + apply routeOtherwise; [lia|done|done|lia].
    + simpl. rewrite Hstate2. simpl. done.
Qed.

Lemma C1_witness :
  exists next,
    (checkCompletionCondition Samples.chat (Samples.researchConfig 3 50)
       (Samples.world [Samples.asked "What is a monad" "completed" 3;
                       Samples.asked "Who uses monads" "pending" 5] 1)).1
      = Return next
    /\ next = NodeSynthesizeFinalAnswer.
Proof.
  destruct (C1_check_completion_order Samples.chat
    (Samples.researchConfig 3 50)
    (Samples.world [Samples.asked "What is a monad" "completed" 3;
                    Samples.asked "Who uses monads" "pending" 5] 1))
    as (next & w' & Hrun & Hroute & Honly & _).
  - reflexivity.
  - exists next. rewrite Hrun. split; [reflexivity|].
    symmetry. apply Honly. apply routeSufficient; [done|done|].
    exists "True.". split; [reflexivity|].
    exists "", "True", ".". split; reflexivity.
Defined.

(** C5.  With the reserve of 5 steps subtracted without overflow, the node
    computes the bound [floor ((stepBudget - 5) / 6)] (as 0 when that is
    negative) and appends to the questions the first [bound - existing]
    candidates that are not similar to a researched question, in the order
    in which the chat model gave them: none when the questions already reach
    the bound, none when the budget after the reserve is below one question's
    6 steps.  For a budget of 17 the bound is 2, and with 2 questions none is
    added. *)
Theorem C5_admission_bounded_by_step_budget agent json cfg w :
  channelOpen (state w) ->
  Go.is_int (ResearchConfig.MaxSteps cfg - reservedSteps) ->
  len (ResearchQuestions (state w)) <= Go.max_int ->
  let existing := ResearchQuestions (state w) in
  let bound := maxTotalQuestions (ResearchConfig.MaxSteps cfg) in
  calculateMaxQuestions (ResearchConfig.MaxSteps cfg) (len existing)
    = (Z.max 0 bound, Z.max 0 (bound - len existing))
  /\ (exists added,
        ResearchQuestions (state (generateQuestionsNode agent json cfg w).2)
          = existing ++ added
        /\ ResearchQuestion.Question <$> added
           = take (Z.to_nat (bound - len existing))
               (question <$> fresh (state w) (candidates agent json (state w)))
        /\ (bound <= len existing -> added = [])
        /\ (ResearchConfig.MaxSteps cfg - reservedSteps < StepsPerQuestion ->
            added = [])
        /\ (ResearchConfig.MaxSteps cfg = 17 -> len existing = 2 ->
            added = []))
  /\ maxTotalQuestions 17 = 2
  /\ calculateMaxQuestions 17 2 = (2, 0).
Proof.
  intros Hopen Hint Hlen existing bound.
  assert (0 <= len existing <= Go.max_int) as Hn.
  { split; [unfold len; lia|done]. }
  pose proof (calculateMaxQuestions_spec _ _ Hint Hn) as Hcalc.
  fold bound in Hcalc. split; [exact Hcalc|]. split; [|done].
  destruct (generateQuestionsNode_questions agent json cfg w Hopen)
    as (added & Hafter & Hq).
  fold existing in Hafter, Hq. rewrite Hcalc in Hq. simpl in Hq.
  replace (Z.to_nat (Z.max 0 (bound - len existing)))
    with (Z.to_nat (bound - len existing)) in Hq by lia.
  assert (bound <= len existing -> added = []) as Hfull.
  { intros Hle. rewrite (to_nat_sub_nonpos _ _ Hle) in Hq.
    by apply fmap_nil_inv in Hq. }
  exists added. split_and!; [done|done|done| |].
  - intros Hsmall. apply Hfull. subst bound.
    unfold maxTotalQuestions, StepsPerQuestion in *.
    assert ((ResearchConfig.MaxSteps cfg - reservedSteps) / 6 <= 0);
      [|lia].
    apply Z.lt_succ_r, Z.div_lt_upper_bound; lia.
  - intros H17 H2. apply Hfull. subst bound. rewrite H17, H2. done.
Qed.

Lemma C5_witness :
  ResearchQuestions
    (state (generateQuestionsNode Samples.chat Samples.decoder
              (Samples.researchConfig 3 17)
              (Samples.world [Samples.asked "What is a monad" "completed" 3;
                              Samples.asked "Who uses monads" "pending" 5]
                 1)).2)
  = [Samples.asked "What is a monad" "completed" 3;
     Samples.asked "Who uses monads" "pending" 5].
Proof.
  destruct (C5_admission_bounded_by_step_budget Samples.chat Samples.decoder
    (Samples.researchConfig 3 17)
    (Samples.world [Samples.asked "What is a monad" "completed" 3;
                    Samples.asked "Who uses monads" "pending" 5] 1))
    as (_ & (added & Hafter & _ & _ & _ & Hnone) & _).
  - reflexivity.
  - vm_compute. split; discriminate.
  - vm_compute. discriminate.
  - rewrite Hafter, Hnone by reflexivity. reflexivity.
Defined.

(** ** The stream of a run *)

Lemma preserves_ret {A} (a : A) : preserves (mret a).
Proof. by intros w r w' [= _ <-]. Qed.

Lemma preserves_fail {A} e : preserves (@fail A e).
Proof. by intros w r w' [= _ <-]. Qed.

Lemma preserves_panic {A} why : preserves (@panic A why).
Proof. by intros w r w' [= _ <-]. Qed.

Lemma preserves_get : preserves get.
Proof. by intros w r w' [= _ <-]. Qed.

Lemma preserves_called c : preserves (called c).
Proof. by intros w r w' [= _ <-]. Qed.

Lemma preserves_modify f :
  (forall s, ThoughtChannel (f s) = ThoughtChannel s) -> preserves (modify f).
Proof.
  intros Hf w r w' [= _ <-] (ch & Hch & Hq). exists ch. simpl.
  by rewrite Hf.
Qed.

Lemma preserves_bind {A B} (m : M A) (k : A -> M B) :
  preserves m -> (forall a, preserves (k a)) -> preserves (m ≫= k).
Proof.
  intros Hm Hk w r w'. unfold mbind, M_bind, bind.
  destruct (m w) as [[a|e|why] w1] eqn:Hmw.
  - intros Hkw Hq. eapply Hk; [done|]. by eapply Hm.
  - intros [= _ <-] Hq. by eapply Hm.
  - intros [= _ <-] Hq. by eapply Hm.
Qed.

Lemma preserves_task {A} (m : M A) : preserves m -> preserves (task m).
Proof.
  intros Hm w r w'. unfold task.
  destruct (m w) as [[a|e|why] w1] eqn:Hmw; intros [= _ <-] Hq;
    by eapply Hm.
Qed.

Lemma preserves_sendThought stage content action :
  preserves (sendThought (thought stage content action)).
Proof.
  intros w r w' Hrun (ch & Hch & Hopen & Hsent).
  rewrite sendThought_open in Hrun by (unfold channelOpen; by rewrite Hch).
  injection Hrun as _ <-. unfold afterSend. simpl. rewrite Hch. simpl.
  eexists. split; [reflexivity|]. split; [done|]. simpl.
  destruct (Chan.room ch (Chan.tried ch)); [|done].
  apply Forall_app. split; [done|]. by constructor.
Qed.

Lemma preserves_forward stage action chunks : forall result,
  preserves (forward stage action chunks result).
Proof.
  induction chunks as [|chunk rest IH]; intros result; simpl.
  - apply preserves_ret.
  - apply preserves_bind; [apply preserves_sendThought|]. intros _. apply IH.
Qed.

Lemma ThoughtChannel_updateCurrent f s :
  ThoughtChannel (updateCurrent f s) = ThoughtChannel s.
Proof. unfold updateCurrent. by destruct (CurrentResearchQ s). Qed.

(** One step of a proof that a node keeps the channel quiet. *)
Ltac quiet_step :=
  lazymatch goal with
  | |- preserves (mbind _ _) => apply preserves_bind; [|intros ?]
  | |- preserves (sendThought (thought _ _ _)) => apply preserves_sendThought
  | |- preserves (forward _ _ _ _) => apply preserves_forward
  | |- preserves (modify (updateCurrent _)) =>
      apply preserves_modify; intros ?; apply ThoughtChannel_updateCurrent
  | |- preserves (modify _) => by apply preserves_modify
  | |- preserves (mret _) => apply preserves_ret
  | |- preserves (fail _) => apply preserves_fail
  | |- preserves (panic _) => apply preserves_panic
  | |- preserves get => apply preserves_get
  | |- preserves (called _) => apply preserves_called
  | |- preserves (task _) => apply preserves_task
  | |- preserves (match ?x with _ => _ end) => destruct x
  end.

Ltac quiet := repeat quiet_step.

Section Nodes.
Context (agent : StreamingResearchAgent) (json : Json)
        (cfg : ResearchConfig.t).













End Nodes.



Section Run.
Context (agent : StreamingResearchAgent) (json : Json)
        (cfg : ResearchConfig.t).







End Run.










End Research.
(* ===================================================================== *)
(** * The registries, the adapter cache and the strategies: further
      properties *)
(* ===================================================================== *)

Module Strategies.
Import Search SearchFacts Samples Retrieval.

Lemma len_app {A} (l1 l2 : list A) : len (l1 ++ l2) = len l1 + len l2.
Proof. unfold len. rewrite length_app. lia. Qed.

Lemma len_cons {A} (x : A) (l : list A) : len (x :: l) = 1 + len l.
Proof. unfold len. simpl. lia. Qed.

Lemma len_nonneg {A} (l : list A) : 0 <= len l.
Proof. unfold len. lia. Qed.

Lemma len_cons_pos {A} (x : A) (l : list A) : (len (x :: l) >? 0) = true.
Proof. apply Z.gtb_lt. unfold len. simpl. lia. Qed.

Lemma len_cons_nonzero {A} (x : A) (l : list A) : (len (x :: l) =? 0) = false.
Proof. apply Z.eqb_neq. unfold len. simpl. lia. Qed.

(** ** registry.go *)

(** X1.  Both registries: [Create] after [Register] returns what the
    registered factory returns and leaves the other names as they were; an
    empty registry knows no name; registering a name again replaces its
    factory. *)
Theorem registry_round_trip (r : SearchRegistry) (w : Web.WebRegistry)
    engine other factory factory' wfactory wfactory' :
  Create (Register r engine factory) other
    = (if decide (other = engine) then factory else Create r other)
  /\ Create NewSearchRegistry engine
     = inr (errorString ("unregistered search engine: " +:+ engine))
  /\ Register (Register r engine factory) engine factory'
     = Register r engine factory'
  /\ Web.Create (Web.Register w engine wfactory) other
     = (if decide (other = engine) then wfactory else Web.Create w other)
  /\ Web.Create Web.NewWebRegistry engine
     = inr (errorString ("unregistered web scraper: " +:+ engine))
  /\ Web.Register (Web.Register w engine wfactory) engine wfactory'
     = Web.Register w engine wfactory'.
Proof.
  unfold Create, Register, Web.Create, Web.Register. simpl.
  split_and!.
  - destruct (decide (other = engine)) as [->|Hne].
    + by rewrite lookup_insert_eq.
    + by rewrite lookup_insert_ne.
  - done.
  - by rewrite insert_insert_eq.
  - destruct (decide (other = engine)) as [->|Hne].
    + by rewrite lookup_insert_eq.
    + by rewrite lookup_insert_ne.
  - done.
  - by rewrite insert_insert_eq.
Qed.

(** ** The adapter cache *)

(** X2.  An adapter that [getOrCreateAdapter] returned is returned again by
    every later call for that engine, whatever the registry has become, and
    no cached adapter is lost; a creation that failed leaves the strategy as
    it was, so that the registry is asked again next time. *)
Theorem adapter_cache reg reg' s e :
  match getOrCreateAdapter reg s e with
  | (inl a, s') =>
      getOrCreateAdapter reg' s' e = (inl a, s')
      /\ config s' = config s
      /\ forall e' b, adapters s !! e' = Some b -> adapters s' !! e' = Some b
  | (inr err, s') =>
      s' = s /\ Create reg e = inr err /\ adapters s' !! e = None
  end.
Proof.
  unfold getOrCreateAdapter, CreateSearchAdapter.
  destruct (adapters s !! e) as [a|] eqn:Hc.
  - rewrite Hc. split_and!; auto.
  - destruct (Create reg e) as [a|err] eqn:Hr; simpl.
    + rewrite lookup_insert_eq. split_and!; [done..|].
      intros e' b Hb. destruct (decide (e' = e)) as [->|Hne]; [congruence|].
      by rewrite lookup_insert_ne.
    + done.
Qed.

(** The cache after one call. *)
Lemma cache_only reg s e e' :
  adapters (getOrCreateAdapter reg s e).2 !! e'
  = match adapters s !! e' with
    | Some b => Some b
    | None => if decide (e' = e) then adapterOf reg s e else None
    end.
Proof.
  unfold adapterOf, getOrCreateAdapter.
  destruct (adapters s !! e) as [a|] eqn:Hc; simpl.
  - destruct (adapters s !! e') eqn:Hc'; [done|].
    destruct (decide (e' = e)) as [->|]; [congruence|done].
  - destruct (CreateSearchAdapter reg e) as [a|err]; simpl.
    + destruct (decide (e' = e)) as [->|Hne].
      * by rewrite lookup_insert_eq, Hc.
      * rewrite lookup_insert_ne by done. by destruct (adapters s !! e').
    + destruct (adapters s !! e') eqn:Hc'; [done|].
      by destruct (decide (e' = e)).
Qed.

(** ** The constructors *)

(** X3.  What [NewDefaultSearchStrategy] and [NewDefaultWebStrategy] return
    is a fixed point of the constructor; its order is the fallback order of
    its configuration and is never empty, so that the default engine is never
    what [getEngineOrder] falls back on; the breadth is positive and the
    cache empty. *)
Theorem constructors_normalise cfg wcfg :
  let s := NewDefaultSearchStrategy cfg in
  let ws := Web.NewDefaultWebStrategy wcfg in
  NewDefaultSearchStrategy (Some (config s)) = s
  /\ getEngineOrder s = DefaultFallbackOrder (config s)
  /\ getEngineOrder s ≠ []
  /\ DefaultEngine (config s) ≠ ""
  /\ 0 < Breadth (config s)
  /\ adapters s = ∅
  /\ Web.NewDefaultWebStrategy (Some (Web.config ws)) = ws
  /\ Web.getScraperOrder ws = Web.DefaultFallbackOrder (Web.config ws)
  /\ Web.getScraperOrder ws ≠ []
  /\ Web.DefaultScraper (Web.config ws) ≠ ""
  /\ Web.adapters ws = ∅.
Proof.
  cbv zeta.
  assert (forall c : SearchStrategyConfig,
    let s := NewDefaultSearchStrategy (Some c) in
    NewDefaultSearchStrategy (Some (config s)) = s
    /\ getEngineOrder s = DefaultFallbackOrder (config s)
    /\ getEngineOrder s ≠ []
    /\ DefaultEngine (config s) ≠ ""
    /\ 0 < Breadth (config s)
    /\ adapters s = ∅) as Hsearch.
  { intros [breadth mixed engine order enable failFast]. cbv zeta.
    unfold NewDefaultSearchStrategy, getEngineOrder. simpl.
    destruct (String.eqb_spec engine "") as [->|Hengine];
      destruct order as [|e order];
      rewrite ?len_cons_nonzero, ?len_cons_pos;
      destruct (Z.leb_spec breadth 0) as [Hb|Hb];
      destruct enable; simpl;
      rewrite ?len_cons_nonzero, ?len_cons_pos;
      repeat match goal with
             | |- context [String.eqb ?a ""] =>
                 destruct (String.eqb_spec a ""); [congruence|]
             | |- context [?b <=? 0] =>
                 destruct (Z.leb_spec b 0); [lia|]
             end;
      split_and!; try done; lia. }
  assert (forall c : Web.WebStrategyConfig,
    let ws := Web.NewDefaultWebStrategy (Some c) in
    Web.NewDefaultWebStrategy (Some (Web.config ws)) = ws
    /\ Web.getScraperOrder ws = Web.DefaultFallbackOrder (Web.config ws)
    /\ Web.getScraperOrder ws ≠ []
    /\ Web.DefaultScraper (Web.config ws) ≠ ""
    /\ Web.adapters ws = ∅) as Hweb.
  { intros [scraper order enable failFast]. cbv zeta.
    unfold Web.NewDefaultWebStrategy, Web.getScraperOrder. simpl.
    destruct (String.eqb_spec scraper "") as [->|Hscraper];
      destruct order as [|e order];
      rewrite ?len_cons_nonzero, ?len_cons_pos;
      destruct enable; simpl;
      rewrite ?len_cons_nonzero, ?len_cons_pos;
      repeat match goal with
             | |- context [String.eqb ?a ""] =>
                 destruct (String.eqb_spec a ""); [congruence|]
             end;
      split_and!; done. }
  destruct cfg as [c|], wcfg as [wc|].
  - destruct (Hsearch c) as (?&?&?&?&?&?), (Hweb wc) as (?&?&?&?&?).
    by split_and!.
  - destruct (Hsearch c) as (?&?&?&?&?&?). split_and!; try done.
  - destruct (Hweb wc) as (?&?&?&?&?). split_and!; try done.
  - split_and!; try done.
Qed.

Lemma getEngineOrder_nonempty s : getEngineOrder s ≠ [].
Proof.
  unfold getEngineOrder.
  destruct (DefaultFallbackOrder (config s)) as [|e order]; [done|].
  by rewrite len_cons_pos.
Qed.

(** ** Fallback mode *)

Lemma searchError_stable reg s request e e' :
  searchError reg (getOrCreateAdapter reg s e).2 request e'
  = searchError reg s request e'.
Proof. unfold searchError. by rewrite adapterOf_stable. Qed.

(** The engine that answers is the first of the order whose adapter exists
    and whose call returns no error. *)
Lemma fallbackLoop_first_success reg request n engines :
  forall i seen lastErr calls s resp,
  result (fallbackLoop reg request n i engines seen lastErr calls s)
    = Return resp ->
  exists before e after a answer,
    engines = before ++ e :: after
    /\ adapterOf reg s e = Some a
    /\ Search a request = (Some answer, None)
    /\ Forall (λ x, forall b, adapterOf reg s x = Some b ->
                      (Search b request).2 ≠ None) before
    /\ searched (fallbackLoop reg request n i engines seen lastErr calls s)
       = calls ++ filter (λ x, is_Some (adapterOf reg s x)) before ++ [e]
    /\ resp = fallbackSuccess (config s) e (i + len before) seen answer.
Proof.
  induction engines as [|e rest IH]; intros i seen lastErr calls s resp;
    simpl; [done|].
  pose proof (getOrCreateAdapter_config reg s e) as Hc.
  pose proof (adapterOf_stable reg s e) as Hst.
  assert (forall a, (getOrCreateAdapter reg s e).1 = inl a ->
                    adapterOf reg s e = Some a) as Hhere.
  { intros a Ha. unfold adapterOf. by rewrite Ha. }
  assert (forall err, (getOrCreateAdapter reg s e).1 = inr err ->
                    adapterOf reg s e = None) as Hnot.
  { intros a Ha. unfold adapterOf. by rewrite Ha. }
  destruct (getOrCreateAdapter reg s e) as [[a|err] s1]; simpl in *.
  - specialize (Hhere a eq_refl). clear Hnot.
    assert (forall answer err,
      Search a request = (answer, Some err) ->
      result (fallbackLoop reg request n (i + 1) rest seen
                (Some (wrapError ("engine " +:+ e +:+ " search failed: ")
                         (Some err))) (calls ++ [e]) s1) = Return resp ->
      exists before e0 after a0 answer0,
        e :: rest = before ++ e0 :: after
        /\ adapterOf reg s e0 = Some a0
        /\ Search a0 request = (Some answer0, None)
        /\ Forall (λ x, forall b, adapterOf reg s x = Some b ->
                          (Search b request).2 ≠ None) before
        /\ searched (fallbackLoop reg request n (i + 1) rest seen
                (Some (wrapError ("engine " +:+ e +:+ " search failed: ")
                         (Some err))) (calls ++ [e]) s1)
           = calls ++ filter (λ x, is_Some (adapterOf reg s x)) before ++ [e0]
        /\ resp = fallbackSuccess (config s) e0 (i + len before) seen answer0)
      as Hnext.
    { intros answer err Hs
        (before & e' & after & a' & answer' & -> & Ha & Hs' & Hall & Hse & ->)%IH.
      exists (e :: before), e', after, a', answer'.
      rewrite Hc in *.
      split_and!; [done|by rewrite <- Hst|done| | |].
      - constructor.
        + intros b Hb. rewrite Hhere in Hb. injection Hb as <-.
          by rewrite Hs.
        + eapply Forall_impl; [exact Hall|]. simpl. intros x Hx b Hb.
          apply Hx. by rewrite Hst.
      - rewrite Hse, filter_cons_True by (by rewrite Hhere).
        rewrite <- !app_assoc. simpl. do 2 f_equal.
        f_equal. apply list_filter_iff. intros x. by rewrite Hst.
      - f_equal. rewrite len_cons. lia. }
    destruct (Search a request) as [[answer|] [err|]] eqn:Hs; simpl.
    + destruct (_ || _); simpl; [done|].
      intros H. eapply Hnext; [reflexivity|exact H].
    + intros [= <-]. exists [], e, rest, a, answer. rewrite Hc.
      split_and!; [done..| |].
      * by rewrite app_nil_l.
      * f_equal. unfold len. simpl. lia.
    + destruct (_ || _); simpl; [done|].
      intros H. eapply Hnext; [reflexivity|exact H].
    + done.
  - specialize (Hnot err eq_refl).
    destruct (_ || _); simpl; [|done].
    intros
      (before & e' & after & a' & answer' & -> & Ha & Hs' & Hall & Hse & ->)%IH.
    exists (e :: before), e', after, a', answer'.
    rewrite Hc in *.
    split_and!; [done|by rewrite <- Hst|done| | |].
    + constructor.
      * intros b Hb. congruence.
      * eapply Forall_impl; [exact Hall|]. simpl. intros x Hx b Hb.
        apply Hx. by rewrite Hst.
    + rewrite Hse, filter_cons_False.
      2:{ rewrite Hnot. by intros [? ?]. }
      do 2 f_equal. apply list_filter_iff. intros x. by rewrite Hst.
    + f_equal. rewrite len_cons. lia.
Qed.

(** X4.  A fallback call that returns a response returns the answer of the
    first engine of the order whose adapter exists and whose call returns no
    error.  [Search] was invoked once on each engine before it that has an
    adapter, in order, then on that engine, and on no engine after it; the
    attempt written into the items is the position of the engine in the
    order, engines without adapter included. *)
Theorem fallback_returns_first_success reg s request resp :
  result (executeFallbackSearch reg s request) = Return resp ->
  exists before e after a answer,
    getEngineOrder s = before ++ e :: after
    /\ adapterOf reg s e = Some a
    /\ Search a request = (Some answer, None)
    /\ Forall (λ x, forall b, adapterOf reg s x = Some b ->
                      (Search b request).2 ≠ None) before
    /\ searched (executeFallbackSearch reg s request)
       = filter (λ x, is_Some (adapterOf reg s x)) before ++ [e]
    /\ resp = fallbackSuccess (config s) e (len before) ∅ answer.
Proof.
  unfold executeFallbackSearch. intros Hret.
  apply fallbackLoop_first_success in Hret
    as (before & e & after & a & answer & Ho & Ha & Hs & Hall & Hse & ->).
  exists before, e, after, a, answer. by rewrite Z.add_0_l in *.
Qed.

Lemma fallback_returns_first_success_witness :
  exists resp,
    result (executeFallbackSearch registry
              (NewDefaultSearchStrategy
                 (Some (fallbackConfig ["a"; "missing"; "c"; "d"] true 2)))
              (request "q")) = Return resp
    /\ searched (executeFallbackSearch registry
                   (NewDefaultSearchStrategy
                      (Some (fallbackConfig ["a"; "missing"; "c"; "d"] true 2)))
                   (request "q")) = ["a"; "c"]
    /\ SearchResultItem.Metadata
         <$> head (elems (SearchResponse.Results resp))
       = Some {[ "search_engine" := MetaString "c";
                 "strategy" := MetaString "fallback";
                 "attempt" := MetaInt 3 ]}.
Proof.
  eexists. split; [vm_compute; reflexivity|].
  destruct (fallback_returns_first_success registry
    (NewDefaultSearchStrategy
       (Some (fallbackConfig ["a"; "missing"; "c"; "d"] true 2)))
    (request "q") _ eq_refl)
    as (before & e & after & a & answer & Ho & Ha & Hs & Hall & Hse & _).
  split; [vm_compute; reflexivity|]. vm_compute. reflexivity.
Defined.

Lemma fallbackLoop_all_fail reg request engines :
  forall n i seen lastErr calls s,
  EnableFallback (config s) = true ->
  n = i + len engines ->
  Forall (λ e, is_Some (searchError reg s request e)) engines ->
  let r := fallbackLoop reg request n i engines seen lastErr calls s in
  searched r = calls ++ engines
  /\ result r
     = Fail (wrapError "all search engines failed, last error: "
               (match last engines with
                | Some e =>
                    Some (wrapError ("engine " +:+ e +:+ " search failed: ")
                            (searchError reg s request e))
                | None => lastErr
                end)).
Proof.
  induction engines as [|e rest IH]; intros n i seen lastErr calls s Hen Hn Hall;
    cbv zeta.
  { simpl. by rewrite app_nil_r. }
  apply Forall_cons in Hall as [[err He] Hall].
  unfold searchError in He.
  destruct (adapterOf reg s e) as [a|] eqn:Ha; [|done].
  destruct (Search a request) as [answer err'] eqn:Hs. simpl in He. subst err'.
  destruct rest as [|e' rest].
  - assert (searchError reg s request e = Some err) as Hse.
    { unfold searchError. by rewrite Ha, Hs. }
    simpl. apply adapterOf_Some in Ha.
    pose proof (getOrCreateAdapter_config reg s e) as Hc.
    destruct (getOrCreateAdapter reg s e) as [c s1]. simpl in Ha, Hc. subst c.
    rewrite Hs, Hc, Hen, Hse. simpl.
    assert ((i =? n - 1) = true) as ->.
    { apply Z.eqb_eq. unfold len in Hn. simpl in Hn. lia. }
    done.
  - rewrite (fallbackLoop_search_fails _ _ _ _ _ _ _ _ _ _ a answer err)
      by first [done|rewrite !len_cons in Hn; pose proof (len_nonneg rest); lia].
    destruct (IH n (i + 1) seen
      (Some (wrapError ("engine " +:+ e +:+ " search failed: ") (Some err)))
      (calls ++ [e]) (getOrCreateAdapter reg s e).2) as [IH1 IH2].
    + by rewrite getOrCreateAdapter_config.
    + rewrite !len_cons in *. lia.
    + eapply Forall_impl; [exact Hall|]. intros x. simpl.
      by rewrite searchError_stable.
    + rewrite IH1, IH2, <- app_assoc. split; [done|].
      change (last (e :: e' :: rest)) with (last (e' :: rest)).
      destruct (last (e' :: rest)) as [l|] eqn:Hl.
      * by rewrite searchError_stable.
      * assert (is_Some (last (e' :: rest))) as [? ?] by by apply last_is_Some.
        congruence.
Qed.

(** X5.  When every engine of the order has an adapter whose call returns
    an error (and fallback is enabled, as the constructors make it), the
    fallback call invokes [Search] on every engine once, in order, and fails
    with the all-engines-failed error around the error of the last engine of
    the order. *)
Theorem fallback_fails_when_every_call_fails reg s request :
  EnableFallback (config s) = true ->
  Forall (λ e, is_Some (searchError reg s request e)) (getEngineOrder s) ->
  let r := executeFallbackSearch reg s request in
  searched r = getEngineOrder s
  /\ exists e,
       last (getEngineOrder s) = Some e
       /\ result r
          = Fail (wrapError "all search engines failed, last error: "
                    (Some (wrapError ("engine " +:+ e +:+ " search failed: ")
                             (searchError reg s request e)))).
Proof.
  intros Hen Hall. cbv zeta. unfold executeFallbackSearch.
  destruct (fallbackLoop_all_fail reg request (getEngineOrder s)
              (len (getEngineOrder s)) 0 ∅ None [] s Hen)
    as [Hs Hr]; [lia|done|].
  split; [done|].
  destruct (last (getEngineOrder s)) as [e|] eqn:Hl.
  - by exists e.
  - pose proof (getEngineOrder_nonempty s) as Hne.
    apply last_is_Some in Hne as [? ?]. congruence.
Qed.

Lemma fallback_fails_when_every_call_fails_witness :
  let r := executeFallbackSearch registry
             (NewDefaultSearchStrategy (Some (fallbackConfig ["a"; "b"] false 2)))
             (request "q") in
  searched r = ["a"; "b"]
  /\ exists e,
       result r = Fail e
       /\ Error e
          = "all search engines failed, last error: engine b search failed: status 503".
Proof.
  cbv zeta.
  destruct (fallback_fails_when_every_call_fails registry
    (NewDefaultSearchStrategy (Some (fallbackConfig ["a"; "b"] false 2)))
    (request "q")) as (Hs & e & Hl & Hr).
  - reflexivity.
  - repeat constructor; vm_compute; eexists; reflexivity.
  - vm_compute in Hl. injection Hl as <-.
    split; [exact Hs|]. eexists. split; [exact Hr|].
    vm_compute. reflexivity.
Defined.

Lemma fallbackLoop_fails reg request n engines :
  forall i seen lastErr calls s err,
  result (fallbackLoop reg request n i engines seen lastErr calls s)
    = Fail err ->
  exists cause,
    err = wrapError "all search engines failed, last error: " cause
    /\ match engines with
       | [] => cause = lastErr
       | _ => exists e, e ∈ engines /\ engineFailure reg s request e cause
       end.
Proof.
  induction engines as [|e rest IH]; intros i seen lastErr calls s err; simpl.
  { intros [= <-]. by eexists. }
  pose proof (getOrCreateAdapter_config reg s e) as Hc.
  pose proof (adapterOf_stable reg s e) as Hst.
  pose proof (searchError_stable reg s request e) as Hse.
  assert (forall a, (getOrCreateAdapter reg s e).1 = inl a ->
                    adapterOf reg s e = Some a) as Hhere.
  { intros a Ha. unfold adapterOf. by rewrite Ha. }
  assert (forall err, (getOrCreateAdapter reg s e).1 = inr err ->
                    adapterOf reg s e = None) as Hnot.
  { intros a Ha. unfold adapterOf. by rewrite Ha. }
  assert (forall cause0 err0,
    engineFailure reg s request e cause0 ->
    result (fallbackLoop reg request n (i + 1) rest seen cause0 err0
              (getOrCreateAdapter reg s e).2) = Fail err ->
    exists cause,
      err = wrapError "all search engines failed, last error: " cause
      /\ exists e0, e0 ∈ e :: rest /\ engineFailure reg s request e0 cause)
    as Hnext.
  { intros cause0 err0 Hf (cause & -> & Hcause)%IH. exists cause.
    split; [done|]. destruct rest as [|e' rest].
    - subst cause. exists e. split; [by left|done].
    - destruct Hcause as (e0 & Hin & c & Hc0). exists e0.
      split; [by right|]. exists c. by rewrite <- Hse, <- Hst. }
  destruct (getOrCreateAdapter reg s e) as [[a|cerr] s1]; simpl in *.
  - specialize (Hhere a eq_refl). clear Hnot.
    assert (forall c, (Search a request).2 = Some c ->
              engineFailure reg s request e
                (Some (wrapError ("engine " +:+ e +:+ " search failed: ")
                         (Some c)))) as Hfail.
    { intros c Hs. exists c. left. split; [done|]. unfold searchError.
      by rewrite Hhere. }
    destruct (Search a request) as [[answer|] [serr|]] eqn:Hs; simpl in *.
    + destruct (_ || _); simpl.
      * intros [= <-]. eexists. split; [done|]. exists e.
        split; [by left|]. by apply Hfail.
      * apply Hnext. by apply Hfail.
    + done.
    + destruct (_ || _); simpl.
      * intros [= <-]. eexists. split; [done|]. exists e.
        split; [by left|]. by apply Hfail.
      * apply Hnext. by apply Hfail.
    + done.
  - specialize (Hnot cerr eq_refl).
    destruct (_ || _); simpl; [|done].
    apply Hnext. exists cerr. by right.
Qed.

(** X6.  The error of a fallback call that fails is the all-engines-failed
    error around the failure of one engine of the order: either the error
    that the call of its adapter returned, or the error of the creation of
    its adapter.  The last error is never nil. *)
Theorem fallback_failure_names_an_engine reg s request err :
  result (executeFallbackSearch reg s request) = Fail err ->
  exists e cause,
    e ∈ getEngineOrder s
    /\ engineFailure reg s request e cause
    /\ err = wrapError "all search engines failed, last error: " cause.
Proof.
  unfold executeFallbackSearch. intros (cause & -> & H)%fallbackLoop_fails.
  pose proof (getEngineOrder_nonempty s) as Hne.
  destruct (getEngineOrder s) as [|e0 order]; [done|].
  destruct H as (e & Hin & Hf). by exists e, cause.
Qed.

Lemma fallback_failure_names_an_engine_witness :
  exists err e cause,
    result (executeFallbackSearch registry
              (NewDefaultSearchStrategy
                 (Some (fallbackConfig ["a"; "missing"] true 2)))
              (request "q")) = Fail err
    /\ e ∈ ["a"; "missing"]
    /\ err = wrapError "all search engines failed, last error: " cause
    /\ Error err
       = "all search engines failed, last error: failed to create adapter for engine missing: unregistered search engine: missing".
Proof.
  eexists.
  destruct (fallback_failure_names_an_engine registry
    (NewDefaultSearchStrategy (Some (fallbackConfig ["a"; "missing"] true 2)))
    (request "q") _ eq_refl) as (e & cause & Hin & _ & Herr).
  exists e, cause. split; [vm_compute; reflexivity|].
  split; [exact Hin|]. split; [exact Herr|]. vm_compute. reflexivity.
Defined.

(** The loop from an engine on, when no engine answers before one without
    adapter that is not the last. *)
Lemma fallbackLoop_reaches_missing reg request n before :
  forall i seen lastErr calls s e after,
  FailFast (config s) = false ->
  EnableFallback (config s) = true ->
  n = i + len (before ++ e :: after) ->
  after ≠ [] ->
  adapterOf reg s e = None ->
  Forall (λ x, forall a, adapterOf reg s x = Some a ->
                 (Search a request).2 ≠ None) before ->
  let r := fallbackLoop reg request n i (before ++ e :: after) seen lastErr
             calls s in
  result r = Panicked nilDereference
  /\ exists called, searched r = calls ++ called /\ called `sublist_of` before.
Proof.
  induction before as [|x before IH];
    intros i seen lastErr calls s e after Hff Hen Hn Hafter He Hall; cbv zeta;
    simpl.
  - pose proof (getOrCreateAdapter_config reg s e) as Hc.
    unfold adapterOf in He.
    destruct (getOrCreateAdapter reg s e) as [[a|err] s1]; [done|].
    simpl in Hc. rewrite Hc, Hff. simpl.
    destruct (Z.eqb_spec i (n - 1)) as [Hi|_].
    { destruct after; [done|]. simpl in Hn. rewrite !len_cons in Hn.
      pose proof (len_nonneg after). lia. }
    split; [done|]. exists []. by rewrite app_nil_r.
  - rewrite len_app, !len_cons in Hn.
    assert (i ≠ n - 1) as Hi.
    { pose proof (len_nonneg before). pose proof (len_nonneg after). lia. }
    apply Forall_cons in Hall as [Hx Hall].
    pose proof (getOrCreateAdapter_config reg s x) as Hc.
    pose proof (adapterOf_stable reg s x) as Hst.
    assert (forall a, (getOrCreateAdapter reg s x).1 = inl a ->
                      adapterOf reg s x = Some a) as Hhere.
    { intros a Ha. unfold adapterOf. by rewrite Ha. }
    specialize (IH (i + 1) seen).
    destruct (getOrCreateAdapter reg s x) as [[a|err] s1]; simpl in *.
    + specialize (Hx a (Hhere a eq_refl)).
      destruct (Search a request) as [answer [serr|]]; [|done]. simpl.
      rewrite Hc, Hen. simpl.
      destruct (Z.eqb_spec i (n - 1)) as [|_]; [done|].
      destruct (IH (Some (wrapError ("engine " +:+ x +:+ " search failed: ")
                            (Some serr))) (calls ++ [x]) s1 e after)
        as (Hr & called & Hs & Hsub).
      * by rewrite Hc.
      * by rewrite Hc.
      * rewrite len_app, len_cons. lia.
      * done.
      * by rewrite Hst.
      * eapply Forall_impl; [exact Hall|]. simpl. intros y Hy b Hb.
        apply Hy. by rewrite <- Hst.
      * split; [done|]. exists (x :: called). rewrite Hs, <- app_assoc.
        split; [done|]. by apply sublist_skip.
    + rewrite Hc, Hff. simpl.
      destruct (Z.eqb_spec i (n - 1)) as [|_]; [done|].
      split; [done|]. exists []. rewrite app_nil_r. split; [done|].
      apply sublist_nil_l.
Qed.

(** X7.  With fail-fast off and fallback enabled, as the constructors make
    it, a fallback call panics with a nil dereference whenever some engine
    that is not the last of the order has no adapter and no engine before it
    answers, that is, each engine before it has no adapter either or has one
    whose call returns an error: the call goes through the nil adapter.
    [Search] is invoked on engines before that one only. *)
Theorem fallback_panics_at_missing_adapter reg s request before e after :
  FailFast (config s) = false ->
  EnableFallback (config s) = true ->
  getEngineOrder s = before ++ e :: after ->
  after ≠ [] ->
  adapterOf reg s e = None ->
  Forall (λ x, forall a, adapterOf reg s x = Some a ->
                 (Search a request).2 ≠ None) before ->
  result (executeFallbackSearch reg s request) = Panicked nilDereference
  /\ searched (executeFallbackSearch reg s request) `sublist_of` before.
Proof.
  intros Hff Hen Ho Hafter He Hall. unfold executeFallbackSearch.
  rewrite Ho.
  destruct (fallbackLoop_reaches_missing reg request
              (len (before ++ e :: after)) before 0 ∅ None [] s e after)
    as (Hr & called & Hs & Hsub);
    [done|done|lia|done|done|done|].
  by rewrite Hr, Hs.
Qed.

Lemma fallback_panics_at_missing_adapter_witness :
  let r := executeFallbackSearch registry
             (NewDefaultSearchStrategy
                (Some (fallbackConfig ["a"; "missing"; "c"] false 2)))
             (request "q") in
  result r = Panicked nilDereference /\ searched r `sublist_of` ["a"].
Proof.
  cbv zeta.
  apply (fallback_panics_at_missing_adapter registry
           (NewDefaultSearchStrategy
              (Some (fallbackConfig ["a"; "missing"; "c"] false 2)))
           (request "q") ["a"] "missing" ["c"]).
  - reflexivity.
  - reflexivity.
  - reflexivity.
  - discriminate.
  - vm_compute. reflexivity.
  - constructor; [|constructor]. intros a Ha. vm_compute in Ha.
    injection Ha as <-. vm_compute. discriminate.
Defined.

(** X8.  The response of a fallback call is the answer of an engine of the
    order, with its query and time.  If the answer's list of results is nil
    the answer is returned as it is; otherwise the count of the response is
    the number of items it lists, which is at most the number of items of the
    answer and at most the breadth when that is positive, and the list is nil
    exactly when the answer's list was empty. *)
Theorem fallback_response_counts reg s request resp :
  result (executeFallbackSearch reg s request) = Return resp ->
  exists e a answer,
    e ∈ getEngineOrder s
    /\ adapterOf reg s e = Some a
    /\ Search a request = (Some answer, None)
    /\ SearchResponse.Query resp = SearchResponse.Query answer
    /\ SearchResponse.TimeTaken resp = SearchResponse.TimeTaken answer
    /\ match SearchResponse.Results answer with
       | None => resp = answer
       | Some results =>
           SearchResponse.TotalCount resp
           = len (elems (SearchResponse.Results resp))
           /\ (len (elems (SearchResponse.Results resp)) <= len results)
           /\ (0 < Breadth (config s) ->
               len (elems (SearchResponse.Results resp)) <= Breadth (config s))
           /\ (SearchResponse.Results resp = None <-> results = [])
       end.
Proof.
  unfold executeFallbackSearch. intros Hret.
  apply fallbackLoop_returns in Hret
    as (e & j & a & answer & Hin & Ha & Hs & ->).
  exists e, a, answer. split_and!; try done.
  - unfold fallbackSuccess. by destruct (SearchResponse.Results answer).
  - unfold fallbackSuccess. by destruct (SearchResponse.Results answer).
  - pose proof (fallbackSuccess_results (config s) e j answer) as Hres.
    unfold fallbackSuccess in *.
    destruct (SearchResponse.Results answer) as [results|] eqn:Hr; [|done].
    simpl in *. rewrite elems_appended in *. rewrite fallback_cut_capped in *.
    change (∅ : gset string) with (seenOf []) in *.
    rewrite uniqueLoop_spec in *. simpl in *.
    set (kept := capped (config s) _) in *.
    split_and!.
    + done.
    + unfold kept, len.
      pose proof (sublist_length _ _ (capped_sublist (config s)
        (markFallback e (j + 1)
           <$> firstOccurrences_from SearchResultItem.URL [] results))) as H1.
      rewrite length_fmap in H1.
      pose proof (firstOccurrences_length SearchResultItem.URL results) as H2.
      unfold firstOccurrences in H2. lia.
    + intros Hb. by apply capped_length.
    + split.
      * intros Hnone. destruct kept as [|x l] eqn:Hk; [|done].
        unfold kept, capped in Hk.
        destruct results as [|r results]; [done|]. exfalso.
        simpl in Hk. rewrite decide_True in Hk by (right; apply not_elem_of_nil).
        simpl in Hk.
        destruct (Z.leb_spec (Breadth (config s)) 0); [done|].
        destruct (Z.to_nat (Breadth (config s))) eqn:Hn; [lia|done].
      * intros ->. unfold kept, capped. simpl.
        destruct (_ <=? _); [done|by rewrite take_nil].
Qed.

Lemma fallback_response_counts_witness :
  exists resp,
    result (executeFallbackSearch registry
              (NewDefaultSearchStrategy (Some (fallbackConfig ["c"] false 3)))
              (request "q")) = Return resp
    /\ SearchResponse.TotalCount resp = 3
    /\ length (elems (SearchResponse.Results resp)) = 3%nat.
Proof.
  eexists. split; [vm_compute; reflexivity|].
  destruct (fallback_response_counts registry
    (NewDefaultSearchStrategy (Some (fallbackConfig ["c"] false 3)))
    (request "q") _ eq_refl) as (e & a & answer & _).
  split; vm_compute; reflexivity.
Defined.

(** ** Mixed mode *)

Section Keys.
Context {A : Type} (key : A -> string).

Lemma firstOccurrences_from_empty_keys before l :
  filter (λ u : string, u = "") (key <$> firstOccurrences_from key before l)
  = filter (λ u : string, u = "") (key <$> l).
Proof.
  revert before. induction l as [|x l IH]; intros before; simpl; [done|].
  rewrite fmap_app, filter_app, IH.
  destruct (decide (key x = "")) as [He|Hne].
  - rewrite decide_True by (by left). simpl.
    by rewrite !filter_cons_True by done.
  - rewrite (filter_cons_False _ (key x)) by done.
    destruct (decide _); simpl; [|done].
    by rewrite filter_cons_False by done.
Qed.

Lemma elem_of_firstOccurrences_from before l u :
  u ∈ key <$> firstOccurrences_from key before l
  <-> u ∈ key <$> l /\ (u = "" \/ u ∉ before).
Proof.
  revert before. induction l as [|x l IH]; intros before; simpl.
  - rewrite elem_of_nil. tauto.
  - rewrite fmap_app, elem_of_app, IH, elem_of_cons, elem_of_app,
      list_elem_of_singleton.
    destruct (decide (key x = "" \/ key x ∉ before)) as [Hk|Hk]; simpl.
    + rewrite list_elem_of_singleton.
      destruct (decide (u = key x)) as [->|Hne]; [tauto|]. tauto.
    + rewrite elem_of_nil.
      destruct (decide (u = key x)) as [->|Hne]; [|tauto].
      split; [tauto|]. intros [_ Hu]. tauto.
Qed.

(** The keys that de-duplication keeps do not depend on the order of the
    list, up to their own order. *)
Lemma firstOccurrences_keys_Permutation l1 l2 :
  l1 ≡ₚ l2 ->
  key <$> firstOccurrences key l1 ≡ₚ key <$> firstOccurrences key l2.
Proof.
  intros Hp.
  rewrite <- (filter_app_complement (λ u : string, u ≠ "")
                (key <$> firstOccurrences key l1)).
  rewrite <- (filter_app_complement (λ u : string, u ≠ "")
                (key <$> firstOccurrences key l2)).
  apply Permutation_app.
  - apply NoDup_Permutation; [apply firstOccurrences_distinct..|].
    intros u. rewrite !list_elem_of_filter.
    unfold firstOccurrences. rewrite !elem_of_firstOccurrences_from.
    by rewrite Hp.
  - assert (forall l : list string,
              filter (λ u : string, ¬ u ≠ "") l = filter (λ u, u = "") l)
      as Heq.
    { intros l. apply list_filter_iff. intros u.
      destruct (decide (u = "")); tauto. }
    rewrite !Heq. unfold firstOccurrences.
    rewrite !firstOccurrences_from_empty_keys. by rewrite Hp.
Qed.

End Keys.

Lemma engine_arrival reg request s e : engine (arrival reg request s e) = e.
Proof.
  unfold arrival, mixedTask.
  destruct (getOrCreateAdapter reg s e) as [[a|err] s1]; [|done].
  by destruct (Search a request).
Qed.

(** An arrival contributes items that its engine answered. *)
Lemma elem_of_contribution reg request s e cfg p :
  p ∈ contribution cfg (arrival reg request s e) ->
  p.1 = e
  /\ exists a answer,
       adapterOf reg s e = Some a
       /\ Search a request = (Some answer, None)
       /\ p.2 ∈ elems (SearchResponse.Results answer).
Proof.
  unfold contribution. pose proof (engine_arrival reg request s e) as He.
  revert He. unfold arrival, mixedTask, adapterOf.
  destruct (getOrCreateAdapter reg s e) as [[a|err] s1]; simpl.
  2:{ intros _ Hin. by apply elem_of_nil in Hin. }
  destruct (Search a request) as [[answer|] [serr|]] eqn:Hs; simpl;
    intros He Hin; try by apply elem_of_nil in Hin.
  apply list_elem_of_fmap in Hin as (x & -> & Hx). simpl.
  split; [done|]. exists a, answer. split_and!; [done..|].
  eapply elem_of_sublist; [exact Hx|apply capped_sublist].
Qed.

Lemma contribution_length cfg r :
  0 < Breadth cfg -> len (contribution cfg r) <= Breadth cfg.
Proof.
  intros Hb. unfold contribution.
  destruct (err r), (response r); try (unfold len; simpl; lia).
  unfold len. rewrite length_fmap. by apply capped_length.
Qed.

Lemma pool_length cfg arrivals :
  0 < Breadth cfg -> len (pool cfg arrivals) <= Breadth cfg * len arrivals.
Proof.
  intros Hb. unfold pool. induction arrivals as [|r rest IH].
  - unfold len. simpl. lia.
  - pose proof (contribution_length cfg r Hb) as Hr.
    change ((r :: rest) ≫= contribution cfg)
      with (contribution cfg r ++ (rest ≫= contribution cfg)).
    rewrite len_app, len_cons. lia.
Qed.

Lemma markMixed_metadata e x :
  SearchResultItem.Metadata (markMixed e x) !! "search_engine"
    = Some (MetaString e)
  /\ SearchResultItem.Metadata (markMixed e x) !! "strategy"
    = Some (MetaString "mixed").
Proof.
  unfold markMixed, SearchResultItem.setMetadata. simpl. split.
  - by rewrite lookup_insert_ne, lookup_insert_eq by done.
  - by rewrite lookup_insert_eq.
Qed.

(** X9.  A mixed call that returns a response returns a list that is
    neither nil nor empty, with the query of the request and a count equal to
    the number of items.  Every item is an item of the answer of an engine
    that completed, whose adapter exists and whose call returned no error,
    marked with that engine and the strategy [mixed]; with a positive
    breadth there are at most breadth times the number of engines. *)
Theorem mixed_results_come_from_engines reg s request completion resp :
  result (executeMixedSearch reg s request completion) = Return resp ->
  exists results,
    SearchResponse.Results resp = Some results
    /\ results ≠ []
    /\ SearchResponse.TotalCount resp = len results
    /\ SearchResponse.Query resp = SearchRequest.Query request
    /\ (0 < Breadth (config s) ->
        len results <= Breadth (config s) * len completion)
    /\ Forall (λ item,
         exists e a answer x,
           e ∈ completion
           /\ adapterOf reg s e = Some a
           /\ Search a request = (Some answer, None)
           /\ x ∈ elems (SearchResponse.Results answer)
           /\ item = markMixed e x
           /\ SearchResultItem.Metadata item !! "search_engine"
              = Some (MetaString e)
           /\ SearchResultItem.Metadata item !! "strategy"
              = Some (MetaString "mixed")) results.
Proof.
  intros Hret.
  destruct (decide (MixedEngines (config s) = [])) as [Hnil|Hne].
  { unfold executeMixedSearch in Hret. by rewrite Hnil in Hret. }
  rewrite executeMixedSearch_result in Hret by done.
  destruct (collectAll_spec (config s) (arrival reg request s <$> completion))
    as [Hall _].
  unfold mixedResponse in Hret.
  destruct (Z.eqb_spec (len (allResults (collectAll (config s)
              (arrival reg request s <$> completion)))) 0) as [Hz|Hnz];
    [by destruct (_ >? _)|].
  injection Hret as <-. simpl. eexists. split; [done|].
  split_and!; [by intros Hempty; rewrite Hempty in Hnz|done..| |].
  - intros Hb. rewrite Hall. unfold len. rewrite length_fmap.
    pose proof (firstOccurrences_length pairURL
      (pool (config s) (arrival reg request s <$> completion))) as H1.
    pose proof (pool_length (config s) (arrival reg request s <$> completion)
      Hb) as H2.
    unfold len in H2. rewrite length_fmap in H2. lia.
  - rewrite Hall. apply Forall_fmap, Forall_forall. intros p Hp. simpl.
    eapply elem_of_sublist in Hp; [|apply firstOccurrences_from_sublist].
    unfold pool in Hp. apply list_elem_of_bind in Hp as (r & Hp & Hr).
    apply list_elem_of_fmap in Hr as (e & -> & He).
    apply elem_of_contribution in Hp as (Hp1 & a & answer & Ha & Hs & Hx).
    exists e, a, answer, p.2. unfold markPair. rewrite Hp1.
    split_and!; try done; apply markMixed_metadata.
Qed.

Lemma mixed_results_come_from_engines_witness :
  exists resp results,
    result (executeMixedSearch registry
              (NewDefaultSearchStrategy (Some (mixedConfig ["a"; "c"; "d"] 2)))
              (request "q") ["d"; "a"; "c"]) = Return resp
    /\ SearchResponse.Results resp = Some results
    /\ SearchResponse.TotalCount resp = len results
    /\ SearchResultItem.URL <$> results = ["u2"; "u5"; "u1"].
Proof.
  eexists.
  destruct (mixed_results_come_from_engines registry
    (NewDefaultSearchStrategy (Some (mixedConfig ["a"; "c"; "d"] 2)))
    (request "q") ["d"; "a"; "c"] _ eq_refl)
    as (results & Hr & _ & Hcount & _).
  exists results. split; [vm_compute; reflexivity|].
  split; [exact Hr|]. split; [exact Hcount|].
  vm_compute in Hr. injection Hr as <-. vm_compute. reflexivity.
Defined.

(** X10.  The order in which the engines of a mixed call complete decides
    neither whether the call succeeds nor which URLs it returns: for two
    completion orders of the same engines both calls return or both fail; the
    URLs returned are the same up to order, the counts are equal, and the
    errors listed are the same up to order.  (Which engine an item is
    credited to does depend on the order.) *)
Theorem mixed_urls_do_not_depend_on_completion reg s request c1 c2 :
  c1 ≡ₚ c2 ->
  match result (executeMixedSearch reg s request c1),
        result (executeMixedSearch reg s request c2) with
  | Return r1, Return r2 =>
      SearchResultItem.URL <$> elems (SearchResponse.Results r1)
        ≡ₚ SearchResultItem.URL <$> elems (SearchResponse.Results r2)
      /\ SearchResponse.TotalCount r1 = SearchResponse.TotalCount r2
  | Fail e1, Fail e2 => listed e1 ≡ₚ listed e2
  | _, _ => False
  end.
Proof.
  intros Hp.
  destruct (decide (MixedEngines (config s) = [])) as [Hnil|Hne].
  { unfold executeMixedSearch. rewrite Hnil. simpl. reflexivity. }
  rewrite !executeMixedSearch_result by done.
  destruct (collectAll_spec (config s) (arrival reg request s <$> c1))
    as [Hall1 Herr1].
  destruct (collectAll_spec (config s) (arrival reg request s <$> c2))
    as [Hall2 Herr2].
  assert (SearchResultItem.URL
            <$> allResults (collectAll (config s) (arrival reg request s <$> c1))
          ≡ₚ SearchResultItem.URL
            <$> allResults (collectAll (config s) (arrival reg request s <$> c2)))
    as Hurls.
  { rewrite Hall1, Hall2, <- !list_fmap_compose.
    rewrite (list_fmap_ext (SearchResultItem.URL ∘ markPair) pairURL
               (firstOccurrences pairURL (pool (config s)
                  (arrival reg request s <$> c1)))) by done.
    rewrite (list_fmap_ext (SearchResultItem.URL ∘ markPair) pairURL
               (firstOccurrences pairURL (pool (config s)
                  (arrival reg request s <$> c2)))) by done.
    apply firstOccurrences_keys_Permutation. unfold pool. by rewrite Hp. }
  assert (errors (collectAll (config s) (arrival reg request s <$> c1))
          ≡ₚ errors (collectAll (config s) (arrival reg request s <$> c2)))
    as Herrs.
  { rewrite Herr1, Herr2. unfold engineErrors. by rewrite Hp. }
  pose proof (Permutation_length Hurls) as Hlen. rewrite !length_fmap in Hlen.
  pose proof (Permutation_length Herrs) as Hlen'.
  unfold mixedResponse, len. rewrite Hlen, Hlen'.
  destruct (_ =? 0).
  - destruct (_ >? 0); simpl; [exact Herrs|done].
  - simpl. split; [exact Hurls|done].
Qed.

Lemma mixed_urls_do_not_depend_on_completion_witness :
  exists r1 r2,
    result (executeMixedSearch registry
              (NewDefaultSearchStrategy (Some (mixedConfig ["c"; "d"] 3)))
              (request "q") ["c"; "d"]) = Return r1
    /\ result (executeMixedSearch registry
                 (NewDefaultSearchStrategy (Some (mixedConfig ["c"; "d"] 3)))
                 (request "q") ["d"; "c"]) = Return r2
    /\ SearchResultItem.URL <$> elems (SearchResponse.Results r1)
         ≡ₚ SearchResultItem.URL <$> elems (SearchResponse.Results r2)
    /\ SearchResponse.TotalCount r1 = SearchResponse.TotalCount r2.
Proof.
  pose proof (mixed_urls_do_not_depend_on_completion registry
    (NewDefaultSearchStrategy (Some (mixedConfig ["c"; "d"] 3)))
    (request "q") ["c"; "d"] ["d"; "c"] (perm_swap _ _ _)) as H.
  destruct (result (executeMixedSearch _ _ _ ["c"; "d"])) as [r1|e1|w1] eqn:H1;
    [|vm_compute in H1; discriminate..].
  destruct (result (executeMixedSearch _ _ _ ["d"; "c"])) as [r2|e2|w2] eqn:H2;
    [|vm_compute in H2; discriminate..].
  exists r1, r2. split; [reflexivity|]. split; [reflexivity|]. exact H.
Defined.

Lemma mixedTasks_calls reg request completion : forall s,
  let '(_, calls, s') := mixedTasks reg request s completion in
  calls = filter (λ e, is_Some (adapterOf reg s e)) completion
  /\ config s' = config s
  /\ (forall e, adapterOf reg s' e = adapterOf reg s e)
  /\ (forall e, adapters s' !! e
                = match adapters s !! e with
                  | Some b => Some b
                  | None => if decide (e ∈ completion)
                            then adapterOf reg s e else None
                  end).
Proof.
  induction completion as [|e rest IH]; intros s; simpl.
  { split_and!; [done..|]. intros e. by destruct (adapters s !! e). }
  pose proof (mixedTask_strategy reg request s e) as Hs1.
  pose proof (adapterOf_stable reg s e) as Hst.
  pose proof (getOrCreateAdapter_config reg s e) as Hc.
  pose proof (cache_only reg s e) as Hcache.
  assert ((mixedTask reg request s e).1.2
          = if decide (is_Some (adapterOf reg s e)) then [e] else []) as Hcalls.
  { unfold mixedTask, adapterOf.
    destruct (getOrCreateAdapter reg s e) as [[a|err] s1]; simpl.
    - by destruct (Search a request).
    - done. }
  destruct (mixedTask reg request s e) as [[r c] s1]. simpl in *. subst s1 c.
  specialize (IH (getOrCreateAdapter reg s e).2).
  destruct (mixedTasks reg request (getOrCreateAdapter reg s e).2 rest)
    as [[rs cs] s2].
  destruct IH as (-> & Hc2 & Hst2 & Hcache2).
  split_and!.
  - rewrite filter_cons. destruct (decide (is_Some (adapterOf reg s e))); simpl;
      f_equal; apply list_filter_iff; intros x; by rewrite Hst.
  - congruence.
  - intros x. by rewrite Hst2, Hst.
  - intros x. rewrite Hcache2, Hcache, Hst.
    destruct (adapters s !! x) as [b|] eqn:Hx; [done|].
    destruct (decide (x = e)) as [->|Hne].
    + rewrite (decide_True (P := e ∈ e :: rest)) by (by left).
      destruct (adapterOf reg s e) eqn:Ha; [done|]. by destruct (decide _).
    + destruct (decide (x ∈ rest)) as [Hin|Hnin].
      * by rewrite decide_True by (by right).
      * rewrite decide_False; [done|]. rewrite elem_of_cons. tauto.
Qed.

(** X11.  With mixed engines configured, [Execute] never consults the
    fallback order: [Search] is invoked once on every engine that completes
    and has an adapter, in completion order, whether or not the engines
    before it failed.  Afterwards the cache holds what it held, and for every
    engine that took part the adapter that the strategy used. *)
Theorem mixed_calls_every_available_engine reg s request completion :
  MixedEngines (config s) ≠ [] ->
  let r := Execute reg s request completion in
  searched r = filter (λ e, is_Some (adapterOf reg s e)) completion
  /\ config (final r) = config s
  /\ forall e, adapters (final r) !! e
               = match adapters s !! e with
                 | Some b => Some b
                 | None => if decide (e ∈ completion)
                           then adapterOf reg s e else None
                 end.
Proof.
  intros Hne. cbv zeta. unfold Execute.
  destruct (Z.gtb_spec (len (MixedEngines (config s))) 0) as [_|Hz].
  2:{ destruct (MixedEngines (config s)); [done|]. rewrite len_cons in Hz.
      unfold len in Hz. lia. }
  unfold executeMixedSearch.
  destruct (Z.eqb_spec (len (MixedEngines (config s))) 0) as [Hz|_].
  { destruct (MixedEngines (config s)); [done|]. rewrite len_cons in Hz.
    unfold len in Hz. lia. }
  pose proof (mixedTasks_calls reg request completion s) as H.
  destruct (mixedTasks reg request s completion) as [[arrivals calls] s'].
  simpl. tauto.
Qed.

Lemma mixed_calls_every_available_engine_witness :
  searched (Execute registry
              (NewDefaultSearchStrategy
                 (Some (mixedConfig ["a"; "missing"; "c"] 2)))
              (request "q") ["c"; "missing"; "a"])
  = ["c"; "a"].
Proof.
  destruct (mixed_calls_every_available_engine registry
    (NewDefaultSearchStrategy (Some (mixedConfig ["a"; "missing"; "c"] 2)))
    (request "q") ["c"; "missing"; "a"]) as (Hs & _ & _).
  - discriminate.
  - rewrite Hs. vm_compute. reflexivity.
Defined.

(** ** The web strategy *)

Lemma web_getOrCreateAdapter_config reg s e :
  Web.config (Web.getOrCreateAdapter reg s e).2 = Web.config s.
Proof.
  unfold Web.getOrCreateAdapter. destruct (Web.adapters s !! e); [done|].
  by destruct (Web.CreateWebAdapter reg e).
Qed.

Lemma web_adapterOf_stable reg s e e' :
  Web.adapterOf reg (Web.getOrCreateAdapter reg s e).2 e'
  = Web.adapterOf reg s e'.
Proof.
  unfold Web.adapterOf. unfold Web.getOrCreateAdapter at 2.
  destruct (Web.adapters s !! e) eqn:Hc; [done|].
  destruct (Web.CreateWebAdapter reg e) as [a|err] eqn:Hr; [|done].
  unfold Web.getOrCreateAdapter. simpl.
  destruct (decide (e = e')) as [<-|Hne].
  - by rewrite lookup_insert_eq, Hc, Hr.
  - rewrite lookup_insert_ne by done.
    destruct (Web.adapters s !! e'); [done|].
    by destruct (Web.CreateWebAdapter reg e').
Qed.

Lemma scrapeLoop_first_success {T R} reg
    (call : Web.WebAdapter -> T * option error) (finish : T -> R) failed n
    scrapers :
  forall i lastErr calls s r,
  Web.result (Web.scrapeLoop reg call finish failed n i scrapers lastErr calls s)
    = Return r ->
  exists before e after a raw,
    scrapers = before ++ e :: after
    /\ Web.adapterOf reg s e = Some a
    /\ call a = (raw, None)
    /\ r = finish raw
    /\ Forall (λ x, forall b, Web.adapterOf reg s x = Some b ->
                      (call b).2 ≠ None) before
    /\ Web.scraped (Web.scrapeLoop reg call finish failed n i scrapers lastErr
                      calls s)
       = calls ++ filter (λ x, is_Some (Web.adapterOf reg s x)) before ++ [e].
Proof.
  induction scrapers as [|e rest IH]; intros i lastErr calls s r; simpl; [done|].
  pose proof (web_getOrCreateAdapter_config reg s e) as Hc.
  pose proof (web_adapterOf_stable reg s e) as Hst.
  assert (forall a, (Web.getOrCreateAdapter reg s e).1 = inl a ->
                    Web.adapterOf reg s e = Some a) as Hhere.
  { intros a Ha. unfold Web.adapterOf. by rewrite Ha. }
  assert (forall err, (Web.getOrCreateAdapter reg s e).1 = inr err ->
                    Web.adapterOf reg s e = None) as Hnot.
  { intros a Ha. unfold Web.adapterOf. by rewrite Ha. }
  destruct (Web.getOrCreateAdapter reg s e) as [[a|err] s1]; simpl in *.
  - specialize (Hhere a eq_refl). clear Hnot.
    destruct (call a) as [raw [err|]] eqn:Hs; simpl.
    + destruct (_ || _); simpl; [done|].
      intros
        (before & e' & after & a' & raw' & -> & Ha & Hs' & -> & Hall & Hse)%IH.
      exists (e :: before), e', after, a', raw'.
      split_and!; [done|by rewrite <- Hst|done|done| |].
      * constructor.
        -- intros b Hb. rewrite Hhere in Hb. injection Hb as <-.
           by rewrite Hs.
        -- eapply Forall_impl; [exact Hall|]. simpl. intros x Hx b Hb.
           apply Hx. by rewrite Hst.
      * rewrite Hse, filter_cons_True by (by rewrite Hhere).
        rewrite <- !app_assoc. simpl. do 2 f_equal.
        f_equal. apply list_filter_iff. intros x. by rewrite Hst.
    + intros [= <-]. exists [], e, rest, a, raw.
      split_and!; [done..|]. by rewrite app_nil_l.
  - specialize (Hnot err eq_refl).
    destruct (_ || _); simpl; [|done].
    intros
      (before & e' & after & a' & raw' & -> & Ha & Hs' & -> & Hall & Hse)%IH.
    exists (e :: before), e', after, a', raw'.
    split_and!; [done|by rewrite <- Hst|done|done| |].
    + constructor.
      * intros b Hb. congruence.
      * eapply Forall_impl; [exact Hall|]. simpl. intros x Hx b Hb.
        apply Hx. by rewrite Hst.
    + rewrite Hse, filter_cons_False.
      2:{ rewrite Hnot. by intros [? ?]. }
      do 2 f_equal. apply list_filter_iff. intros x. by rewrite Hst.
Qed.

(** X12.  A web [Execute] that returns hands back what the first scraper of
    the order with an adapter and a call without error returned: nil if that
    scraper returned nil (without panic), else the same page with nil links
    and images replaced by empty lists.  The scrapers before it that have an
    adapter were called once each, in order, and none after it. *)
Theorem web_execute_returns_first_success reg s url options page :
  Web.result (Web.Execute reg s url options) = Return page ->
  exists before scraper after a raw,
    Web.getScraperOrder s = before ++ scraper :: after
    /\ Web.adapterOf reg s scraper = Some a
    /\ Web.Scrape a url options = (raw, None)
    /\ Forall (λ x, forall b, Web.adapterOf reg s x = Some b ->
                      (Web.Scrape b url options).2 ≠ None) before
    /\ Web.scraped (Web.Execute reg s url options)
       = filter (λ x, is_Some (Web.adapterOf reg s x)) before ++ [scraper]
    /\ match raw, page with
       | None, None => True
       | Some raw, Some page =>
           Web.WebContent.URL page = Web.WebContent.URL raw
           /\ Web.WebContent.Title page = Web.WebContent.Title raw
           /\ Web.WebContent.Content page = Web.WebContent.Content raw
           /\ Web.WebContent.Links page
              = Some (elems (Web.WebContent.Links raw))
           /\ Web.WebContent.Images page
              = Some (elems (Web.WebContent.Images raw))
       | _, _ => False
       end.
Proof.
  unfold Web.Execute. intros Hret.
  apply scrapeLoop_first_success in Hret
    as (before & e & after & a & raw & Ho & Ha & Hs & -> & Hall & Hsc).
  exists before, e, after, a, raw. split_and!; [done..|].
  destruct raw as [raw|]; simpl; [|done].
  split_and!; [done..| |].
  - by destruct (Web.WebContent.Links raw).
  - by destruct (Web.WebContent.Images raw).
Qed.

Lemma web_execute_returns_first_success_witness :
  exists page,
    Web.result (Web.Execute webRegistry
                  (Web.NewDefaultWebStrategy
                     (Some (webConfig ["missing"; "jina"] true)))
                  "https://example.org" None) = Return (Some page)
    /\ Web.WebContent.Links page = Some []
    /\ Web.WebContent.Images page = Some []
    /\ Web.scraped (Web.Execute webRegistry
                      (Web.NewDefaultWebStrategy
                         (Some (webConfig ["missing"; "jina"] true)))
                      "https://example.org" None) = ["jina"].
Proof.
  eexists.
  destruct (web_execute_returns_first_success webRegistry
    (Web.NewDefaultWebStrategy (Some (webConfig ["missing"; "jina"] true)))
    "https://example.org" None _ eq_refl)
    as (before & scraper & after & a & raw & _).
  split_and!; vm_compute; reflexivity.
Defined.

(** X13.  A web [ExecuteMultiple] that returns hands back, unchanged, the
    pages that the first scraper of the order with an adapter and a call
    without error returned for the whole list of URLs. *)
Theorem web_execute_multiple_returns_first_success reg s urls options pages :
  Web.result (Web.ExecuteMultiple reg s urls options) = Return pages ->
  exists before scraper after a,
    Web.getScraperOrder s = before ++ scraper :: after
    /\ Web.adapterOf reg s scraper = Some a
    /\ Web.ScrapeMultiple a urls options = (pages, None)
    /\ Forall (λ x, forall b, Web.adapterOf reg s x = Some b ->
                      (Web.ScrapeMultiple b urls options).2 ≠ None) before
    /\ Web.scraped (Web.ExecuteMultiple reg s urls options)
       = filter (λ x, is_Some (Web.adapterOf reg s x)) before ++ [scraper].
Proof.
  unfold Web.ExecuteMultiple. intros Hret.
  apply scrapeLoop_first_success in Hret
    as (before & e & after & a & raw & Ho & Ha & Hs & -> & Hall & Hsc).
  by exists before, e, after, a.
Qed.

Lemma web_execute_multiple_returns_first_success_witness :
  exists pages,
    Web.result (Web.ExecuteMultiple webRegistry
                  (Web.NewDefaultWebStrategy (Some (webConfig ["jina"] false)))
                  ["u1"; "u2"] None) = Return pages
    /\ Web.WebContent.URL <$> pages = ["u1"; "u2"].
Proof.
  eexists.
  destruct (web_execute_multiple_returns_first_success webRegistry
    (Web.NewDefaultWebStrategy (Some (webConfig ["jina"] false)))
    ["u1"; "u2"] None _ eq_refl) as (before & scraper & after & a & _).
  split; vm_compute; reflexivity.
Defined.

(** ** The constructors that read the configuration *)

Lemma foldl_snoc_id {A} (l : list A) : forall acc,
  foldl (λ result x, result ++ [x]) acc l = acc ++ l.
Proof.
  induction l as [|x l IH]; intros acc; simpl.
  - by rewrite app_nil_r.
  - by rewrite IH, <- app_assoc.
Qed.

Lemma convertStringSliceToSearchEngines_id engines :
  convertStringSliceToSearchEngines engines = engines.
Proof. apply (foldl_snoc_id engines []). Qed.

Lemma onlyEnabled_filter engines names :
  onlyEnabled engines names = filter (enabled engines) names.
Proof.
  unfold onlyEnabled.
  assert (forall acc,
    foldl (λ kept engineName,
             match engines !! engineName with
             | Some engineConfig =>
                 if Types.EngineConfig.Enabled engineConfig
                 then kept ++ [engineName] else kept
             | None => kept
             end) acc names
    = acc ++ filter (enabled engines) names) as H; [|apply (H [])].
  induction names as [|x names IH]; intros acc; simpl.
  - by rewrite app_nil_r.
  - rewrite IH, filter_cons. unfold enabled at 2.
    destruct (decide _) as [(c & Hc & He)|Hn].
    + rewrite Hc, He, <- app_assoc. done.
    + destruct (engines !! x) as [c|] eqn:Hc; [|done].
      destruct (Types.EngineConfig.Enabled c) eqn:He; [|done].
      destruct Hn. by exists c.
Qed.

(** X14.  [NewDefaultSearchStrategyFromConfig] fails exactly when the
    configuration lists no engine at all.  Otherwise the mixed engines of the
    strategy are the configured ones that are enabled, in order; its fallback
    order is the configured order restricted to the enabled engines, and when
    that is empty the order [searxng, firecrawl], whether or not those two
    are enabled or configured; fallback is enabled whatever the
    configuration says. *)
Theorem strategy_from_config_uses_enabled_engines searchConfig :
  let engines := Types.SearchConfig.Engines searchConfig in
  let strategy := Types.SearchConfig.Strategy searchConfig in
  match NewDefaultSearchStrategyFromConfig (Some searchConfig) with
  | inr err =>
      engines = ∅ /\ err = errorString "no enabled search engines found"
  | inl s =>
      engines ≠ ∅
      /\ MixedEngines (config s)
         = filter (enabled engines)
             (Types.SearchStrategyConfig.MixedEngines strategy)
      /\ getEngineOrder s
         = (if decide (filter (enabled engines)
                         (Types.SearchStrategyConfig.DefaultFallbackOrder
                            strategy) = [])
            then ["searxng"; "firecrawl"]
            else filter (enabled engines)
                   (Types.SearchStrategyConfig.DefaultFallbackOrder strategy))
      /\ EnableFallback (config s) = true
      /\ FailFast (config s) = Types.SearchStrategyConfig.FailFast strategy
      /\ 0 < Breadth (config s)
      /\ adapters s = ∅
  end.
Proof.
  cbv zeta. unfold NewDefaultSearchStrategyFromConfig.
  destruct (Z.eqb_spec (Z.of_nat (size (Types.SearchConfig.Engines searchConfig)))
              0) as [Hz|Hnz].
  { split; [|done]. apply map_size_empty_iff. lia. }
  assert (Types.SearchConfig.Engines searchConfig ≠ ∅) as Hne.
  { intros He. rewrite He, map_size_empty in Hnz. done. }
  split; [done|]. rewrite !convertStringSliceToSearchEngines_id.
  rewrite !onlyEnabled_filter.
  set (mixed := Types.SearchStrategyConfig.MixedEngines _).
  set (order := Types.SearchStrategyConfig.DefaultFallbackOrder _).
  assert ((Z.of_nat (size (Types.SearchConfig.Engines searchConfig)) >? 0)
          = true) as ->.
  { apply Z.gtb_lt. lia. }
  assert ((if len mixed >? 0 then filter (enabled (Types.SearchConfig.Engines
                                                   searchConfig)) mixed
           else mixed)
          = filter (enabled (Types.SearchConfig.Engines searchConfig)) mixed)
    as ->.
  { destruct mixed; [done|]. by rewrite len_cons_pos. }
  assert ((if true && (len order >? 0)
           then filter (enabled (Types.SearchConfig.Engines searchConfig)) order
           else order)
          = filter (enabled (Types.SearchConfig.Engines searchConfig)) order)
    as ->.
  { destruct order; [done|]. by rewrite len_cons_pos. }
  split; [done|]. split.
  - unfold getEngineOrder, NewDefaultSearchStrategy. simpl.
    destruct (decide (filter _ order = [])) as [He|Hf].
    + rewrite He. done.
    + destruct (filter _ order) as [|x l] eqn:Hl; [done|].
      by rewrite len_cons_nonzero, len_cons_pos.
  - split_and!.
    + simpl. by destruct (Types.SearchStrategyConfig.EnableFallback _).
    + done.
    + simpl. destruct (Z.leb_spec (Types.SearchStrategyConfig.Breadth
                (Types.SearchConfig.Strategy searchConfig)) 0); lia.
    + done.
Qed.

Lemma convertStringSliceToWebScrapers_id scrapers :
  Web.convertStringSliceToWebScrapers scrapers = scrapers.
Proof. apply (foldl_snoc_id scrapers []). Qed.

Lemma web_onlyEnabled_filter scrapers names :
  Web.onlyEnabled scrapers names = filter (Web.enabled scrapers) names.
Proof.
  unfold Web.onlyEnabled.
  assert (forall acc,
    foldl (λ kept scraperName,
             match scrapers !! scraperName with
             | Some scraperConfig =>
                 if Types.WebScraperConfig.Enabled scraperConfig
                 then kept ++ [scraperName] else kept
             | None => kept
             end) acc names
    = acc ++ filter (Web.enabled scrapers) names) as H; [|apply (H [])].
  induction names as [|x names IH]; intros acc; simpl.
  - by rewrite app_nil_r.
  - rewrite IH, filter_cons. unfold Web.enabled at 2.
    destruct (decide _) as [(c & Hc & He)|Hn].
    + rewrite Hc, He, <- app_assoc. done.
    + destruct (scrapers !! x) as [c|] eqn:Hc; [|done].
      destruct (Types.WebScraperConfig.Enabled c) eqn:He; [|done].
      destruct Hn. by exists c.
Qed.

(** X15.  [NewDefaultWebStrategyFromConfig] fails exactly when the
    configuration lists no scraper at all.  Otherwise the order of the
    strategy is the configured order restricted to the enabled scrapers, and
    when that is empty the order [jina, firecrawl], whether or not those two
    are enabled or configured; fallback is enabled whatever the
    configuration says. *)
Theorem web_strategy_from_config_uses_enabled_scrapers webConfig :
  let scrapers := Types.WebConfig.Scrapers webConfig in
  let strategy := Types.WebConfig.Strategy webConfig in
  match Web.NewDefaultWebStrategyFromConfig (Some webConfig) with
  | inr err =>
      scrapers = ∅ /\ err = errorString "no enabled web scrapers found"
  | inl s =>
      scrapers ≠ ∅
      /\ Web.getScraperOrder s
         = (if decide (filter (Web.enabled scrapers)
                         (Types.WebStrategyConfig.DefaultFallbackOrder
                            strategy) = [])
            then ["jina"; "firecrawl"]
            else filter (Web.enabled scrapers)
                   (Types.WebStrategyConfig.DefaultFallbackOrder strategy))
      /\ Web.EnableFallback (Web.config s) = true
      /\ Web.FailFast (Web.config s)
         = Types.WebStrategyConfig.FailFast strategy
      /\ Web.adapters s = ∅
  end.
Proof.
  cbv zeta. unfold Web.NewDefaultWebStrategyFromConfig.
  destruct (Z.eqb_spec (Z.of_nat (size (Types.WebConfig.Scrapers webConfig)))
              0) as [Hz|Hnz].
  { split; [|done]. apply map_size_empty_iff. lia. }
  assert (Types.WebConfig.Scrapers webConfig ≠ ∅) as Hne.
  { intros He. rewrite He, map_size_empty in Hnz. done. }
  split; [done|]. rewrite !convertStringSliceToWebScrapers_id.
  rewrite !web_onlyEnabled_filter.
  set (order := Types.WebStrategyConfig.DefaultFallbackOrder _).
  assert ((Z.of_nat (size (Types.WebConfig.Scrapers webConfig)) >? 0)
          = true) as ->.
  { apply Z.gtb_lt. lia. }
  assert ((if true && (len order >? 0)
           then filter (Web.enabled (Types.WebConfig.Scrapers webConfig)) order
           else order)
          = filter (Web.enabled (Types.WebConfig.Scrapers webConfig)) order)
    as ->.
  { destruct order; [done|]. by rewrite len_cons_pos. }
  split.
  - unfold Web.getScraperOrder, Web.NewDefaultWebStrategy. simpl.
    destruct (decide (filter _ order = [])) as [He|Hf].
    + rewrite He. done.
    + destruct (filter _ order) as [|x l] eqn:Hl; [done|].
      by rewrite len_cons_nonzero, len_cons_pos.
  - split_and!.
    + simpl. by destruct (Types.WebStrategyConfig.EnableFallback _).
    + done.
    + done.
Qed.

(** ** The registration from the configuration *)

Lemma register_fold (factory : string -> AdapterFactory)
    (entries : list (string * Types.EngineConfig.t)) : forall reg name,
  NoDup entries.*1 ->
  factories
    (foldl (λ registry entry,
              if Types.EngineConfig.Enabled entry.2
              then Register registry entry.1 (factory entry.1)
              else registry) reg entries) !! name
  = match list_find (λ entry, entry.1 = name) entries with
    | Some (_, entry) =>
        if Types.EngineConfig.Enabled entry.2 then Some (factory name)
        else factories reg !! name
    | None => factories reg !! name
    end.
Proof.
  induction entries as [|[n c] entries IH]; intros reg name Hnd; simpl;
    [done|].
  apply NoDup_cons in Hnd as [Hn Hnd]. rewrite IH by done.
  destruct (decide (n = name)) as [->|Hne]; simpl.
  - assert (list_find (λ entry : string * Types.EngineConfig.t,
                         entry.1 = name) entries = None) as ->.
    { apply list_find_None, Forall_forall. intros [n' c'] Hin Heq.
      simpl in Heq. subst n'. apply Hn. apply list_elem_of_fmap.
      by exists (name, c'). }
    destruct (Types.EngineConfig.Enabled c); [|done].
    unfold Register. simpl. by rewrite lookup_insert_eq.
  - destruct (list_find _ entries) as [[i [n' c']]|] eqn:Hf; simpl.
    + destruct (Types.EngineConfig.Enabled c'); [done|].
      destruct (Types.EngineConfig.Enabled c); [|done].
      unfold Register. simpl. by rewrite lookup_insert_ne.
    + destruct (Types.EngineConfig.Enabled c); [|done].
      unfold Register. simpl. by rewrite lookup_insert_ne.
Qed.

Lemma list_find_map_to_list {V} (m : gmap string V) name :
  snd <$> (snd <$> list_find (λ entry : string * V, entry.1 = name)
                     (map_to_list m))
  = m !! name.
Proof.
  destruct (list_find _ _) as [[i [n v]]|] eqn:Hf; simpl.
  - apply list_find_Some in Hf as (Hi & Hn & _). simpl in Hn. subst n.
    apply list_elem_of_lookup_2, elem_of_map_to_list in Hi. done.
  - destruct (m !! name) as [v|] eqn:Hm; [|done].
    apply elem_of_map_to_list in Hm.
    eapply list_find_None, Forall_forall in Hf; [|exact Hm]. done.
Qed.

(** X16.  After [RegisterAllSearchAdapters], while the configuration and the
    creators stay as they are, [Create] gives for an engine that the
    configuration enables what the engine's creator makes of its
    configuration, or the creator-not-registered error when there is no
    creator; for every other name the registry answers as before, whatever
    the order in which the entries of the configuration are visited.  The
    disabled and the not-found errors of [createAdapterFromConfig] cannot
    come out of the registry. *)
Theorem registration_follows_configuration c creators reg name :
  let reg' :=
    (RegisterAllSearchAdapters (Some c)
       (createAdapterFromConfig (Some c) creators) reg).2 in
  Create reg' name
  = match Types.SearchConfig.Engines c !! name with
    | Some engineConfig =>
        if Types.EngineConfig.Enabled engineConfig then
          match creators !! name with
          | Some creator => creator engineConfig
          | None =>
              inr (errorString ("adapter creator not registered for "
                                  +:+ name))
          end
        else Create reg name
    | None => Create reg name
    end.
Proof.
  cbv zeta. unfold RegisterAllSearchAdapters, Create. cbn [snd].
  rewrite (register_fold (createAdapterFromConfig (Some c) creators))
    by apply NoDup_fst_map_to_list.
  pose proof (list_find_map_to_list (Types.SearchConfig.Engines c) name) as Hm.
  destruct (list_find _ _) as [[i [n ec]]|]; simpl in Hm; rewrite <- Hm;
    [|done].
  simpl. destruct (Types.EngineConfig.Enabled ec) eqn:He; [|done].
  unfold createAdapterFromConfig. rewrite <- Hm, He. done.
Qed.

End Strategies.

(** * The search tool and the web tool *)

Module ToolFacts.
Import Strategies.
Import Search SearchFacts Samples Retrieval.
Import Agent SearchTool.
(** X17.  [validateSearchRequest] rejects exactly the empty query, with the
    error [search query cannot be empty], and leaves the request alone then.
    Otherwise the request that [buildSearchRequest] hands to the strategy
    has the query, language, region, safe-search and time range of the
    caller, offset 0, and the caller's number of results when that lies in
    1..50, else 10. *)
Theorem search_request_is_normalised request :
  match validateSearchRequest request with
  | (Some err, request') =>
      Tools.SearchRequest.Query request = ""
      /\ err = errorString "search query cannot be empty"
      /\ request' = request
  | (None, request') =>
      let r := buildSearchRequest request' in
      Tools.SearchRequest.Query request ≠ ""
      /\ SearchRequest.Query r = Tools.SearchRequest.Query request
      /\ SearchRequest.Num r
         = (if decide (1 <= Tools.SearchRequest.Num request <= 50)
            then Tools.SearchRequest.Num request else 10)
      /\ 1 <= SearchRequest.Num r <= 50
      /\ SearchRequest.Offset r = 0
      /\ SearchRequest.Lang r = Tools.SearchRequest.Lang request
      /\ SearchRequest.Region r = Tools.SearchRequest.Region request
      /\ SearchRequest.SafeSearch r = Tools.SearchRequest.SafeSearch request
      /\ SearchRequest.TimeRange r = Tools.SearchRequest.TimeRange request
  end.
Proof.
  unfold validateSearchRequest.
  destruct (String.eqb_spec (Tools.SearchRequest.Query request) "")
    as [He|Hne]; [done|].
  cbv zeta.
  destruct (Z.leb_spec (Tools.SearchRequest.Num request) 0) as [H0|H0];
    destruct (Z.gtb_spec (Tools.SearchRequest.Num request) 50) as [H50|H50];
    simpl; destruct (decide _); split_and!; try done; lia.
Qed.

(** A call with an empty query returns before anything is initialised. *)
Lemma searchFunc_empty_query searchConfig factory reg g request completion
    elapsed :
  Tools.SearchRequest.Query request = "" ->
  searchFunc searchConfig factory reg g request completion elapsed
  = (Return (failure "" elapsed
               "parameter validation failed: search query cannot be empty"),
     (reg, g, [])).
Proof.
  intros He. unfold searchFunc, validateSearchRequest. rewrite He. simpl.
  by rewrite He.
Qed.

Lemma validateSearchRequest_ok request :
  Tools.SearchRequest.Query request ≠ "" ->
  exists request',
    validateSearchRequest request = (None, request')
    /\ Tools.SearchRequest.Query request' = Tools.SearchRequest.Query request.
Proof.
  intros Hne. unfold validateSearchRequest.
  destruct (String.eqb_spec (Tools.SearchRequest.Query request) ""); [done|].
  eexists. split; [reflexivity|]. by destruct (_ || _).
Qed.

(** X18.  When the configuration lists no engine, the first call of the
    search tool with a query returns (it does not fail) a response without
    success whose error is [failed to create search strategy: no enabled
    search engines found], and calls no engine.  Every later call with a
    query gets the same error whatever configuration, registry and factories
    are in place then: initialisation is not tried again. *)
Theorem initialisation_failure_is_permanent
    config factory reg request completion elapsed :
  Types.SearchConfig.Engines config = ∅ ->
  Tools.SearchRequest.Query request ≠ "" ->
  let text :=
    "failed to create search strategy: no enabled search engines found" in
  exists g,
    searchFunc (Some config) factory reg unused request completion elapsed
    = (Return (failure (Tools.SearchRequest.Query request) elapsed text),
       (reg, g, []))
    /\ forall config' factory' reg' request' completion' elapsed',
         Tools.SearchRequest.Query request' ≠ "" ->
         searchFunc config' factory' reg' g request' completion' elapsed'
         = (Return (failure (Tools.SearchRequest.Query request') elapsed' text),
            (reg', g, [])).
Proof.
  intros Hempty Hq. cbv zeta. eexists. split.
  - unfold searchFunc.
    destruct (validateSearchRequest_ok request Hq) as (r' & -> & Hr').
    unfold initSearchAdapters, unused. simpl.
    unfold RegisterAllSearchAdapters, NewDefaultSearchStrategyFromConfig.
    rewrite Hempty, map_to_list_empty, map_size_empty.
    simpl. rewrite Hr'. reflexivity.
  - intros config' factory' reg' request' completion' elapsed' Hq'.
    unfold searchFunc.
    destruct (validateSearchRequest_ok request' Hq') as (r' & -> & Hr').
    simpl. by rewrite Hr'.
Qed.

Lemma initialisation_failure_is_permanent_witness :
  exists g,
    searchFunc (Some noEngines) (λ _, inl (failing "down")) registry unused
      (toolRequest "q") [] 7
    = (Return (failure "q" 7
                 "failed to create search strategy: no enabled search engines found"),
       (registry, g, []))
    /\ searchFunc None (λ _, inl (answering ["u1"])) five g
         (toolRequest "again") [] 9
       = (Return (failure "again" 9
                    "failed to create search strategy: no enabled search engines found"),
          (five, g, [])).
Proof.
  destruct (initialisation_failure_is_permanent noEngines
              (λ _, inl (failing "down")) registry (toolRequest "q") [] 7
              eq_refl) as (g & H1 & H2).
  - done.
  - exists g. split; [exact H1|]. by apply H2.
Defined.

Lemma head_capped cfg (l : list SearchResultItem.t) :
  head (capped cfg l) = head l.
Proof.
  unfold capped. destruct (Z.leb_spec (Breadth cfg) 0); [done|].
  destruct (Z.to_nat (Breadth cfg)) as [|n] eqn:Hn; [lia|]. by destruct l.
Qed.

Lemma buildSearchResponse_fallback result query elapsed e attempt x rest :
  elems (SearchResponse.Results result) = markFallback e attempt x :: rest ->
  Tools.SearchResponse.Engine (buildSearchResponse result query elapsed) = e
  /\ Tools.SearchResponse.Message (buildSearchResponse result query elapsed)
     = (if attempt >? 1
        then "Fallback strategy was used, succeeded on attempt "
             +:+ itoa attempt
        else "").
Proof.
  intros Hr. unfold buildSearchResponse. rewrite Hr.
  destruct (markFallback_metadata e attempt x) as (-> & -> & ->). done.
Qed.

(** X19.  Once the search tool is initialised with a strategy without
    mixed engines, a call that returns a successful response stopped at an
    engine of the fallback order, having called the engines before it that
    have an adapter.  The response carries the caller's query and the
    elapsed time; when it has results, its engine is the one that answered
    and its message is empty if that engine was the first of the order, else
    [Fallback strategy was used, succeeded on attempt N] with N the position
    of the engine in the order, counting the engines without adapter. *)
Theorem search_tool_reports_fallback_attempt
    searchConfig factory reg g s request completion elapsed resp after :
  searchInitOnce g = true ->
  searchInitError g = None ->
  searchStrategy g = Some s ->
  MixedEngines (config s) = [] ->
  searchFunc searchConfig factory reg g request completion elapsed
    = (Return resp, after) ->
  Tools.SearchResponse.Success resp = true ->
  exists before e rest,
    getEngineOrder s = before ++ e :: rest
    /\ after.2 = filter (λ x, is_Some (adapterOf reg s x)) before ++ [e]
    /\ Tools.SearchResponse.Query resp = Tools.SearchRequest.Query request
    /\ Tools.SearchResponse.TimeTaken resp = elapsed
    /\ Tools.SearchResponse.Error resp = ""
    /\ match Tools.SearchResponse.Results resp with
       | [] =>
           Tools.SearchResponse.Engine resp = ""
           /\ Tools.SearchResponse.Message resp = ""
       | _ :: _ =>
           Tools.SearchResponse.Engine resp = e
           /\ Tools.SearchResponse.Message resp
              = (if decide (before = []) then ""
                 else "Fallback strategy was used, succeeded on attempt "
                      +:+ itoa (len before + 1))
       end.
Proof.
  intros Honce Herr Hs Hmixed.
  destruct (String.eqb_spec (Tools.SearchRequest.Query request) "")
    as [He|Hne].
  { rewrite searchFunc_empty_query by done. by intros [= <- <-]. }
  unfold searchFunc.
  destruct (validateSearchRequest_ok request Hne) as (r' & -> & Hr').
  unfold initSearchAdapters. rewrite Honce, Herr, Hs. cbv zeta.
  unfold Execute. rewrite Hmixed. change (len [] >? 0) with false. cbv iota.
  pose proof (fallbackLoop_first_success reg (buildSearchRequest r')
                (len (getEngineOrder s)) (getEngineOrder s) 0 ∅ None [] s)
    as Hfirst.
  unfold executeFallbackSearch.
  destruct (fallbackLoop _ _ _ _ _ _ _ _ _) as [[result|err|why] calls s'];
    simpl in *; [|by intros [= <- <-]|done].
  destruct (Hfirst result eq_refl)
    as (before & e & rest & a & answer & Ho & Ha & Hsr & Hall & Hcalls & ->).
  intros [= <- <-] _. exists before, e, rest.
  set (result := fallbackSuccess (config s) e (0 + len before) ∅ answer).
  split; [done|]. split; [done|]. split; [done|]. split; [done|].
  split; [done|].
  change (Tools.SearchResponse.Results
            (buildSearchResponse result (Tools.SearchRequest.Query r') elapsed))
    with (elems (SearchResponse.Results result)).
  pose proof (fallbackSuccess_results (config s) e (0 + len before) answer)
    as Hres.
  pose proof (head_capped (config s)
    (markFallback e (0 + len before + 1)
       <$> firstOccurrences SearchResultItem.URL
             (elems (SearchResponse.Results answer)))) as Hhead.
  rewrite <- Hres in Hhead. fold result in Hhead.
  destruct (elems (SearchResponse.Results result)) as [|y ys] eqn:Hl.
  { unfold buildSearchResponse. by rewrite Hl. }
  destruct (firstOccurrences _ _) as [|x xs]; [done|].
  simpl in Hhead. injection Hhead as ->.
  destruct (buildSearchResponse_fallback result
              (Tools.SearchRequest.Query r') elapsed e (0 + len before + 1)
              x ys Hl) as [-> ->].
  split; [done|].
  destruct before as [|b bs].
  - done.
  - rewrite decide_False by done.
    assert ((0 + len (b :: bs) + 1 >? 1) = true) as ->; [|done].
    apply Z.gtb_lt. unfold len. simpl. lia.
Qed.

Lemma search_tool_reports_fallback_attempt_witness :
  exists resp after,
    searchFunc None (λ _, inl (failing "down")) registry
      (ready ["a"; "c"]) (toolRequest "q") [] 7
    = (Return resp, after)
    /\ Tools.SearchResponse.Success resp = true
    /\ Tools.SearchResponse.Engine resp = "c"
    /\ Tools.SearchResponse.Message resp
       = "Fallback strategy was used, succeeded on attempt 2"
    /\ after.2 = ["a"; "c"].
Proof.
  eexists _, _. split; [vm_compute; reflexivity|].
  destruct (search_tool_reports_fallback_attempt None
              (λ _, inl (failing "down")) registry
              (ready ["a"; "c"]) _ (toolRequest "q") [] 7 _ _
              eq_refl eq_refl eq_refl eq_refl eq_refl eq_refl)
    as (before & e & rest & _).
  split_and!; vm_compute; reflexivity.
Defined.

End ToolFacts.

Module WebToolFacts.
Import Strategies.
Import Agent WebTool.

Lemma format_and_timeout format timeout :
  (if negb (String.eqb format "") && negb (Web.IsValid format)
   then Some (errorString
                ("unsupported format: " +:+ format
                   +:+ ", supported formats are: text, markdown, html"))
   else if timeout <? 0
   then Some (errorString "timeout cannot be a negative number")
   else None) = None
  <-> format ∈ [""; "text"; "html"; "markdown"] /\ 0 <= timeout.
Proof.
  unfold Web.IsValid. rewrite !elem_of_cons, elem_of_nil.
  destruct (String.eqb_spec format "") as [Hf|Hf]; simpl.
  - destruct (Z.ltb_spec timeout 0); split; try done.
    + intros [_ ?]. lia.
    + intros _. split; [by left|lia].
  - destruct (String.eqb_spec format "text");
      destruct (String.eqb_spec format "html");
      destruct (String.eqb_spec format "markdown"); simpl;
      try (destruct (Z.ltb_spec timeout 0); split; try done;
           [intros [_ ?]; lia|intros _; split; [tauto|lia]]).
    split; [done|]. intros [? _]. tauto.
Qed.

(** X20.  [validateWebScrapeRequest] accepts a request exactly when it has
    either a URL or a non-empty list of URLs but not both, its format is
    empty or one of text, html and markdown, and its timeout is not
    negative. *)
Theorem web_request_validation request :
  validateWebScrapeRequest request = None
  <-> (Tools.WebScrapeRequest.URL request = ""
       <-> Tools.WebScrapeRequest.URLs request ≠ [])
      /\ Tools.WebScrapeRequest.Format request
           ∈ [""; "text"; "html"; "markdown"]
      /\ 0 <= Tools.WebScrapeRequest.Timeout request.
Proof.
  unfold validateWebScrapeRequest.
  destruct request as [url urls format timeout]. simpl.
  destruct (String.eqb_spec url "") as [Hu|Hu];
    destruct urls as [|u urls];
    rewrite ?len_cons_nonzero, ?len_cons_pos; simpl.
  - split; [done|]. intros [H _]. by apply H in Hu.
  - rewrite format_and_timeout. split; [|tauto]. intros H.
    split; [|done]. done.
  - rewrite format_and_timeout. split; [|tauto]. intros H.
    split; [|done]. split; [done|]. by intros ?.
  - split; [done|]. intros [H _]. exfalso. apply Hu, H. done.
Qed.

End WebToolFacts.

(** * The nodes of the research graph, one at a time, and a whole run *)

Module ResearchFacts.
Import Strategies.
Import Agent StreamingResearchState Research.

(** ** Selection *)

Lemma pick_spec questions : forall index selected maxPriority,
  (pick questions index selected maxPriority = selected
   /\ forall q, q ∈ questions ->
        ~ (ResearchQuestion.Status q = QuestionStatusPending
           /\ maxPriority < ResearchQuestion.Priority q))
  \/ (exists k q,
        pick questions index selected maxPriority = Some (index + k)%nat
        /\ questions !! k = Some q
        /\ ResearchQuestion.Status q = QuestionStatusPending
        /\ maxPriority < ResearchQuestion.Priority q
        /\ forall j q', questions !! j = Some q' ->
             ResearchQuestion.Status q' = QuestionStatusPending ->
             ResearchQuestion.Priority q' < ResearchQuestion.Priority q
             \/ (ResearchQuestion.Priority q' = ResearchQuestion.Priority q
                 /\ (k <= j)%nat)).
Proof.
  induction questions as [|q0 rest IH]; intros index selected maxPriority;
    simpl.
  { left. split; [done|]. intros q Hq. by apply elem_of_nil in Hq. }
  destruct (String.eqb_spec (ResearchQuestion.Status q0) QuestionStatusPending)
    as [Hp|Hnp]; simpl.
  - destruct (Z.gtb_spec (ResearchQuestion.Priority q0) maxPriority)
      as [Hgt|Hle].
    + right.
      destruct (IH (S index) (Some index) (ResearchQuestion.Priority q0))
        as [[Hsel Hnone]|(k & q & Hpick & Hk & Hq & Hbig & Hbest)].
      * exists 0%nat, q0. rewrite Hsel, Nat.add_0_r.
        split_and!; [done..|]. intros [|j] q' Hj Hq'; simpl in Hj.
        -- injection Hj as <-. right. split; [done|lia].
        -- apply list_elem_of_lookup_2 in Hj.
           specialize (Hnone q' Hj). 
           destruct (Z.lt_trichotomy (ResearchQuestion.Priority q')
                       (ResearchQuestion.Priority q0)) as [?|[?|?]];
             [by left|right; split; [done|lia]|tauto].
      * exists (S k), q. rewrite Hpick.
        split_and!; [f_equal; lia|done|done|lia|].
        intros [|j] q' Hj Hq'; simpl in Hj.
        -- injection Hj as <-. left. lia.
        -- destruct (Hbest j q' Hj Hq') as [?|[? ?]];
             [by left|right; split; [done|lia]].
    + destruct (IH (S index) selected maxPriority)
        as [[Hsel Hnone]|(k & q & Hpick & Hk & Hq & Hbig & Hbest)].
      * left. split; [done|]. intros q [->|Hq]%elem_of_cons; [lia|auto].
      * right. exists (S k), q. rewrite Hpick.
        split_and!; [f_equal; lia|done|done|lia|].
        intros [|j] q' Hj Hq'; simpl in Hj.
        -- injection Hj as <-. left. lia.
        -- destruct (Hbest j q' Hj Hq') as [?|[? ?]];
             [by left|right; split; [done|lia]].
  - destruct (IH (S index) selected maxPriority)
      as [[Hsel Hnone]|(k & q & Hpick & Hk & Hq & Hbig & Hbest)].
    + left. split; [done|]. intros q [->|Hq]%elem_of_cons; [tauto|auto].
    + right. exists (S k), q. rewrite Hpick.
      split_and!; [f_equal; lia|done|done|lia|].
      intros [|j] q' Hj Hq'; simpl in Hj.
      * injection Hj as <-. done.
      * destruct (Hbest j q' Hj Hq') as [?|[? ?]];
          [by left|right; split; [done|lia]].
Qed.

(** What selection returns from the start of the list. *)
Lemma pick_first_best questions :
  match pick questions 0 None (-1) with
  | None => forall q, q ∈ questions -> ~ eligible q
  | Some i =>
      exists q,
        questions !! i = Some q /\ eligible q
        /\ forall j q', questions !! j = Some q' -> eligible q' ->
             ResearchQuestion.Priority q' < ResearchQuestion.Priority q
             \/ (ResearchQuestion.Priority q' = ResearchQuestion.Priority q
                 /\ (i <= j)%nat)
  end.
Proof.
  destruct (pick_spec questions 0 None (-1))
    as [[-> Hnone]|(k & q & -> & Hk & Hq & Hbig & Hbest)].
  - intros q Hin [Hp Hpr]. apply (Hnone q Hin). split; [done|lia].
  - simpl. exists q. split_and!; [done|split; [done|lia]|].
    intros j q' Hj [Hp _]. by apply Hbest.
Qed.

Section Select.
Context (agent : StreamingResearchAgent) (json : Json)
        (cfg : ResearchConfig.t).

Lemma setResearchQuestions_same s :
  setResearchQuestions (ResearchQuestions s) s = s.
Proof. by destruct s. Qed.

(** What [selectQuestionNode] does to the state. *)
Lemma selectQuestionNode_effect w :
  channelOpen (state w) ->
  exists w',
    selectQuestionNode w = (Return tt, w')
    /\ channelOpen (state w')
    /\ calls w' = calls w
    /\ state w'
       = setThoughtChannel (ThoughtChannel (state w'))
           (match pick (ResearchQuestions (state w)) 0 None (-1) with
            | None => setCurrentResearchQ None (state w)
            | Some i =>
                updateCurrent
                  (ResearchQuestion.setStatus QuestionStatusResearching)
                  (setCurrentResearchQ (Some i) (state w))
            end).
Proof.
  intros Hopen. unfold selectQuestionNode.
  unfold mbind, M_bind, bind, get, modify. simpl.
  destruct (pick (ResearchQuestions (state w)) 0 None (-1)) as [i|]; simpl.
  - rewrite sendThought_open by solve_open w. simpl.
    eexists. split; [reflexivity|]. split_and!; [solve_open w|done|done].
  - eexists. split; [reflexivity|]. split_and!; [solve_open w|done|done].
Qed.

(** X23.  On an open channel [selectQuestionNode] returns without calling
    the model or a tool and keeps the number of questions.  It makes current
    the first question, in list order, among the pending questions of the
    highest priority, and marks it as being researched, changing nothing
    else in the list; a pending question of negative priority is never
    picked, and when no question can be picked the list is unchanged and no
    question is current.  The branch after it then goes to the search node
    in the first case and to the synthesis node in the second. *)
Theorem select_picks_first_highest_priority w :
  channelOpen (state w) ->
  exists w',
    selectQuestionNode w = (Return tt, w')
    /\ calls w' = calls w
    /\ length (ResearchQuestions (state w'))
       = length (ResearchQuestions (state w))
    /\ match CurrentResearchQ (state w') with
       | None =>
           (forall q, q ∈ ResearchQuestions (state w) -> ~ eligible q)
           /\ ResearchQuestions (state w') = ResearchQuestions (state w)
       | Some i =>
           exists q,
             ResearchQuestions (state w) !! i = Some q
             /\ eligible q
             /\ (forall j q', ResearchQuestions (state w) !! j = Some q' ->
                   eligible q' ->
                   ResearchQuestion.Priority q' < ResearchQuestion.Priority q
                   \/ (ResearchQuestion.Priority q'
                         = ResearchQuestion.Priority q
                       /\ (i <= j)%nat))
             /\ ResearchQuestions (state w')
                = <[i := ResearchQuestion.setStatus QuestionStatusResearching
                           q]> (ResearchQuestions (state w))
       end
    /\ selectQuestionCondition w'
       = (Return (match CurrentResearchQ (state w') with
                 | Some _ => NodeSearchQuestion
                 | None => NodeSynthesizeFinalAnswer
                 end), w').
Proof.
  intros Hopen.
  destruct (selectQuestionNode_effect w Hopen) as (w' & Hrun & _ & Hc & Hst).
  exists w'. split; [done|]. split; [done|].
  pose proof (pick_first_best (ResearchQuestions (state w))) as Hpick.
  assert (selectQuestionCondition w'
          = (Return (match CurrentResearchQ (state w') with
                    | Some _ => NodeSearchQuestion
                    | None => NodeSynthesizeFinalAnswer
                    end), w')) as Hcond.
  { unfold selectQuestionCondition, mbind, M_bind, bind, get. simpl.
    by destruct (CurrentResearchQ (state w')). }
  rewrite Hst in *. clear Hst.
  destruct (pick (ResearchQuestions (state w)) 0 None (-1)) as [i|]; simpl.
  - destruct Hpick as (q & Hi & Hel & Hbest).
    split; [by rewrite length_alter|]. split; [|done].
    exists q. split_and!; [done..|].
    apply list_eq. intros j. rewrite list_lookup_alter, list_lookup_insert.
    destruct (decide (i = j)) as [<-|Hne].
    + rewrite Hi. simpl. rewrite decide_True; [done|].
      split; [done|]. by eapply lookup_lt_Some.
    + rewrite decide_False; [done|]. tauto.
  - split; [done|]. split; [|done]. done.
Qed.

End Select.

Lemma select_picks_first_highest_priority_witness :
  exists w',
    selectQuestionNode
      (Samples.world [Samples.asked "A" "pending" 3;
                      Samples.asked "B" "pending" 5;
                      Samples.asked "C" "completed" 9;
                      Samples.asked "D" "pending" 5] 1) = (Return tt, w')
    /\ CurrentResearchQ (state w') = Some 1%nat
    /\ ResearchQuestion.Status <$> ResearchQuestions (state w')
       = ["pending"; "researching"; "completed"; "pending"].
Proof.
  destruct (select_picks_first_highest_priority
              (Samples.world [Samples.asked "A" "pending" 3;
                              Samples.asked "B" "pending" 5;
                              Samples.asked "C" "completed" 9;
                              Samples.asked "D" "pending" 5] 1))
    as (w' & Hrun & _).
  - done.
  - exists w'. split; [exact Hrun|].
    vm_compute in Hrun. injection Hrun as <-. split; vm_compute; reflexivity.
Defined.

(** ** The search and the scrape node *)

Lemma collectURLs_spec items :
  collectURLs items
  = filter (λ u : string, u ≠ "") (Search.SearchResultItem.URL <$> items).
Proof.
  induction items as [|x items IH]; simpl; [done|].
  rewrite filter_cons.
  destruct (String.eqb_spec (Search.SearchResultItem.URL x) "") as [He|Hne];
    simpl.
  - by rewrite decide_False by (intros ?; congruence).
  - rewrite decide_True by done. by f_equal.
Qed.

Section Nodes.
Context (agent : StreamingResearchAgent) (json : Json)
        (cfg : ResearchConfig.t).

Lemma scrapeWebContentNode_effect w :
  channelOpen (state w) ->
  exists r w',
    scrapeWebContentNode agent json w = (r, w')
    /\ channelOpen (state w')
    /\ r ≠ Panicked nilDereference
    /\ match wanted (state w) with
       | [] =>
           r = Return tt /\ calls w' = calls w
           /\ state w' = setThoughtChannel (ThoughtChannel (state w')) (state w)
       | urls =>
           let webReq := Tools.WebScrapeRequest.mk "" urls "text" 0 in
           calls w' = calls w ++ [CallWebTool webReq]
           /\ match webTool agent webReq with
              | inr err =>
                  r = Fail (wrapError "web scraping failed: " (Some err))
                  /\ state w'
                     = setThoughtChannel (ThoughtChannel (state w')) (state w)
              | inl resultStr =>
                  match unmarshalWebScrapeResponse json resultStr with
                  | inr err =>
                      r = Fail (wrapError
                                  "failed to deserialize web scrape result: "
                                  (Some err))
                      /\ state w'
                         = setThoughtChannel (ThoughtChannel (state w'))
                             (state w)
                  | inl webResp =>
                      r = Return tt
                      /\ state w'
                         = setThoughtChannel (ThoughtChannel (state w'))
                             (updateCurrent
                                (λ q, ResearchQuestion.setWebContents
                                        (ResearchQuestion.WebContents q
                                           ++ [webResp]) q) (state w))
                  end
              end
       end.
Proof.
  intros Hopen. unfold scrapeWebContentNode, wanted.
  unfold mbind, M_bind, bind, get, called, fail, modify. simpl.
  destruct (current (state w)) as [q|] eqn:Hcur; simpl.
  2:{ eexists _, _. split; [reflexivity|]. split_and!; [done..|].
      by rewrite setThoughtChannel_same. }
  destruct (last (ResearchQuestion.SearchResults q)) as [latest|]; simpl.
  2:{ eexists _, _. split; [reflexivity|]. split_and!; [done..|].
      by rewrite setThoughtChannel_same. }
  rewrite sendThought_open by done. simpl.
  rewrite collectURLs_spec.
  destruct (filter _ _) as [|u urls] eqn:Hurls; simpl.
  - rewrite sendThought_open by (by apply afterSend_open). simpl.
    eexists _, _. split; [reflexivity|].
    split; [by do 2 apply afterSend_open|]. split; [done|]. split; [done|]. split; [done|].
    reflexivity.
  - change (len (u :: urls) =? 0) with false. cbv iota.
    destruct (webTool agent _) as [resultStr|err]; simpl.
    2:{ eexists _, _. split; [reflexivity|].
        split; [by apply afterSend_open|]. done. }
    destruct (unmarshalWebScrapeResponse json resultStr) as [webResp|err];
      simpl.
    2:{ eexists _, _. split; [reflexivity|].
        split; [by apply afterSend_open|]. done. }
    rewrite sendThought_open.
    2:{ unfold channelOpen, afterSend in *. simpl in *.
        rewrite ThoughtChannel_updateCurrent. simpl.
        by destruct (ThoughtChannel (state w)). }
    simpl. eexists _, _. split; [reflexivity|].
    split; [|split; [done|split; [done|split; [done|]]]].
    + unfold channelOpen, afterSend in *. simpl in *.
      rewrite ThoughtChannel_updateCurrent. simpl.
      by destruct (ThoughtChannel (state w)).
    + simpl. unfold updateCurrent. simpl.
      by destruct (CurrentResearchQ (state w)).
Qed.

End Nodes.

Lemma sameButChannel_refl s : sameButChannel s s.
Proof. unfold sameButChannel. by rewrite setThoughtChannel_same. Qed.

Lemma sameButChannel_afterSend t w :
  sameButChannel (state w) (state (afterSend t w)).
Proof. unfold sameButChannel, afterSend. by destruct w as [[] ?]. Qed.

Lemma sameButChannel_trans s1 s2 s3 :
  sameButChannel s1 s2 -> sameButChannel s2 s3 -> sameButChannel s1 s3.
Proof.
  unfold sameButChannel. intros H1 H2. rewrite H2 at 1. rewrite H1.
  by destruct s1.
Qed.

Lemma forward_open stage action chunks : forall result w,
  channelOpen (state w) ->
  exists w',
    forward stage action chunks result w
    = (Return (foldl (λ acc chunk, acc +:+ chunk) result chunks), w')
    /\ channelOpen (state w')
    /\ calls w' = calls w
    /\ sameButChannel (state w) (state w').
Proof.
  induction chunks as [|chunk rest IH]; intros result w Hopen; simpl.
  - exists w. split_and!; [done..|apply sameButChannel_refl].
  - unfold mbind, M_bind, bind. rewrite sendThought_open by done.
    destruct (IH (result +:+ chunk) (afterSend (thought stage chunk action) w))
      as (w' & Hrun & Ho & Hc & Hs); [by apply afterSend_open|].
    exists w'. split_and!; [done..|].
    eapply sameButChannel_trans; [apply sameButChannel_afterSend|done].
Qed.

Section Nodes.
Context (agent : StreamingResearchAgent) (json : Json)
        (cfg : ResearchConfig.t).

Lemma searchQuestionNode_effect w :
  channelOpen (state w) ->
  exists r w',
    searchQuestionNode agent json w = (r, w')
    /\ channelOpen (state w')
    /\ match current (state w) with
       | None =>
           r = Return tt /\ calls w' = calls w
           /\ sameButChannel (state w) (state w')
       | Some q =>
           let searchReq :=
             Tools.SearchRequest.mk (ResearchQuestion.Question q) 0 "" "" ""
               "" in
           calls w' = calls w ++ [CallSearchTool searchReq]
           /\ match searchTool agent searchReq with
              | inr err =>
                  r = Fail (wrapError "search failed: " (Some err))
                  /\ sameButChannel (state w) (state w')
              | inl resultStr =>
                  match unmarshalSearchResponse json resultStr with
                  | inr err =>
                      r = Fail (wrapError
                                  "failed to deserialize search result: "
                                  (Some err))
                      /\ sameButChannel (state w) (state w')
                  | inl searchResp =>
                      r = Return tt
                      /\ sameButChannel
                           (updateCurrent
                              (λ q, ResearchQuestion.setSearchResults
                                      (ResearchQuestion.SearchResults q
                                         ++ [searchResp]) q) (state w))
                           (state w')
                  end
              end
       end.
Proof.
  intros Hopen. unfold searchQuestionNode.
  unfold mbind, M_bind, bind, get, called, fail, modify. simpl.
  destruct (current (state w)) as [q|] eqn:Hcur; simpl.
  2:{ eexists _, _. split; [reflexivity|]. split_and!; [done..|].
      apply sameButChannel_refl. }
  rewrite sendThought_open by done. simpl.
  destruct (searchTool agent _) as [resultStr|err]; simpl.
  2:{ eexists _, _. split; [reflexivity|].
      split; [by apply afterSend_open|]. split; [done|]. split; [done|].
      apply sameButChannel_afterSend. }
  destruct (unmarshalSearchResponse json resultStr) as [searchResp|err];
    simpl.
  2:{ eexists _, _. split; [reflexivity|].
      split; [by apply afterSend_open|]. split; [done|]. split; [done|].
      apply sameButChannel_afterSend. }
  rewrite sendThought_open.
  2:{ unfold channelOpen, afterSend in *. simpl in *.
      rewrite ThoughtChannel_updateCurrent. simpl.
      by destruct (ThoughtChannel (state w)). }
  simpl. eexists _, _. split; [reflexivity|].
  split; [|split; [done|split; [done|]]].
  - unfold channelOpen, afterSend in *. simpl in *.
    rewrite ThoughtChannel_updateCurrent. simpl.
    by destruct (ThoughtChannel (state w)).
  - unfold sameButChannel. simpl. unfold updateCurrent. simpl.
    by destruct (CurrentResearchQ (state w)).
Qed.

Lemma analyzeQuestionNode_effect w :
  channelOpen (state w) ->
  exists r w',
    analyzeQuestionNode agent cfg w = (r, w')
    /\ channelOpen (state w')
    /\ match r with
       | Return _ =>
           match current (state w) with
           | None => sameButChannel (state w) (state w')
           | Some q =>
               exists prompt chunks,
                 calls w' = calls w ++ [CallStream (AnalyzeQuestionPrompt prompt)]
                 /\ chatStream agent (AnalyzeQuestionPrompt prompt) = inl chunks
                 /\ sameButChannel
                      (analysed q (foldl (λ acc chunk, acc +:+ chunk) "" chunks)
                         (state w))
                      (state w')
           end
       | _ => sameButChannel (state w) (state w')
       end.
Proof.
  intros Hopen. unfold analyzeQuestionNode.
  unfold mbind, M_bind, bind, get, called, fail, panic, modify. simpl.
  destruct (current (state w)) as [q|] eqn:Hcur; simpl.
  2:{ eexists _, _. split; [reflexivity|]. split; [done|].
      apply sameButChannel_refl. }
  rewrite sendThought_open by done. simpl.
  destruct (addBatches cfg _ _) as [c|e|why]; simpl.
  2:{ eexists _, _. split; [reflexivity|].
      split; [by apply afterSend_open|]. apply sameButChannel_afterSend. }
  2:{ eexists _, _. split; [reflexivity|].
      split; [by apply afterSend_open|]. apply sameButChannel_afterSend. }
  destruct (chatStream agent _) as [chunks|err] eqn:Hstream; simpl.
  2:{ eexists _, _. split; [reflexivity|].
      split; [by apply afterSend_open|]. apply sameButChannel_afterSend. }
  match goal with
  | |- context [forward ?st ?ac chunks "" ?w0] =>
      destruct (forward_open st ac chunks "" w0)
        as (w1 & Hfw & Ho1 & Hc1 & Hs1);
        [by apply afterSend_open|]
  end.
  rewrite Hfw. simpl.
  rewrite sendThought_open.
  2:{ unfold channelOpen in *. simpl.
      by rewrite ThoughtChannel_updateCurrent. }
  simpl. eexists _, _. split; [reflexivity|]. split.
  { unfold channelOpen in *. simpl. rewrite ThoughtChannel_updateCurrent.
    by destruct (ThoughtChannel (state w1)). }
  eexists _, chunks. split; [by rewrite Hc1|]. split; [exact Hstream|].
  unfold sameButChannel, analysed. simpl.
  unfold sameButChannel in Hs1. simpl in Hs1. rewrite Hs1.
  unfold updateCurrent. simpl.
  by destruct (CurrentResearchQ (state w)).
Qed.

End Nodes.

(** ** The books of a run *)

(** ** Lists *)

Lemma completedTexts_alter_same f i l q :
  l !! i = Some q ->
  (completed (f q) <-> completed q) ->
  (completed q -> ResearchQuestion.Question (f q) = ResearchQuestion.Question q) ->
  completedTexts (alter f i l) = completedTexts l.
Proof.
  unfold completedTexts. revert i.
  induction l as [|x l IH]; intros [|i] Hi Hc Hq; simpl in *; try done.
  - injection Hi as ->. rewrite !filter_cons.
    destruct (decide (completed q)) as [Hy|Hn].
    + rewrite decide_True by tauto. simpl. by rewrite Hq.
    + by rewrite decide_False by tauto.
  - rewrite !filter_cons. specialize (IH i Hi Hc Hq).
    destruct (decide (completed x)); [|done].
    rewrite !fmap_cons. by f_equal.
Qed.

Lemma completedTexts_alter_completed f i l q :
  l !! i = Some q -> ~ completed q -> completed (f q) ->
  completedTexts (alter f i l)
    ≡ₚ ResearchQuestion.Question (f q) :: completedTexts l.
Proof.
  unfold completedTexts. revert i.
  induction l as [|x l IH]; intros [|i] Hi Hn Hy; simpl in *; try done.
  - injection Hi as ->. rewrite !filter_cons.
    by rewrite decide_True, decide_False by done.
  - rewrite !filter_cons. specialize (IH i Hi Hn Hy).
    destruct (decide (completed x)); [|done].
    rewrite !fmap_cons, IH. apply perm_swap.
Qed.

Lemma completedTexts_app l1 l2 :
  completedTexts (l1 ++ l2) = completedTexts l1 ++ completedTexts l2.
Proof. unfold completedTexts. by rewrite filter_app, fmap_app. Qed.

Lemma completedTexts_pending l :
  Forall (λ q, ResearchQuestion.Status q = QuestionStatusPending) l ->
  completedTexts l = [].
Proof.
  unfold completedTexts. induction 1 as [|q l Hq _ IH]; [done|].
  rewrite filter_cons, decide_False; [done|].
  unfold completed. rewrite Hq. done.
Qed.

Lemma completedTexts_length l : len (completedTexts l) <= len l.
Proof.
  unfold completedTexts, len. rewrite length_fmap.
  pose proof (length_filter completed l). lia.
Qed.

(** ** The invariant under the changes that the nodes make *)

Lemma consistent_sameButChannel bound s s' :
  sameButChannel s s' -> consistent bound s -> consistent bound s'.
Proof.
  unfold sameButChannel. intros Hs H. rewrite Hs. destruct s.
  exact H.
Qed.

Lemma consistent_updateCurrent bound f s :
  (forall q, ResearchQuestion.Status (f q) = ResearchQuestion.Status q
             /\ ResearchQuestion.Question (f q) = ResearchQuestion.Question q) ->
  consistent bound s -> consistent bound (updateCurrent f s).
Proof.
  intros Hf H. pose proof H as (Hlen & Hcount & Hcur & Hres).
  unfold updateCurrent.
  destruct (CurrentResearchQ s) as [i|] eqn:Hi; [|done]. clear H.
  destruct (Hcur i eq_refl) as (q & Hq & Hst).
  assert (completedTexts (alter f i (ResearchQuestions s))
          = completedTexts (ResearchQuestions s)) as Htexts.
  { apply (completedTexts_alter_same f i _ q); [done| |].
    - unfold completed. by rewrite (proj1 (Hf q)).
    - intros _. apply Hf. }
  unfold consistent. destruct s; simpl in *. rewrite Htexts.
  split_and!; [|done| |done].
  - unfold len in *. by rewrite length_alter.
  - intros j Hj. rewrite Hi in Hj. injection Hj as <-.
    exists (f q). rewrite list_lookup_alter_eq, Hq. simpl.
    split; [done|]. by rewrite (proj1 (Hf q)).
Qed.

Lemma consistent_selected bound s :
  consistent bound s ->
  consistent bound
    (match pick (ResearchQuestions s) 0 None (-1) with
     | None => setCurrentResearchQ None s
     | Some i =>
         updateCurrent (ResearchQuestion.setStatus QuestionStatusResearching)
           (setCurrentResearchQ (Some i) s)
     end).
Proof.
  intros (Hlen & Hcount & Hcur & Hres).
  destruct (pick_spec (ResearchQuestions s) 0 None (-1))
    as [[-> Hnone]|(k & q & -> & Hk & Hq & Hbig & Hbest)].
  { destruct s; by split_and!. }
  simpl.
  assert (completedTexts
            (alter (ResearchQuestion.setStatus QuestionStatusResearching) k
               (ResearchQuestions s))
          = completedTexts (ResearchQuestions s)) as Htexts.
  { apply (completedTexts_alter_same _ k _ q); [done| |done].
    unfold completed. simpl. rewrite Hq. done. }
  unfold consistent, updateCurrent. destruct s; simpl in *. rewrite Htexts.
  split_and!; [|done| |done].
  - unfold len in *. by rewrite length_alter.
  - intros j [= <-]. eexists. rewrite list_lookup_alter_eq, Hk. simpl.
    split; [done|]. done.
Qed.

Lemma consistent_analysed bound s q analysis :
  bound < Go.max_int ->
  current s = Some q ->
  consistent bound s -> consistent bound (analysed q analysis s).
Proof.
  intros Hb Hq (Hlen & Hcount & Hcur & Hres).
  unfold current in Hq. destruct (CurrentResearchQ s) as [i|] eqn:Hi; [|done].
  destruct (Hcur i eq_refl) as (q' & Hq' & Hst).
  assert (q' = q) as -> by congruence.
  pose proof (completedTexts_alter_completed
    (λ q, ResearchQuestion.setStatus QuestionStatusCompleted
            (ResearchQuestion.setAnalysis analysis q)) i _ q Hq) as Hperm.
  simpl in Hperm.
  assert (~ completed q) as Hn. { unfold completed. by rewrite Hst. }
  specialize (Hperm Hn eq_refl).
  pose proof (completedTexts_length (ResearchQuestions s)) as Hle.
  unfold consistent, analysed, updateCurrent. rewrite Hi.
  destruct s; simpl in *. split_and!.
  - unfold len in *. by rewrite length_alter.
  - unfold len at 1. rewrite Hperm. simpl. unfold Go.add.
    rewrite wrap_id; [unfold len in *; lia|].
    unfold Go.is_int, Go.min_int, Go.max_int in *. unfold len in *. lia.
  - done.
  - intros text. rewrite Hperm, elem_of_cons, <- Hres.
    destruct (decide (text = ResearchQuestion.Question q)) as [->|Hne].
    + rewrite lookup_insert_eq. split; [by left|by eexists].
    + rewrite lookup_insert_ne by done. split; [by right|].
      by intros [?|?].
Qed.

Lemma consistent_added bound s added :
  Forall (λ q, ResearchQuestion.Status q = QuestionStatusPending) added ->
  len (ResearchQuestions s ++ added) <= bound ->
  consistent bound s ->
  consistent bound (setResearchQuestions (ResearchQuestions s ++ added) s).
Proof.
  intros Hp Hnew (Hlen & Hcount & Hcur & Hres).
  unfold consistent. destruct s; simpl in *.
  rewrite completedTexts_app, (completedTexts_pending added Hp), app_nil_r.
  split_and!; [done..| |done].
  intros i Hi. destruct (Hcur i Hi) as (q & Hq & Hst). exists q.
  split; [|done]. by apply lookup_app_l_Some.
Qed.

Lemma acceptLoop_shape state maxNew data : forall i acc,
  exists new,
    acceptLoop state maxNew i data acc = acc ++ new
    /\ Forall (λ q, ResearchQuestion.Status q = QuestionStatusPending) new
    /\ len (acc ++ new) <= Z.max (len acc) maxNew.
Proof.
  induction data as [|d data IH]; intros i acc; simpl.
  - exists []. rewrite app_nil_r. split_and!; [done..|lia].
  - destruct (Z.geb_spec (len acc) maxNew) as [Hfull|Hroom].
    + exists []. rewrite app_nil_r. split_and!; [done..|lia].
    + destruct (isSimilarQuestionResearched _ _); [apply IH|].
      match goal with |- context [acc ++ [?q]] =>
        destruct (IH (i + 1) (acc ++ [q])) as (new & -> & Hp & Hl);
        exists (q :: new) end.
      rewrite <- app_assoc. split; [done|]. split.
      * constructor; [done|done].
      * rewrite <- app_assoc in Hl. simpl in Hl. rewrite len_snoc in Hl. lia.
Qed.

Lemma invariant_ret I {A} (a : A) : invariant I (mret a).
Proof. by intros w. Qed.

Lemma invariant_fail I {A} e : invariant I (@fail A e).
Proof. by intros w. Qed.

Lemma invariant_bind I {A B} (m : M A) (k : A -> M B) :
  invariant I m -> (forall a, invariant I (k a)) -> invariant I (m ≫= k).
Proof.
  intros Hm Hk w Hw. unfold mbind, M_bind, bind.
  specialize (Hm w Hw). destruct (m w) as [[a|e|why] w1]; simpl in *;
    [by apply Hk|done..].
Qed.

Lemma invariant_task I {A} (m : M A) : invariant I m -> invariant I (task m).
Proof.
  intros Hm w Hw. unfold task. specialize (Hm w Hw).
  by destruct (m w) as [[a|e|why] w1].
Qed.

Lemma invariant_branch I condition endNodes :
  invariant I condition -> invariant I (branch condition endNodes).
Proof.
  intros Hc. unfold branch. apply invariant_bind; [by apply invariant_task|].
  intros next. destruct (decide _); [apply invariant_ret|apply invariant_fail].
Qed.

Section Nodes.
Context (agent : StreamingResearchAgent) (json : Json)
        (cfg : ResearchConfig.t).

Lemma generateQuestionsNode_effect w :
  channelOpen (state w) ->
  Go.is_int (ResearchConfig.MaxSteps cfg - reservedSteps) ->
  len (ResearchQuestions (state w)) <= Go.max_int ->
  exists r w' added,
    generateQuestionsNode agent json cfg w = (r, w')
    /\ channelOpen (state w')
    /\ sameButChannel
         (setResearchQuestions (ResearchQuestions (state w) ++ added) (state w))
         (state w')
    /\ Forall (λ q, ResearchQuestion.Status q = QuestionStatusPending) added
    /\ len (ResearchQuestions (state w) ++ added)
       <= Z.max (len (ResearchQuestions (state w)))
            (maxTotalQuestions (ResearchConfig.MaxSteps cfg)).
Proof.
  intros Hopen Hint Hlen.
  assert (len (ResearchQuestions (state w) ++ [])
          <= Z.max (len (ResearchQuestions (state w)))
               (maxTotalQuestions (ResearchConfig.MaxSteps cfg))) as Hnil.
  { rewrite app_nil_r. lia. }
  unfold generateQuestionsNode.
  unfold mbind, M_bind, bind, get, called, fail. simpl.
  rewrite sendThought_open by done. simpl.
  set (prompt := GenerateQuestionsPrompt _ _).
  destruct (chatGenerate agent prompt) as [content|err]; simpl.
  2:{ eexists _, _, []. split; [reflexivity|].
      split; [solve_open w|]. split; [|done].
      unfold sameButChannel. simpl. rewrite app_nil_r.
      by destruct w as [[] ?]. }
  destruct (unmarshalQuestions json content) as [data|err]; simpl.
  2:{ eexists _, _, []. split; [reflexivity|].
      split; [solve_open w|]. split; [|done].
      unfold sameButChannel. simpl. rewrite app_nil_r.
      by destruct w as [[] ?]. }
  rewrite (calculateMaxQuestions_spec _ _ Hint)
    by (split; [apply Nat2Z.is_nonneg|done]).
  simpl.
  rewrite sendThought_open by solve_open w. simpl.
  destruct (Z.leb_spec (Z.max 0 (maxTotalQuestions (ResearchConfig.MaxSteps cfg)
                          - len (ResearchQuestions (state w)))) 0)
    as [Hnone|Hsome].
  - rewrite sendThought_open by solve_open w. simpl.
    eexists _, _, []. split; [reflexivity|].
    split; [solve_open w|]. split; [|done].
    unfold sameButChannel. simpl. rewrite app_nil_r.
    by destruct w as [[] ?].
  - unfold modify. simpl.
    destruct (acceptLoop_shape (state w)
                (Z.max 0 (maxTotalQuestions (ResearchConfig.MaxSteps cfg)
                          - len (ResearchQuestions (state w)))) data 0 [])
      as (new & Hnew & Hp & Hl).
    rewrite Hnew. simpl in *.
    rewrite sendThought_open by solve_open w.
    simpl. eexists _, _, new. split; [reflexivity|].
    split; [solve_open w|].
    split; [by unfold sameButChannel|]. split; [done|].
    clear -Hl Hsome. unfold len in *. rewrite length_app. simpl in Hl. lia.
Qed.

End Nodes.

Lemma kept_get bound : invariant (kept bound) get.
Proof. by intros w. Qed.

Lemma kept_called bound c : invariant (kept bound) (called c).
Proof. by intros w. Qed.

Lemma kept_sendThought bound t : invariant (kept bound) (sendThought t).
Proof.
  intros w [Hopen Hc]. rewrite sendThought_open by done. simpl. split.
  - by apply afterSend_open.
  - eapply consistent_sameButChannel; [apply sameButChannel_afterSend|done].
Qed.

Lemma kept_forward bound stage action chunks : forall result,
  invariant (kept bound) (forward stage action chunks result).
Proof.
  induction chunks as [|chunk rest IH]; intros result; simpl.
  - apply invariant_ret.
  - apply invariant_bind; [apply kept_sendThought|]. intros _. apply IH.
Qed.

Lemma kept_modify bound f :
  (forall s, ThoughtChannel (f s) = ThoughtChannel s) ->
  (forall s, consistent bound s -> consistent bound (f s)) ->
  invariant (kept bound) (modify f).
Proof.
  intros Hch Hf w [Hopen Hc]. simpl. split; [|by apply Hf].
  unfold channelOpen in *. by rewrite Hch.
Qed.

Ltac kept_step :=
  lazymatch goal with
  | |- invariant _ (mbind _ _) => apply invariant_bind; [|intros ?]
  | |- invariant _ (sendThought _) => apply kept_sendThought
  | |- invariant _ (forward _ _ _ _) => apply kept_forward
  | |- invariant _ (mret _) => apply invariant_ret
  | |- invariant _ (fail _) => apply invariant_fail
  | |- invariant _ get => apply kept_get
  | |- invariant _ (called _) => apply kept_called
  | |- invariant _ (task _) => apply invariant_task
  | |- invariant _ (match ?x with _ => _ end) => destruct x
  end.

Section Nodes.
Context (agent : StreamingResearchAgent) (json : Json)
        (cfg : ResearchConfig.t).

Lemma kept_judgeSufficient st :
  invariant (kept (questionBound cfg)) (judgeSufficient agent st).
Proof. unfold judgeSufficient. repeat kept_step. Qed.

Lemma kept_checkCompletionCondition :
  invariant (kept (questionBound cfg)) (checkCompletionCondition agent cfg).
Proof.
  unfold checkCompletionCondition. repeat kept_step.
  apply kept_judgeSufficient.
Qed.

Lemma kept_selectQuestionCondition :
  invariant (kept (questionBound cfg)) selectQuestionCondition.
Proof. unfold selectQuestionCondition. repeat kept_step. Qed.

Lemma kept_incrementIterationNode :
  invariant (kept (questionBound cfg)) incrementIterationNode.
Proof.
  unfold incrementIterationNode. repeat kept_step.
  apply kept_modify; [done|]. intros s H. by destruct s.
Qed.

Lemma kept_synthesizeFinalAnswerNode :
  invariant (kept (questionBound cfg)) (synthesizeFinalAnswerNode agent).
Proof.
  unfold synthesizeFinalAnswerNode. repeat kept_step.
  - apply kept_modify; [done|]. intros s H. by destruct s.
  - apply kept_modify; [done|]. intros s H. by destruct s.
Qed.

Lemma kept_selectQuestionNode : invariant (kept (questionBound cfg)) selectQuestionNode.
Proof.
  intros w [Hopen Hc].
  destruct (selectQuestionNode_effect w Hopen) as (w' & -> & Ho & _ & Hs).
  simpl. split; [done|].
  eapply consistent_sameButChannel; [exact Hs|]. by apply consistent_selected.
Qed.

Lemma kept_searchQuestionNode :
  invariant (kept (questionBound cfg)) (searchQuestionNode agent json).
Proof.
  intros w [Hopen Hc].
  destruct (searchQuestionNode_effect agent json w Hopen)
    as (r & w' & -> & Ho & H).
  simpl. split; [done|].
  destruct (current (state w)) as [q|].
  - destruct H as [_ H]. destruct (searchTool agent _) as [resultStr|err].
    + destruct (unmarshalSearchResponse json resultStr) as [resp|err].
      * destruct H as [_ H].
        eapply consistent_sameButChannel; [exact H|].
        by apply consistent_updateCurrent.
      * destruct H as [_ H]. by eapply consistent_sameButChannel.
    + destruct H as [_ H]. by eapply consistent_sameButChannel.
  - destruct H as (_ & _ & H). by eapply consistent_sameButChannel.
Qed.

Lemma kept_scrapeWebContentNode :
  invariant (kept (questionBound cfg)) (scrapeWebContentNode agent json).
Proof.
  intros w [Hopen Hc].
  destruct (scrapeWebContentNode_effect agent json w Hopen)
    as (r & w' & -> & Ho & _ & H).
  simpl. split; [done|].
  destruct (wanted (state w)) as [|u urls].
  - destruct H as (_ & _ & H). by eapply consistent_sameButChannel.
  - destruct H as [_ H]. destruct (webTool agent _) as [resultStr|err].
    + destruct (unmarshalWebScrapeResponse json resultStr) as [resp|err].
      * destruct H as [_ H].
        eapply consistent_sameButChannel; [exact H|].
        by apply consistent_updateCurrent.
      * destruct H as [_ H]. by eapply consistent_sameButChannel.
    + destruct H as [_ H]. by eapply consistent_sameButChannel.
Qed.

Lemma bound_small :
  Go.is_int (ResearchConfig.MaxSteps cfg - reservedSteps) ->
  questionBound cfg < Go.max_int.
Proof.
  unfold questionBound, maxTotalQuestions, Go.is_int, Go.min_int, Go.max_int,
    reservedSteps, StepsPerQuestion.
  intros H.
  assert ((ResearchConfig.MaxSteps cfg - 5) / 6 < 2 ^ 63 - 1); [|lia].
  apply Z.div_lt_upper_bound; lia.
Qed.

Lemma kept_analyzeQuestionNode :
  Go.is_int (ResearchConfig.MaxSteps cfg - reservedSteps) ->
  invariant (kept (questionBound cfg)) (analyzeQuestionNode agent cfg).
Proof.
  intros Hint w [Hopen Hc].
  destruct (analyzeQuestionNode_effect agent cfg w Hopen)
    as (r & w' & -> & Ho & H).
  simpl. split; [done|].
  destruct r as [[]|e|why]; [|by eapply consistent_sameButChannel..].
  destruct (current (state w)) as [q|] eqn:Hq;
    [|by eapply consistent_sameButChannel].
  destruct H as (prompt & chunks & _ & _ & H).
  eapply consistent_sameButChannel; [exact H|].
  apply consistent_analysed; [by apply bound_small|done..].
Qed.

Lemma kept_generateQuestionsNode :
  Go.is_int (ResearchConfig.MaxSteps cfg - reservedSteps) ->
  invariant (kept (questionBound cfg)) (generateQuestionsNode agent json cfg).
Proof.
  intros Hint w [Hopen Hc].
  pose proof (bound_small Hint) as Hb.
  assert (len (ResearchQuestions (state w)) <= Go.max_int) as Hlen.
  { destruct Hc as [Hc _]. lia. }
  destruct (generateQuestionsNode_effect agent json cfg w Hopen Hint Hlen)
    as (r & w' & added & -> & Ho & Hs & Hp & Hl).
  simpl. split; [done|].
  eapply consistent_sameButChannel; [exact Hs|].
  apply consistent_added; [done| |done].
  destruct Hc as [Hc _]. unfold questionBound in *. lia.
Qed.

Lemma kept_runFrom steps :
  Go.is_int (ResearchConfig.MaxSteps cfg - reservedSteps) ->
  forall node, invariant (kept (questionBound cfg)) (runFrom agent json cfg steps node).
Proof.
  intros Hint.
  induction steps as [|steps IH]; intros node; simpl; [apply invariant_fail|].
  repeat match goal with
         | |- invariant _ (if ?b then _ else _) => destruct b
         end;
    repeat first
      [ apply kept_generateQuestionsNode | apply kept_selectQuestionNode
      | apply kept_searchQuestionNode | apply kept_scrapeWebContentNode
      | apply kept_analyzeQuestionNode | apply kept_synthesizeFinalAnswerNode
      | apply kept_incrementIterationNode
      | apply kept_checkCompletionCondition
      | apply kept_selectQuestionCondition
      | apply invariant_task | apply invariant_branch
      | apply invariant_bind; [|intros ?] | apply IH
      | apply invariant_fail | done ].
Qed.

(** X25.  When the step budget minus the reserve fits an int, the state at
    the end of every run, however it ends, has at most
    max(0, (MaxSteps - 5) / 6) questions; its counter of completed questions
    is the number of questions with status completed; a text is in the
    researched set exactly when it is the text of a completed question; and
    a current question, if any, is in the list with status researching. *)
Theorem run_keeps_the_books query room :
  Go.is_int (ResearchConfig.MaxSteps cfg - reservedSteps) ->
  let s := state (final agent json cfg query room).2 in
  len (ResearchQuestions s) <= Z.max 0 (maxTotalQuestions (ResearchConfig.MaxSteps cfg))
  /\ CompletedQuestions s = len (filter completed (ResearchQuestions s))
  /\ (forall text,
        is_Some (ResearchedQuestions s !! text)
        <-> exists q, q ∈ ResearchQuestions s /\ completed q
                      /\ ResearchQuestion.Question q = text)
  /\ match CurrentResearchQ s with
     | Some i =>
         exists q, ResearchQuestions s !! i = Some q
                   /\ ResearchQuestion.Status q = QuestionStatusResearching
     | None => True
     end.
Proof.
  intros Hint. cbv zeta. unfold final, Invoke.
  match goal with |- context [?m {| state := ?st; calls := [] |}] =>
    assert (invariant (kept (questionBound cfg)) m) as Hm end.
  { apply invariant_bind.
    - apply invariant_branch, kept_checkCompletionCondition.
    - intros next. by apply kept_runFrom. }
  match goal with |- context [?m ?w0] =>
    match type of Hm with invariant _ m => specialize (Hm w0) end end.
  destruct Hm as [_ (Hlen & Hcount & Hcur & Hres)].
  { split; [done|]. unfold consistent, initialState. simpl.
    split_and!; [unfold questionBound, len; simpl; lia|done|done|].
    intros text. rewrite lookup_empty. split; [by intros [? ?]|].
    intros Hin. by apply elem_of_nil in Hin. }
  split; [done|]. split.
  { rewrite Hcount. unfold completedTexts, len. by rewrite length_fmap. }
  split.
  - intros text. rewrite Hres. unfold completedTexts.
    rewrite list_elem_of_fmap. split.
    + intros (q & -> & [Hc Hin]%list_elem_of_filter). by exists q.
    + intros (q & Hin & Hc & <-). exists q. split; [done|].
      by apply list_elem_of_filter.
  - destruct (CurrentResearchQ _) as [i|]; [|done]. by apply Hcur.
Qed.

End Nodes.

Lemma run_keeps_the_books_witness :
  let s := state (final Samples.chat Samples.decoder
                    (Samples.researchConfig 3 50) "monads" (λ _, true)).2 in
  len (ResearchQuestions s) <= 7
  /\ CompletedQuestions s = len (filter completed (ResearchQuestions s)).
Proof.
  destruct (run_keeps_the_books Samples.chat Samples.decoder
              (Samples.researchConfig 3 50) "monads" (λ _, true))
    as (Hlen & Hcount & _).
  - by vm_compute.
  - split; [exact Hlen|exact Hcount].
Defined.

(** ** What the nodes ask of the tools *)

Section Requests.
Context (agent : StreamingResearchAgent) (json : Json).

(** X21.  On an open channel the scrape node calls the web tool at most
    once: not at all when the latest search of the current question has no
    non-empty URL (or there is no current question or no search), else once
    with those URLs, in order and with repetitions, the format [text], no
    single URL and timeout 0.  That request passes the validation of the web
    tool. *)
Theorem scrape_requests_pass_validation w :
  channelOpen (state w) ->
  exists requests,
    calls (scrapeWebContentNode agent json w).2
      = calls w ++ (CallWebTool <$> requests)
    /\ requests
       = (if decide (wanted (state w) = []) then []
          else [Tools.WebScrapeRequest.mk "" (wanted (state w)) "text" 0])
    /\ Forall (λ r, WebTool.validateWebScrapeRequest r = None) requests.
Proof.
  intros Hopen.
  destruct (scrapeWebContentNode_effect agent json w Hopen)
    as (r & w' & -> & _ & _ & H). simpl.
  destruct (wanted (state w)) as [|u urls] eqn:Hw.
  - exists []. destruct H as (_ & -> & _). rewrite app_nil_r.
    split; [done|]. split; [done|constructor].
  - destruct H as [-> _].
    exists [Tools.WebScrapeRequest.mk "" (u :: urls) "text" 0].
    split; [done|].
    split; [done|]. constructor; [|constructor].
    unfold WebTool.validateWebScrapeRequest.
    cbn [Tools.WebScrapeRequest.URL Tools.WebScrapeRequest.URLs
         Tools.WebScrapeRequest.Format Tools.WebScrapeRequest.Timeout].
    by rewrite len_cons_nonzero, ?len_cons_pos.
Qed.

(** X22.  On an open channel the search node calls the search tool once
    with the text of the current question, a result count of 0 and no
    language, region, safe-search or time range, and not at all without a
    current question.  The search tool turns that request into one for 10
    results from offset 0, or rejects it when the text of the question is
    empty. *)
Theorem search_requests_ask_for_ten_results w :
  channelOpen (state w) ->
  exists requests,
    calls (searchQuestionNode agent json w).2
      = calls w ++ (CallSearchTool <$> requests)
    /\ requests
       = match current (state w) with
         | Some q =>
             [Tools.SearchRequest.mk (ResearchQuestion.Question q) 0 "" "" ""
                ""]
         | None => []
         end
    /\ Forall (λ r,
         match SearchTool.validateSearchRequest r with
         | (Some err, _) =>
             Tools.SearchRequest.Query r = ""
             /\ err = errorString "search query cannot be empty"
         | (None, r') =>
             Search.SearchRequest.Query (SearchTool.buildSearchRequest r')
               = Tools.SearchRequest.Query r
             /\ Search.SearchRequest.Num (SearchTool.buildSearchRequest r')
                = 10
             /\ Search.SearchRequest.Offset (SearchTool.buildSearchRequest r')
                = 0
         end) requests.
Proof.
  intros Hopen.
  destruct (searchQuestionNode_effect agent json w Hopen)
    as (r & w' & -> & _ & H). simpl.
  destruct (current (state w)) as [q|].
  - destruct H as [-> _].
    exists [Tools.SearchRequest.mk (ResearchQuestion.Question q) 0 "" "" ""
              ""].
    split; [done|]. split; [done|].
    constructor; [|constructor].
    unfold SearchTool.validateSearchRequest. simpl.
    by destruct (String.eqb_spec (ResearchQuestion.Question q) "").
  - destruct H as (_ & -> & _). exists []. rewrite app_nil_r.
    split; [done|]. split; [done|constructor].
Qed.

End Requests.

Lemma scrape_requests_pass_validation_witness :
  calls (scrapeWebContentNode Samples.chat Samples.decoder
           (Samples.worldAt [Samples.researching "What is a monad"] 0)).2
  = [CallWebTool (Tools.WebScrapeRequest.mk "" ["u1"; "u2"] "text" 0)].
Proof.
  destruct (scrape_requests_pass_validation Samples.chat Samples.decoder
              (Samples.worldAt [Samples.researching "What is a monad"] 0))
    as (requests & Hcalls & Hrequests & _).
  - done.
  - rewrite Hcalls, Hrequests. vm_compute. reflexivity.
Defined.

Lemma search_requests_ask_for_ten_results_witness :
  calls (searchQuestionNode Samples.chat Samples.decoder
           (Samples.worldAt [Samples.researching "What is a monad"] 0)).2
  = [CallSearchTool (Samples.toolRequest "What is a monad")].
Proof.
  destruct (search_requests_ask_for_ten_results Samples.chat Samples.decoder
              (Samples.worldAt [Samples.researching "What is a monad"] 0))
    as (requests & Hcalls & Hrequests & _).
  - done.
  - rewrite Hcalls, Hrequests. vm_compute. reflexivity.
Defined.

Section Analysis.
Context (agent : StreamingResearchAgent) (cfg : ResearchConfig.t).

Lemma addPages_safe pages : forall c why,
  0 <= ResearchConfig.MaxSingleContent cfg ->
  addPages cfg pages c ≠ Panicked why.
Proof.
  induction pages as [|p pages IH]; intros c why Hm; simpl; [done|].
  destruct (_ >=? _); [done|].
  destruct (Z.ltb_spec (ResearchConfig.MaxSingleContent cfg) 0); [lia|].
  rewrite andb_false_r. by apply IH.
Qed.

Lemma addBatches_safe batches : forall c why,
  0 <= ResearchConfig.MaxSingleContent cfg ->
  addBatches cfg batches c ≠ Panicked why.
Proof.
  induction batches as [|b batches IH]; intros c why Hm; simpl; [done|].
  pose proof (addPages_safe (Tools.WebScrapeResponse.Results b) c) as Hp.
  destruct (addPages cfg _ c) as [c'|e|why'].
  - destruct (_ >=? _); [done|]. by apply IH.
  - done.
  - by destruct (Hp why' Hm).
Qed.

(** X24.  On an open channel, with a current question in the list,
    [analyzeQuestionNode] does not panic when the limit for one page is not
    negative.  When it returns, it has streamed one analysis prompt; the
    current question has the concatenated chunks as analysis and status
    completed and the other questions are as before, its text is in the
    researched set, the counter of completed questions is one higher
    (wrapping), and no question is current.  When it fails, the questions,
    the researched set, the counter and the current question are as
    before. *)
Theorem analysis_completes_the_current_question w i q :
  channelOpen (state w) ->
  CurrentResearchQ (state w) = Some i ->
  ResearchQuestions (state w) !! i = Some q ->
  exists r w',
    analyzeQuestionNode agent cfg w = (r, w')
    /\ (0 <= ResearchConfig.MaxSingleContent cfg ->
        forall why, r ≠ Panicked why)
    /\ match r with
       | Return _ =>
           exists prompt chunks,
             chatStream agent (AnalyzeQuestionPrompt prompt) = inl chunks
             /\ calls w' = calls w ++ [CallStream (AnalyzeQuestionPrompt prompt)]
             /\ ResearchQuestions (state w')
                = <[i := ResearchQuestion.setStatus QuestionStatusCompleted
                           (ResearchQuestion.setAnalysis
                              (foldl (λ acc chunk, acc +:+ chunk) "" chunks)
                              q)]> (ResearchQuestions (state w))
             /\ ResearchedQuestions (state w')
                = <[ResearchQuestion.Question q := true]>
                    (ResearchedQuestions (state w))
             /\ CompletedQuestions (state w')
                = Go.add (CompletedQuestions (state w)) 1
             /\ CurrentResearchQ (state w') = None
       | _ =>
           ResearchQuestions (state w') = ResearchQuestions (state w)
           /\ ResearchedQuestions (state w') = ResearchedQuestions (state w)
           /\ CompletedQuestions (state w') = CompletedQuestions (state w)
           /\ CurrentResearchQ (state w') = Some i
       end.
Proof.
  intros Hopen Hi Hq.
  destruct (analyzeQuestionNode_effect agent cfg w Hopen)
    as (r & w' & Hrun & _ & H).
  exists r, w'. split; [done|]. split.
  { intros Hm why ->. revert Hrun. unfold analyzeQuestionNode.
    unfold mbind, M_bind, bind, get, called, fail, panic, modify. simpl.
    unfold current. rewrite Hi, Hq.
    rewrite sendThought_open by done. simpl.
    pose proof (addBatches_safe (ResearchQuestion.WebContents q)) as Hsafe.
    match goal with |- context [addBatches cfg ?b ?c] =>
      specialize (Hsafe c); destruct (addBatches cfg b c) as [c'|e|why']
    end; [|done|by destruct (Hsafe why' Hm)].
    simpl. destruct (chatStream agent _) as [chunks|err]; [|done].
    simpl.
    match goal with
    | |- context [forward ?st ?ac chunks "" ?w0] =>
        destruct (forward_open st ac chunks "" w0)
          as (w1 & Hfw & Ho1 & Hc1 & Hs1);
          [by apply afterSend_open|]
    end.
    rewrite Hfw. simpl. rewrite sendThought_open; [done|].
    unfold channelOpen in *. simpl. by rewrite ThoughtChannel_updateCurrent. }
  assert (current (state w) = Some q) as Hcur.
  { unfold current. by rewrite Hi. }
  rewrite Hcur in H.
  destruct r as [[]|e|why].
  - destruct H as (prompt & chunks & Hc & Hs & H). exists prompt, chunks.
    split; [done|]. split; [done|].
    unfold sameButChannel in H. rewrite H. unfold analysed, updateCurrent.
    rewrite Hi. simpl. split_and!; try done.
    apply list_eq. intros j. rewrite list_lookup_alter, list_lookup_insert.
    destruct (decide (i = j)) as [<-|Hne].
    + rewrite Hq. simpl. rewrite decide_True; [done|].
      split; [done|]. by eapply lookup_lt_Some.
    + rewrite decide_False; [done|]. tauto.
  - unfold sameButChannel in H. rewrite H. by destruct (state w).
  - unfold sameButChannel in H. rewrite H. by destruct (state w).
Qed.

End Analysis.

Lemma analysis_completes_the_current_question_witness :
  let after :=
    analyzeQuestionNode Samples.chat (Samples.researchConfig 3 50)
      (Samples.worldAt [Samples.researching "What is a monad"] 0) in
  after.1 = Return tt
  /\ CompletedQuestions (state after.2) = 1
  /\ CurrentResearchQ (state after.2) = None
  /\ ResearchQuestion.Analysis <$> ResearchQuestions (state after.2)
     = ["The answer is 42."].
Proof.
  cbv zeta.
  destruct (analysis_completes_the_current_question Samples.chat
              (Samples.researchConfig 3 50)
              (Samples.worldAt [Samples.researching "What is a monad"] 0)
              0%nat (Samples.researching "What is a monad"))
    as (r & w' & Hrun & _); [done..|].
  rewrite Hrun. vm_compute in Hrun. injection Hrun as <- <-.
  split_and!; vm_compute; reflexivity.
Defined.

(** ** The sources of the final answer *)

(** X27.  A URL is among the sources that [extractSources] lists exactly
    when it is not empty and is the URL of an item of a search result of a
    question whose status is completed: the results of questions that are
    pending or being researched contribute nothing. *)
Theorem sources_are_the_urls_of_completed_questions state u :
  u ∈ extractSources state
  <-> u ≠ ""
      /\ exists q searchResult item,
           q ∈ ResearchQuestions state
           /\ ResearchQuestion.Status q = QuestionStatusCompleted
           /\ searchResult ∈ ResearchQuestion.SearchResults q
           /\ item ∈ Tools.SearchResponse.Results searchResult
           /\ Search.SearchResultItem.URL item = u.
Proof.
  unfold extractSources. rewrite list_elem_of_bind. split.
  - intros (q & Hu & Hq).
    destruct (String.eqb_spec (ResearchQuestion.Status q)
                QuestionStatusCompleted) as [Hc|Hc];
      [|by apply elem_of_nil in Hu].
    apply list_elem_of_bind in Hu as (sr & Hu & Hsr).
    rewrite collectURLs_spec in Hu.
    apply list_elem_of_filter in Hu as [Hne Hu].
    apply list_elem_of_fmap in Hu as (item & -> & Hitem).
    split; [done|]. by exists q, sr, item.
  - intros (Hne & q & sr & item & Hq & Hc & Hsr & Hitem & <-).
    exists q. split; [|done].
    destruct (String.eqb_spec (ResearchQuestion.Status q)
                QuestionStatusCompleted); [|done].
    apply list_elem_of_bind. exists sr. split; [|done].
    rewrite collectURLs_spec. apply list_elem_of_filter. split; [done|].
    apply list_elem_of_fmap. by exists item.
Qed.

(** ** Similar questions *)

Lemma filter_among {A} (P : A -> Prop) `{!forall x, Decision (P x)}
    `{!EqDecision A} (l' l : list A) :
  l' ⊆ l -> filter (λ w, P w /\ w ∈ l) l' = filter P l'.
Proof.
  induction l' as [|x l' IH]; intros Hsub; [done|].
  rewrite !filter_cons.
  assert (x ∈ l) as Hx by (apply Hsub; by left).
  rewrite IH by (intros y Hy; apply Hsub; by right).
  destruct (decide (P x)) as [Hp|Hn].
  - by rewrite decide_True by done.
  - by rewrite decide_False by tauto.
Qed.

Lemma above_half a b :
  0 <= a <= b ->
  (SimilarityThreshold < inject_Z a / inject_Z b)%Q <-> b < 2 * a.
Proof.
  intros Hab. unfold SimilarityThreshold.
  destruct (decide (b = 0)) as [->|Hb].
  - assert (a = 0) as -> by lia. split; [|lia].
    unfold Qlt, Qdiv, Qmult, Qinv. simpl. lia.
  - assert (0 < b) as Hpos by lia.
    unfold Qlt, Qdiv, Qmult, Qinv, inject_Z. simpl.
    destruct b as [|p|p]; try lia. simpl. lia.
Qed.

Section Functions.
Context (ToLower : string -> string) (Fields : string -> list string).

Lemma similarToAny_no_tokens newQuestionLower keys :
  Fields newQuestionLower = [] ->
  Library.similarToAny ToLower Fields newQuestionLower keys = false.
Proof.
  intros He. induction keys as [|k keys IH]; simpl; [done|].
  unfold Library.similarTo. rewrite He. simpl. exact IH.
Qed.

(** What an exact repeat, up to [ToLower], comes to. *)
Lemma similar_to_itself candidate researched :
  ToLower candidate = ToLower researched ->
  (SimilarityThreshold
     < Overlap.overlapRatio ToLower Fields candidate researched)%Q
  <-> len (Overlap.tokens ToLower Fields researched)
      < 2 * len (filter qualifying (Overlap.tokens ToLower Fields researched)).
Proof.
  intros Hlow.
  unfold Overlap.overlapRatio, Overlap.sharedTokens, Overlap.tokens.
  rewrite Hlow, filter_among by done.
  apply above_half. split; [apply Nat2Z.is_nonneg|].
  unfold len.
  pose proof (length_filter qualifying (Fields (ToLower researched))). lia.
Qed.

End Functions.

(** X26.  Whatever [strings.ToLower] and [strings.Fields] return,
    [isSimilarQuestionResearched] is false when nothing has been researched,
    and false for a candidate without a token, whatever has been researched.
    A candidate that lower-cases to the same text as the one researched
    question is similar to it exactly when more than half of the tokens of
    that question, counted with repetitions, are longer than the minimum
    length of two bytes: a repeated question made mostly of words of one or
    two bytes is not detected. *)
Theorem similarity_edge_cases :
  forall (ToLower : string -> string) (Fields : string -> list string),
    (forall candidate,
       Library.isSimilarQuestionResearched ToLower Fields candidate ∅ = false)
    /\ (forall candidate researchedQuestions,
          Overlap.tokens ToLower Fields candidate = [] ->
          Library.isSimilarQuestionResearched ToLower Fields candidate
            researchedQuestions = false)
    /\ (forall candidate researched,
          ToLower candidate = ToLower researched ->
          Library.isSimilarQuestionResearched ToLower Fields candidate
            {[researched := true]} = true
          <-> len (Overlap.tokens ToLower Fields researched)
              < 2 * len (filter qualifying
                           (Overlap.tokens ToLower Fields researched))).
Proof.
  intros ToLower Fields. split_and!.
  - intros candidate. unfold Library.isSimilarQuestionResearched.
    by rewrite map_to_list_empty.
  - intros candidate m He. unfold Library.isSimilarQuestionResearched.
    by apply similarToAny_no_tokens.
  - intros candidate researched Hlow.
    unfold Library.isSimilarQuestionResearched.
    rewrite map_to_list_singleton.
    change ([(researched, true)].*1) with [researched].
    rewrite similarToAny_spec, <- (similar_to_itself _ _ candidate) by done.
    split.
    + intros (r & Hin & Hr). by apply list_elem_of_singleton in Hin as ->.
    + intros Hlt. exists researched. split; [by left|done].
Qed.

Lemma similarity_edge_cases_witness :
  isSimilarQuestionResearched "What is AI" {["what is ai" := true]} = false
  /\ isSimilarQuestionResearched "The and for" {["the and for" := true]}
     = true.
Proof.
  rewrite !isSimilarQuestionResearched_instance.
  destruct (similarity_edge_cases Strings.ToLower Strings.Fields)
    as (_ & _ & Hrepeat).
  split.
  - apply not_true_iff_false. intros H.
    apply (Hrepeat "What is AI" "what is ai") in H; [|reflexivity].
    vm_compute in H. discriminate.
  - apply (Hrepeat "The and for" "the and for"); [reflexivity|].
    vm_compute. reflexivity.
Defined.

End ResearchFacts.
